(** * pdfcpu: validation of external objects (pkg/pdfcpu/validateXObject.go)

    A shallow embedding of the XObject validators: image and form stream
    dictionaries, masks, alternate images, reference dictionaries and
    OPI version dictionaries, together with the entry primitives and the
    cross reference table they consult. *)

From Stdlib Require Import ZArith String Ascii PrimFloat SpecFloat FloatOps.
From stdpp Require Import base option list gmap strings.

#[local] Set Warnings "-register-all,-inexact-float".
#[local] Open Scope string_scope.

(** ** Object model *)

(** A stream dictionary: the header dictionary and the names of the
    filters of its pipeline, parametric in the object type so that it can
    sit inside [PDFObject]. *)
Record PDFStreamDictOf (O : Type) : Type := mkStreamDict {
  PDFDict_of : gmap string O;
  FilterPipeline : list string
}.
Arguments mkStreamDict {O} _ _.
Arguments PDFDict_of {O} _.
Arguments FilterPipeline {O} _.

(** [PDFObject] is the Go interface of that name; its nil value (the null
    object) is [PDFNull]. *)
Inductive PDFObject : Type :=
| PDFNull
| PDFBoolean (b : bool)
| PDFInteger (i : Z)
| PDFFloat (f : float)
| PDFName (s : string)
| PDFStringLiteral (s : string)
| PDFHexLiteral (s : string)
| PDFArray (a : list PDFObject)
| PDFDict (d : gmap string PDFObject)
| PDFStreamDict (sd : PDFStreamDictOf PDFObject)
| PDFIndirectRef (ObjectNumber GenerationNumber : Z).

Abbreviation Dict := (gmap string PDFObject).
Abbreviation StreamDict := (PDFStreamDictOf PDFObject).

Inductive PDFVersion : Type := V10 | V11 | V12 | V13 | V14 | V15 | V16 | V17.

Definition versionIndex (v : PDFVersion) : nat :=
  match v with
  | V10 => 0 | V11 => 1 | V12 => 2 | V13 => 3
  | V14 => 4 | V15 => 5 | V16 => 6 | V17 => 7
  end.

Definition PDFVersion_eqb (v w : PDFVersion) : bool :=
  Nat.eqb (versionIndex v) (versionIndex w).

Definition PDFVersion_ltb (v w : PDFVersion) : bool :=
  Nat.ltb (versionIndex v) (versionIndex w).

Inductive Mode : Type := ValidationStrict | ValidationRelaxed.

Definition Mode_eqb (m n : Mode) : bool :=
  match m, n with
  | ValidationStrict, ValidationStrict => true
  | ValidationRelaxed, ValidationRelaxed => true
  | _, _ => false
  end.

(** The cross reference table as the validators see it: the objects by
    object and generation number, the document's version and the
    validation mode. *)
Record XRefTable : Type := mkXRefTable {
  Table : gmap (Z * Z) PDFObject;
  Version : PDFVersion;
  ValidationMode : Mode
}.

Definition REQUIRED : bool := true.
Definition OPTIONAL : bool := false.

Definition ExcludePatternCS : bool := true.
Definition IncludePatternCS : bool := false.
Definition isAlternateImageStreamDict : bool := true.
Definition isNoAlternateImageStreamDict : bool := false.

(** ** Errors *)

(** The error kinds of the specification (section 7). *)
Inductive ErrorKind : Type :=
| MissingRequiredEntry | TypeMismatch | ConstraintViolation | VersionViolation
| ConflictingEntries | MissingDependentEntry | UnknownSubtype
| UnsupportedConstruct | BrokenReference | RecursionLimitExceeded
| SchemaViolation | Cancelled.

(** The places of validateXObject.go that build an error with
    [errors.New] or [errors.Errorf], one constructor per place. *)
Inductive Site : Type :=
| ReferenceDictPageEntry_corruptType
| ReferenceDict_missingPage
| OPIDictInks_corruptColorant
| OPIDictInks_corruptType
| OPIVersionDict_notOneEntry
| OPIVersionDict_invalidVersion
| MaskStreamDict_corruptType
| MaskStreamDict_corruptSubtype
| MaskEntry_corruptEntry (dictName entryName : string)
| AlternateImageStreamDicts_missing (dictName entryName : string)
| FormStreamDictPart2_missingLastModified
| FormStreamDictPart2_bothStructParents
| XObjectStreamDict_PostScript
| XObjectStreamDict_unknownSubtype (subtype : string).

(** An error is raised either at a place of this file or by an entry
    primitive, which reports a kind, the dictionary and the key. *)
Inductive error : Type :=
| At (s : Site)
| Prim (k : ErrorKind) (dictName entryName : string).

Definition quoted (s : string) : string :=
  String (ascii_of_nat 34) (s ++ String (ascii_of_nat 34) EmptyString).

Definition newline : string := String (ascii_of_nat 10) EmptyString.

(** The message each place formats. *)
Definition message (s : Site) : string :=
  match s with
  | ReferenceDictPageEntry_corruptType =>
      "validateReferenceDictPageEntry: corrupt type"
  | ReferenceDict_missingPage =>
      "validateReferenceDict: missing required entry " ++ quoted "Page"
  | OPIDictInks_corruptColorant =>
      "validateOPIDictInks: corrupt colorant name"
  | OPIDictInks_corruptType =>
      "validateOPIDictInks: corrupt type"
  | OPIVersionDict_notOneEntry =>
      "validateOPIVersionDict: must have exactly one entry keyed 1.3 or 2.0"
  | OPIVersionDict_invalidVersion =>
      "validateOPIVersionDict: invalid OPI version"
  | MaskStreamDict_corruptType =>
      "validateMaskStreamDict: corrupt imageStreamDict type"
  | MaskStreamDict_corruptSubtype =>
      "validateMaskStreamDict: corrupt imageStreamDict subtype"
  | MaskEntry_corruptEntry dictName entryName =>
      "validateMaskEntry: dict=" ++ dictName ++ " corrupt entry "
        ++ quoted entryName ++ newline
  | AlternateImageStreamDicts_missing dictName entryName =>
      "validateAlternateImageStreamDicts: dict=" ++ dictName
        ++ " required entry " ++ quoted entryName ++ " missing."
  | FormStreamDictPart2_missingLastModified =>
      "validateFormStreamDictPart2: missing " ++ quoted "LastModified"
        ++ " (required by " ++ quoted "PieceInfo" ++ ")"
  | FormStreamDictPart2_bothStructParents =>
      "validateFormStreamDictPart2: only " ++ quoted "StructParent"
        ++ " or " ++ quoted "StructParents" ++ " allowed"
  | XObjectStreamDict_PostScript =>
      "validateXObjectStreamDict: PostScript XObjects should not be used"
  | XObjectStreamDict_unknownSubtype subtype =>
      "validateXObjectStreamDict: unknown Subtype: " ++ subtype ++ newline
  end.

(** Modelled from the spec: the code builds its errors from formatted
    strings and has no error kinds; section 7 of the specification names
    the kinds, and this is the kind each place of the file falls under
    by that section's wording. *)
Definition kindOfSite (s : Site) : ErrorKind :=
  match s with
  | ReferenceDictPageEntry_corruptType => TypeMismatch
  | ReferenceDict_missingPage => MissingRequiredEntry
  | OPIDictInks_corruptColorant => ConstraintViolation
  | OPIDictInks_corruptType => TypeMismatch
  | OPIVersionDict_notOneEntry => SchemaViolation
  | OPIVersionDict_invalidVersion => SchemaViolation
  | MaskStreamDict_corruptType => ConstraintViolation
  | MaskStreamDict_corruptSubtype => ConstraintViolation
  | MaskEntry_corruptEntry _ _ => TypeMismatch
  | AlternateImageStreamDicts_missing _ _ => MissingRequiredEntry
  | FormStreamDictPart2_missingLastModified => MissingDependentEntry
  | FormStreamDictPart2_bothStructParents => ConflictingEntries
  | XObjectStreamDict_PostScript => UnsupportedConstruct
  | XObjectStreamDict_unknownSubtype _ => UnknownSubtype
  end.

Definition kindOf (e : error) : ErrorKind :=
  match e with
  | At s => kindOfSite s
  | Prim k _ _ => k
  end.

(** ** Results *)

(** What a call does: it returns a value with a nil error ([Ok]), returns
    an error ([Err]), panics on a nil pointer ([Panic]), or, in this
    model, is cut off because the recursion budget is used up
    ([OutOfFuel]); the Go code itself has no such budget. *)
Inductive result (A : Type) : Type :=
| Ok (a : A)
| Err (e : error)
| Panic
| OutOfFuel.
Arguments Ok {A} _.
Arguments Err {A} _.
Arguments Panic {A}.
Arguments OutOfFuel {A}.

Definition bind {A B : Type} (m : result A) (k : A -> result B) : result B :=
  match m with
  | Ok a => k a
  | Err e => Err e
  | Panic => Panic
  | OutOfFuel => OutOfFuel
  end.

Notation "'let*' x := m 'in' k" := (bind m (fun x => k))
  (at level 10, x name, m at level 100, k at level 200).
Notation "'check' m 'in' k" := (bind m (fun _ => k))
  (at level 10, m at level 100, k at level 200).

(** [for _, a := range l { err := f(a); if err != nil { return err } }] *)
Fixpoint forEach {A : Type} (f : A -> result unit) (l : list A) : result unit :=
  match l with
  | [] => Ok tt
  | a :: l' => check f a in forEach f l'
  end.

Definition memberOf (s : string) (l : list string) : bool :=
  existsb (String.eqb s) l.

(** ** The cross reference table and the entry primitives

    None of these is defined in validateXObject.go; each is modelled
    from the specification, sections 3, 4.1 to 4.3 and 6. *)

(** Modelled from the spec: [dereference(objectNumber, generation) ->
    Value | BrokenReference] (section 6) and [resolve] (section 4.2): a
    value that is not an indirect reference is returned unchanged, a
    reference is looked up once in the table.  The result may be the null
    object, which the callers test with [obj == nil]. *)
Definition Dereference (x : XRefTable) (obj : PDFObject) : result PDFObject :=
  match obj with
  | PDFIndirectRef n g =>
      match Table x !! (n, g) with
      | Some o => Ok o
      | None => Err (Prim BrokenReference "" "")
      end
  | _ => Ok obj
  end.

(** Modelled from the spec: dereference to a dictionary; the null object
    gives the empty signal (a nil dictionary and a nil error, which the
    callers test with [dict == nil]), another kind is a TypeMismatch. *)
Definition DereferenceDict (x : XRefTable) (obj : PDFObject)
  : result (option Dict) :=
  let* o := Dereference x obj in
  match o with
  | PDFNull => Ok None
  | PDFDict d => Ok (Some d)
  | _ => Err (Prim TypeMismatch "" "")
  end.

(** Modelled from the spec: as [DereferenceDict], for stream dictionaries. *)
Definition DereferenceStreamDict (x : XRefTable) (obj : PDFObject)
  : result (option StreamDict) :=
  let* o := Dereference x obj in
  match o with
  | PDFNull => Ok None
  | PDFStreamDict sd => Ok (Some sd)
  | _ => Err (Prim TypeMismatch "" "")
  end.

(** Modelled from the spec: [validateStreamDict] resolves an array
    element to a stream dictionary, with the same empty signal. *)
Definition validateStreamDict (x : XRefTable) (obj : PDFObject)
  : result (option StreamDict) :=
  DereferenceStreamDict x obj.

(** Modelled from the spec: the version and mode policy of section 4.3.
    An entry is of the future when its minimum version exceeds the
    document's version. *)
Definition future (x : XRefTable) (sinceVersion : PDFVersion) : bool :=
  PDFVersion_ltb (Version x) sinceVersion.

(** Modelled from the spec: Strict mode raises VersionViolation for an
    entry of the future, Relaxed mode never does. *)
Definition ValidateVersion (x : XRefTable) (element : string)
    (sinceVersion : PDFVersion) : result unit :=
  if future x sinceVersion && Mode_eqb (ValidationMode x) ValidationStrict
  then Err (Prim VersionViolation element "")
  else Ok tt.

(** Modelled from the spec: the first steps of every entry primitive
    (section 4.1): look the key up; an absent key fails with
    MissingRequiredEntry when required (an entry of the future is not
    checked for requiredness, section 4.3) and is absent otherwise; a
    present value is dereferenced once, and a null target is a
    BrokenReference where a value was required and the empty signal
    otherwise (section 4.2). *)
Definition resolveEntry (x : XRefTable) (dict : Dict)
    (dictName entryName : string) (required : bool)
    (sinceVersion : PDFVersion) : result (option PDFObject) :=
  let required := required && negb (future x sinceVersion) in
  match dict !! entryName with
  | None =>
      if required then Err (Prim MissingRequiredEntry dictName entryName)
      else Ok None
  | Some obj =>
      let* o := Dereference x obj in
      match o with
      | PDFNull =>
          if required then Err (Prim BrokenReference dictName entryName)
          else Ok None
      | _ => Ok (Some o)
      end
  end.

(** Modelled from the spec: an entry of any kind; only its version is
    checked. *)
Definition validateEntry (x : XRefTable) (dict : Dict)
    (dictName entryName : string) (required : bool)
    (sinceVersion : PDFVersion) : result (option PDFObject) :=
  let* o := resolveEntry x dict dictName entryName required sinceVersion in
  match o with
  | None => Ok None
  | Some obj =>
      check ValidateVersion x entryName sinceVersion in Ok (Some obj)
  end.

(** Modelled from the spec: the contract of section 4.1 for an expected
    kind, given as a decoder: kind (TypeMismatch), then the predicate if
    one is supplied (ConstraintViolation), then the version
    (VersionViolation), then the decoded value.  A nil predicate of the Go
    code is [None]. *)
Definition validateKindEntry {A : Type} (decode : PDFObject -> option A)
    (x : XRefTable) (dict : Dict) (dictName entryName : string)
    (required : bool) (sinceVersion : PDFVersion)
    (validate : option (A -> bool)) : result (option A) :=
  let* o := resolveEntry x dict dictName entryName required sinceVersion in
  match o with
  | None => Ok None
  | Some obj =>
      match decode obj with
      | None => Err (Prim TypeMismatch dictName entryName)
      | Some a =>
          if match validate with Some p => p a | None => true end
          then check ValidateVersion x entryName sinceVersion in Ok (Some a)
          else Err (Prim ConstraintViolation dictName entryName)
      end
  end.

(** The conversion [float64(i)]: the integer rounded to binary64. *)
Definition Z2float (i : Z) : float :=
  SF2Prim (binary_normalize prec emax i 0%Z false).

Definition asBoolean (o : PDFObject) : option bool :=
  match o with PDFBoolean b => Some b | _ => None end.

Definition asInteger (o : PDFObject) : option Z :=
  match o with PDFInteger i => Some i | _ => None end.

Definition asNumber (o : PDFObject) : option float :=
  match o with
  | PDFInteger i => Some (Z2float i)
  | PDFFloat f => Some f
  | _ => None
  end.

Definition asName (o : PDFObject) : option string :=
  match o with PDFName s => Some s | _ => None end.

Definition asString (o : PDFObject) : option string :=
  match o with
  | PDFStringLiteral s => Some s
  | PDFHexLiteral s => Some s
  | _ => None
  end.

Definition asArray (o : PDFObject) : option (list PDFObject) :=
  match o with PDFArray a => Some a | _ => None end.

Definition asDict (o : PDFObject) : option Dict :=
  match o with PDFDict d => Some d | _ => None end.

Definition asStreamDict (o : PDFObject) : option StreamDict :=
  match o with PDFStreamDict sd => Some sd | _ => None end.

(** Every element of the array, dereferenced once, is of the kind. *)
Definition elementsAre {A : Type} (x : XRefTable)
    (decode : PDFObject -> option A) (a : list PDFObject) : bool :=
  forallb (fun o =>
             match Dereference x o with
             | Ok o' => match decode o' with Some _ => true | None => false end
             | _ => false
             end) a.

(** An array all of whose elements are of the kind. *)
Definition asArrayOf {A : Type} (x : XRefTable)
    (decode : PDFObject -> option A) (o : PDFObject)
  : option (list PDFObject) :=
  match o with
  | PDFArray a => if elementsAre x decode a then Some a else None
  | _ => None
  end.

(** A rectangle: exactly four numeric elements. *)
Definition asRectangle (x : XRefTable) (o : PDFObject)
  : option (list PDFObject) :=
  match asArrayOf x asNumber o with
  | Some a => if Nat.eqb (length a) 4 then Some a else None
  | None => None
  end.

Definition validateBooleanEntry := validateKindEntry asBoolean.
Definition validateIntegerEntry := validateKindEntry asInteger.
Definition validateNumberEntry := validateKindEntry asNumber.
Definition validateNameEntry := validateKindEntry asName.
Definition validateStringEntry := validateKindEntry asString.
Definition validateArrayEntry := validateKindEntry asArray.
Definition validateDictEntry := validateKindEntry asDict.
Definition validateStreamDictEntry := validateKindEntry asStreamDict.

Definition validateNumberArrayEntry (x : XRefTable) :=
  validateKindEntry (asArrayOf x asNumber) x.
Definition validateIntegerArrayEntry (x : XRefTable) :=
  validateKindEntry (asArrayOf x asInteger) x.
Definition validateStringArrayEntry (x : XRefTable) :=
  validateKindEntry (asArrayOf x asString) x.
Definition validateRectangleEntry (x : XRefTable) :=
  validateKindEntry (asRectangle x) x.

(** Modelled from the spec: a date entry; the specification names the
    kind and no format, so the value is a string. *)
Definition validateDateEntry (x : XRefTable) (dict : Dict)
    (dictName entryName : string) (required : bool)
    (sinceVersion : PDFVersion) : result (option string) :=
  validateKindEntry asString x dict dictName entryName required sinceVersion
    None.

(** A file specification is a string or a dictionary. *)
Definition asFileSpec (o : PDFObject) : option PDFObject :=
  match o with
  | PDFStringLiteral _ | PDFHexLiteral _ | PDFDict _ => Some o
  | _ => None
  end.

(** Modelled from the spec: the file specification entry [F]; the
    specification gives it no rule table, so only its kind is checked. *)
Definition validateFileSpecEntry (x : XRefTable) (dict : Dict)
    (dictName entryName : string) (required : bool)
    (sinceVersion : PDFVersion) : result (option PDFObject) :=
  validateKindEntry asFileSpec x dict dictName entryName required
    sinceVersion None.

(** A colour space is a name or an array headed by the family's name;
    the pattern family is refused when [excludePatternCS]. *)
Definition asColorSpace (excludePatternCS : bool) (o : PDFObject)
  : option PDFObject :=
  match o with
  | PDFName s =>
      if excludePatternCS && String.eqb s "Pattern" then None else Some o
  | PDFArray (PDFName s :: _) =>
      if excludePatternCS && String.eqb s "Pattern" then None else Some o
  | PDFArray _ => Some o
  | _ => None
  end.

(** Modelled from the spec: the colour space entry, a name or an array
    (no further descent); pattern colour spaces are not accepted when
    excluded (section 4.5).  It has no version argument in the code. *)
Definition validateColorSpaceEntry (x : XRefTable) (dict : Dict)
    (dictName entryName : string) (required : bool)
    (excludePatternCS : bool) : result unit :=
  let* o := resolveEntry x dict dictName entryName required V10 in
  match o with
  | None => Ok tt
  | Some obj =>
      match asColorSpace excludePatternCS obj with
      | Some _ => Ok tt
      | None =>
          match obj with
          | PDFName _ | PDFArray _ =>
              Err (Prim ConstraintViolation dictName entryName)
          | _ => Err (Prim TypeMismatch dictName entryName)
          end
      end
  end.

(** Modelled from the spec: the metadata entry, an optional stream that
    is delegated and not descended into here. *)
Definition validateMetadata (x : XRefTable) (dict : Dict) (required : bool)
    (sinceVersion : PDFVersion) : result unit :=
  check validateStreamDictEntry x dict "dict" "Metadata" required
          sinceVersion None in
  Ok tt.

(** Modelled from the spec: the optional content group dictionary is
    delegated; the specification gives it no rule table. *)
Definition validateOptionalContentGroupDict (x : XRefTable) (d : Dict)
    (sinceVersion : PDFVersion) : result unit :=
  Ok tt.

(** Modelled from the spec: [OC] of a form accepts a content group or a
    content membership dictionary and is not descended into. *)
Definition validateOptionalContent (x : XRefTable) (dict : Dict)
    (dictName entryName : string) (required : bool)
    (sinceVersion : PDFVersion) : result unit :=
  check validateDictEntry x dict dictName entryName required sinceVersion
          None in
  Ok tt.

(** Modelled from the spec: [PieceInfo] is an optional dictionary; the
    result says whether it is present. *)
Definition validatePieceInfo (x : XRefTable) (dict : Dict)
    (dictName entryName : string) (required : bool)
    (sinceVersion : PDFVersion) : result bool :=
  let* d := validateDictEntry x dict dictName entryName required
              sinceVersion None in
  Ok (match d with Some _ => true | None => false end).

(** The queries of a dictionary and of a stream dictionary. *)
Definition Find (d : Dict) (key : string) : option PDFObject := d !! key.

Definition Len (d : Dict) : nat := size d.

Definition NameEntry (d : Dict) (key : string) : option string :=
  match d !! key with
  | Some (PDFName s) => Some s
  | _ => None
  end.

Definition Type_ (d : Dict) : option string := NameEntry d "Type".
Definition Subtype (d : Dict) : option string := NameEntry d "Subtype".

Definition HasSoleFilterNamed (sd : StreamDict) (filterName : string) : bool :=
  match FilterPipeline sd with
  | [f] => String.eqb f filterName
  | _ => false
  end.

Module filter.
Definition JPX : string := "JPXDecode".
Definition CCITTFax : string := "CCITTFaxDecode".
End filter.

(** ** The validators of validateXObject.go *)

Definition validateReferenceDictPageEntry (x : XRefTable) (obj : PDFObject)
  : result unit :=
  let* obj := Dereference x obj in
  match obj with
  | PDFNull => Ok tt
  | PDFInteger _ | PDFStringLiteral _ | PDFHexLiteral _ => Ok tt
  | _ => Err (At ReferenceDictPageEntry_corruptType)
  end.

Definition validateReferenceDict (x : XRefTable) (dict : Dict) : result unit :=
  let dictName := "refDict" in
  check validateFileSpecEntry x dict dictName "F" REQUIRED V10 in
  match Find dict "Page" with
  | None => Err (At ReferenceDict_missingPage)
  | Some obj =>
      check validateReferenceDictPageEntry x obj in
      check validateStringArrayEntry x dict dictName "ID" OPTIONAL V10
              (Some (fun arr => Nat.eqb (length arr) 2)) in
      Ok tt
  end.

Definition validateOPIDictV13Part1 (x : XRefTable) (dict : Dict)
    (dictName : string) : result unit :=
  check validateNameEntry x dict dictName "Type" OPTIONAL V10
          (Some (fun s => String.eqb s "OPI")) in
  check validateNumberEntry x dict dictName "Version" REQUIRED V10
          (Some (fun f => PrimFloat.eqb f 1.3%float)) in
  check validateFileSpecEntry x dict dictName "F" REQUIRED V10 in
  check validateStringEntry x dict dictName "ID" OPTIONAL V10 None in
  check validateStringEntry x dict dictName "Comments" OPTIONAL V10 None in
  check validateIntegerArrayEntry x dict dictName "Size" REQUIRED V10
          (Some (fun a => Nat.eqb (length a) 2)) in
  check validateRectangleEntry x dict dictName "CropRect" REQUIRED V10 None in
  check validateRectangleEntry x dict dictName "CropFixed" OPTIONAL V10 None in
  check validateNumberArrayEntry x dict dictName "Position" REQUIRED V10
          (Some (fun a => Nat.eqb (length a) 8)) in
  Ok tt.

Definition validateOPIDictV13Part2 (x : XRefTable) (dict : Dict)
    (dictName : string) : result unit :=
  check validateNumberArrayEntry x dict dictName "Resolution" OPTIONAL V10
          (Some (fun a => Nat.eqb (length a) 2)) in
  check validateNameEntry x dict dictName "ColorType" OPTIONAL V10
          (Some (fun s => String.eqb s "Process" || String.eqb s "Spot"
                          || String.eqb s "Separation")) in
  check validateArrayEntry x dict dictName "Color" OPTIONAL V10
          (Some (fun a => Nat.eqb (length a) 5)) in
  check validateNumberEntry x dict dictName "Tint" OPTIONAL V10 None in
  check validateBooleanEntry x dict dictName "Overprint" OPTIONAL V10 None in
  check validateIntegerArrayEntry x dict dictName "ImageType" OPTIONAL V10
          (Some (fun a => Nat.eqb (length a) 2)) in
  check validateIntegerArrayEntry x dict dictName "GrayMap" OPTIONAL V10 None in
  check validateBooleanEntry x dict dictName "Transparency" OPTIONAL V10
          None in
  check validateArrayEntry x dict dictName "Tags" OPTIONAL V10 None in
  Ok tt.

Definition validateOPIDictV13 (x : XRefTable) (dict : Dict) : result unit :=
  let dictName := "opiDictV13" in
  check validateOPIDictV13Part1 x dict dictName in
  validateOPIDictV13Part2 x dict dictName.

Definition validateOPIDictInks (x : XRefTable) (obj : PDFObject)
  : result unit :=
  let* obj := Dereference x obj in
  match obj with
  | PDFNull => Ok tt
  | PDFName colorant =>
      if negb (String.eqb colorant "full_color")
         && negb (String.eqb colorant "registration")
      then Err (At OPIDictInks_corruptColorant)
      else Ok tt
  | PDFArray _ => Ok tt
  | _ => Err (At OPIDictInks_corruptType)
  end.

Definition validateOPIDictV20 (x : XRefTable) (dict : Dict) : result unit :=
  let dictName := "opiDictV20" in
  check validateNameEntry x dict dictName "Type" OPTIONAL V10
          (Some (fun s => String.eqb s "OPI")) in
  check validateNumberEntry x dict dictName "Version" REQUIRED V10
          (Some (fun f => PrimFloat.eqb f 2.0%float)) in
  check validateFileSpecEntry x dict dictName "F" REQUIRED V10 in
  check validateStringEntry x dict dictName "MainImage" OPTIONAL V10 None in
  check validateArrayEntry x dict dictName "Tags" OPTIONAL V10 None in
  check validateNumberArrayEntry x dict dictName "Size" OPTIONAL V10
          (Some (fun arr => Nat.eqb (length arr) 2)) in
  check validateRectangleEntry x dict dictName "CropRect" OPTIONAL V10 None in
  check validateBooleanEntry x dict dictName "Overprint" OPTIONAL V10 None in
  check match Find dict "Inks" with
        | Some obj => validateOPIDictInks x obj
        | None => Ok tt
        end in
  check validateIntegerArrayEntry x dict dictName "IncludedImageDimensions"
          OPTIONAL V10 (Some (fun arr => Nat.eqb (length arr) 2)) in
  check validateIntegerEntry x dict dictName "IncludedImageQuality" OPTIONAL
          V10 (Some (fun i => (1 <=? i)%Z && (i <=? 3)%Z)) in
  Ok tt.

Definition validateOPIVersion (s : string) : bool :=
  memberOf s ["1.3"; "2.0"].

(** The loop of [validateOPIVersionDict] over the entries of the
    dictionary; a nil dictionary returns from the function with a nil
    error. *)
Fixpoint validateOPIVersionDictEntries (x : XRefTable)
    (entries : list (string * PDFObject)) : result unit :=
  match entries with
  | [] => Ok tt
  | (opiVersion, obj) :: rest =>
      if negb (validateOPIVersion opiVersion)
      then Err (At OPIVersionDict_invalidVersion)
      else
        let* dict := DereferenceDict x obj in
        match dict with
        | None => Ok tt
        | Some dict =>
            check (if String.eqb opiVersion "1.3"
                   then validateOPIDictV13 x dict
                   else validateOPIDictV20 x dict) in
            validateOPIVersionDictEntries x rest
        end
  end.

Definition validateOPIVersionDict (x : XRefTable) (dict : Dict) : result unit :=
  if negb (Nat.eqb (Len dict) 1)
  then Err (At OPIVersionDict_notOneEntry)
  else validateOPIVersionDictEntries x (map_to_list dict).

Definition validateEntryOC (x : XRefTable) (dict : Dict)
    (dictName entryName : string) (required : bool)
    (sinceVersion : PDFVersion) : result unit :=
  let* d := validateDictEntry x dict dictName entryName required sinceVersion
              None in
  match d with
  | Some d => validateOptionalContentGroupDict x d sinceVersion
  | None => Ok tt
  end.

Definition validateEntryOPI (x : XRefTable) (dict : Dict)
    (dictName entryName : string) (required : bool)
    (sinceVersion : PDFVersion) : result unit :=
  let* d := validateDictEntry x dict dictName entryName required sinceVersion
              None in
  match d with
  | Some d => validateOPIVersionDict x d
  | None => Ok tt
  end.

Definition validateImageStreamDictPart1 (x : XRefTable)
    (streamDict : StreamDict) (dictName : string) : result bool :=
  let dict := PDFDict_of streamDict in
  check validateIntegerEntry x dict dictName "Width" REQUIRED V10 None in
  check validateIntegerEntry x dict dictName "Height" REQUIRED V10 None in
  let* imageMask := validateBooleanEntry x dict dictName "ImageMask" OPTIONAL
                      V10 None in
  let isImageMask :=
    match imageMask with Some b => b | None => false end in
  if negb isImageMask then
    let required := REQUIRED in
    let required :=
      if HasSoleFilterNamed streamDict filter.JPX then OPTIONAL
      else required in
    let required :=
      if HasSoleFilterNamed streamDict filter.CCITTFax
         && Mode_eqb (ValidationMode x) ValidationRelaxed
      then OPTIONAL else required in
    check validateColorSpaceEntry x dict dictName "ColorSpace" required
            ExcludePatternCS in
    Ok isImageMask
  else Ok isImageMask.

Section ImageRecursion.

(** The recursive calls of [validateImageStreamDict]. *)
Variable validateImageStreamDict_rec :
  XRefTable -> StreamDict -> bool -> result unit.

Definition validateMaskStreamDict (x : XRefTable) (streamDict : StreamDict)
  : result unit :=
  if match Type_ (PDFDict_of streamDict) with
     | Some t => negb (String.eqb t "XObject")
     | None => false
     end
  then Err (At MaskStreamDict_corruptType)
  else if match Subtype (PDFDict_of streamDict) with
          | Some s => negb (String.eqb s "Image")
          | None => true
          end
  then Err (At MaskStreamDict_corruptSubtype)
  else validateImageStreamDict_rec x streamDict isNoAlternateImageStreamDict.

Definition validateMaskEntry (x : XRefTable) (dict : Dict)
    (dictName entryName : string) (required : bool)
    (sinceVersion : PDFVersion) : result unit :=
  let* obj := validateEntry x dict dictName entryName required
                sinceVersion in
  match obj with
  | None => Ok tt
  | Some (PDFStreamDict sd) => validateMaskStreamDict x sd
  | Some (PDFArray _) => Ok tt
  | Some _ => Err (At (MaskEntry_corruptEntry dictName entryName))
  end.

Definition validateAlternateImageStreamDicts (x : XRefTable) (dict : Dict)
    (dictName entryName : string) (required : bool)
    (sinceVersion : PDFVersion) : result unit :=
  let* arr := validateArrayEntry x dict dictName entryName required
                sinceVersion None in
  match arr with
  | None =>
      if required
      then Err (At (AlternateImageStreamDicts_missing dictName entryName))
      else Ok tt
  | Some arr =>
      forEach (fun obj =>
                 let* streamDict := validateStreamDict x obj in
                 match streamDict with
                 | None => Ok tt
                 | Some streamDict =>
                     validateImageStreamDict_rec x streamDict
                       isAlternateImageStreamDict
                 end) arr
  end.

Definition validateImageStreamDictPart2 (x : XRefTable)
    (streamDict : StreamDict) (dictName : string)
    (isImageMask isAlternate : bool) : result unit :=
  let dict := PDFDict_of streamDict in
  let required :=
    if HasSoleFilterNamed streamDict filter.JPX || isImageMask
    then OPTIONAL else REQUIRED in
  let validateBPC :=
    if isImageMask then Some (fun i => (i =? 1)%Z) else None in
  check validateIntegerEntry x dict dictName "BitsPerComponent" required
          V10 validateBPC in
  let validate := fun s =>
    memberOf s ["AbsoluteColorimetric"; "RelativeColorimetric";
                "Saturation"; "Perceptual"] in
  check validateNameEntry x dict dictName "Intent" OPTIONAL V11
          (Some validate) in
  check (if negb isImageMask
         then validateMaskEntry x dict dictName "Mask" OPTIONAL V13
         else Ok tt) in
  check validateNumberArrayEntry x dict dictName "Decode" OPTIONAL V10
          None in
  check validateBooleanEntry x dict dictName "Interpolate" OPTIONAL V10
          None in
  check (if negb isAlternate
         then validateAlternateImageStreamDicts x dict dictName
                "Alternates" OPTIONAL V13
         else Ok tt) in
  Ok tt.

(** One call of [validateImageStreamDict]. *)
Definition validateImageStreamDictBody (x : XRefTable)
    (streamDict : StreamDict) (isAlternate : bool) : result unit :=
  let dict := PDFDict_of streamDict in
  let dictName := "imageStreamDict" in
  let* isImageMask := validateImageStreamDictPart1 x streamDict dictName in
  check validateImageStreamDictPart2 x streamDict dictName isImageMask
          isAlternate in
  let sinceVersion :=
    if Mode_eqb (ValidationMode x) ValidationRelaxed then V13 else V14 in
  let* sd := validateStreamDictEntry x dict dictName "SMask" OPTIONAL
               sinceVersion None in
  check match sd with
        | Some sd =>
            validateImageStreamDict_rec x sd isNoAlternateImageStreamDict
        | None => Ok tt
        end in
  check validateIntegerEntry x dict dictName "SMaskInData" OPTIONAL V10
          (Some (fun i => (0 <=? i)%Z && (i <=? 2)%Z)) in
  check validateNameEntry x dict dictName "Name"
          (PDFVersion_eqb (Version x) V10) V10 None in
  check validateIntegerEntry x dict dictName "StructParent" OPTIONAL V13
          None in
  check validateStringEntry x dict dictName "ID" OPTIONAL V13 None in
  check validateEntryOPI x dict dictName "OPI" OPTIONAL V12 in
  check validateMetadata x (PDFDict_of streamDict) OPTIONAL V14 in
  validateEntryOC x dict dictName "OC" OPTIONAL V15.

End ImageRecursion.

(** [validateImageStreamDict] with a bound on the depth of its calls;
    the Go function is this one without the bound. *)
Fixpoint validateImageStreamDict (fuel : nat) (x : XRefTable)
    (streamDict : StreamDict) (isAlternate : bool) : result unit :=
  match fuel with
  | O => OutOfFuel
  | S n =>
      validateImageStreamDictBody (validateImageStreamDict n) x streamDict
        isAlternate
  end.

Definition validateGroupAttributesDict (x : XRefTable) (obj : PDFObject)
  : result unit :=
  let* dict := DereferenceDict x obj in
  match dict with
  | None => Ok tt
  | Some dict =>
      let dictName := "groupAttributesDict" in
      check validateNameEntry x dict dictName "Type" OPTIONAL V10
              (Some (fun s => String.eqb s "Group")) in
      check validateNameEntry x dict dictName "S" REQUIRED V10
              (Some (fun s => String.eqb s "Transparency")) in
      check validateColorSpaceEntry x dict dictName "CS" OPTIONAL
              ExcludePatternCS in
      check validateBooleanEntry x dict dictName "I" OPTIONAL V10 None in
      Ok tt
  end.

(** Modelled from the spec: [Group] is an optional transparency group
    attributes dictionary (section 4.6), checked for its version and
    handed to [validateGroupAttributesDict]. *)
Definition validatePageEntryGroup (x : XRefTable) (dict : Dict)
    (required : bool) (sinceVersion : PDFVersion) : result unit :=
  match Find dict "Group" with
  | Some obj =>
      check ValidateVersion x "Group" sinceVersion in
      validateGroupAttributesDict x obj
  | None =>
      if required && negb (future x sinceVersion)
      then Err (Prim MissingRequiredEntry "dict" "Group")
      else Ok tt
  end.

Definition validateFormStreamDictPart2 (x : XRefTable) (dict : Dict)
    (dictName : string) : result unit :=
  let* hasPieceInfo := validatePieceInfo x dict dictName "PieceInfo" OPTIONAL
                         V13 in
  let* lm := validateDateEntry x dict dictName "LastModified" OPTIONAL V13 in
  if hasPieceInfo && match lm with None => true | Some _ => false end
  then Err (At FormStreamDictPart2_missingLastModified)
  else
    let* sp := validateIntegerEntry x dict dictName "StructParent" OPTIONAL
                 V13 None in
    let* sps := validateIntegerEntry x dict dictName "StructParents" OPTIONAL
                  V13 None in
    if match sp, sps with Some _, Some _ => true | _, _ => false end
    then Err (At FormStreamDictPart2_bothStructParents)
    else
      check validateEntryOPI x dict dictName "OPI" OPTIONAL V12 in
      check validateOptionalContent x dict dictName "OC" OPTIONAL V15 in
      let required := PDFVersion_eqb (Version x) V10 in
      check validateNameEntry x dict dictName "Name" required V10 None in
      Ok tt.

Section XObjectRecursion.

(** The recursive calls of [validateXObjectStreamDict], and the image
    validator at the budget of the current call. *)
Variable validateXObjectStreamDict_rec :
  XRefTable -> PDFObject -> result unit.
Variable validateImageStreamDict_cur :
  XRefTable -> StreamDict -> bool -> result unit.

Definition validateXObjectResourceDict (x : XRefTable) (obj : PDFObject)
    (sinceVersion : PDFVersion) : result unit :=
  check ValidateVersion x "XObjectResourceDict" sinceVersion in
  let* dict := DereferenceDict x obj in
  match dict with
  | None => Ok tt
  | Some dict =>
      forEach (fun kv => validateXObjectStreamDict_rec x (snd kv))
        (map_to_list dict)
  end.

(** Modelled from the spec: the resource dictionary walk (section 4.6)
    validates every external object entry through the dispatcher; the
    result says whether there is a resource dictionary. *)
Definition validateResourceDict (x : XRefTable) (obj : PDFObject)
  : result bool :=
  let* dict := DereferenceDict x obj in
  match dict with
  | None => Ok false
  | Some dict =>
      match Find dict "XObject" with
      | Some o => check validateXObjectResourceDict x o V10 in Ok true
      | None => Ok true
      end
  end.

Definition validateFormStreamDictPart1 (x : XRefTable)
    (streamDict : StreamDict) (dictName : string) : result unit :=
  let dict := PDFDict_of streamDict in
  check validateIntegerEntry x dict dictName "FormType" OPTIONAL V10
          (Some (fun i => (i =? 1)%Z)) in
  check validateRectangleEntry x dict dictName "BBox" REQUIRED V10 None in
  check validateNumberArrayEntry x dict dictName "Matrix" OPTIONAL V10
          (Some (fun arr => Nat.eqb (length arr) 6)) in
  check match Find (PDFDict_of streamDict) "Resources" with
        | Some obj => validateResourceDict x obj
        | None => Ok false
        end in
  check validatePageEntryGroup x dict OPTIONAL V14 in
  let* d := validateDictEntry x dict dictName "Ref" OPTIONAL V14 None in
  check match d with
        | Some d => validateReferenceDict x d
        | None => Ok tt
        end in
  validateMetadata x dict OPTIONAL V14.

Definition validateFormStreamDict (x : XRefTable) (streamDict : StreamDict)
  : result unit :=
  let dictName := "formStreamDict" in
  check validateFormStreamDictPart1 x streamDict dictName in
  validateFormStreamDictPart2 x (PDFDict_of streamDict) dictName.

(** One call of [validateXObjectStreamDict].  The guard after
    [DereferenceStreamDict] tests the argument [obj], not the result
    [sd]; with a nil [sd] the next statement, [d := sd.PDFDict],
    dereferences a nil pointer. *)
Definition validateXObjectStreamDictBody (x : XRefTable) (obj : PDFObject)
  : result unit :=
  let* sd := DereferenceStreamDict x obj in
  match obj with
  | PDFNull => Ok tt
  | _ =>
      match sd with
      | None => Panic
      | Some sd =>
          let d := PDFDict_of sd in
          let dictName := "xObjectStreamDict" in
          check validateNameEntry x d dictName "Type" OPTIONAL V10
                  (Some (fun s => String.eqb s "XObject")) in
          let required :=
            if Mode_eqb (ValidationMode x) ValidationRelaxed
            then OPTIONAL else REQUIRED in
          let* subtype := validateNameEntry x d dictName "Subtype" required
                            V10 None in
          match subtype with
          | None =>
              match Find (PDFDict_of sd) "BBox" with
              | Some _ => validateFormStreamDict x sd
              | None =>
                  validateImageStreamDict_cur x sd
                    isNoAlternateImageStreamDict
              end
          | Some subtype =>
              if String.eqb subtype "Form"
              then validateFormStreamDict x sd
              else if String.eqb subtype "Image"
              then validateImageStreamDict_cur x sd
                     isNoAlternateImageStreamDict
              else if String.eqb subtype "PS"
              then Err (At XObjectStreamDict_PostScript)
              else Err (At (XObjectStreamDict_unknownSubtype subtype))
          end
      end
  end.

End XObjectRecursion.

(** [validateXObjectStreamDict] with a bound on the depth of its calls. *)
Fixpoint validateXObjectStreamDict (fuel : nat) (x : XRefTable)
    (obj : PDFObject) : result unit :=
  match fuel with
  | O => OutOfFuel
  | S n =>
      validateXObjectStreamDictBody (validateXObjectStreamDict n)
        (validateImageStreamDict n) x obj
  end.

(** ** Notions used in the statements *)

(** The entry [key] of [d] is present and resolves to [v]. *)
Definition resolvesTo (x : XRefTable) (d : Dict) (key : string)
    (v : PDFObject) : Prop :=
  exists o, d !! key = Some o /\ Dereference x o = Ok v.

(** An entry is absent when its key is missing or its value resolves to
    the null object. *)
Definition absent (x : XRefTable) (d : Dict) (key : string) : Prop :=
  d !! key = None \/ resolvesTo x d key PDFNull.

(** The value resolves to the null object. *)
Definition resolvesToNull (x : XRefTable) (o : PDFObject) : bool :=
  match Dereference x o with
  | Ok PDFNull => true
  | _ => false
  end.

(** A stream dictionary with one entry set, and with one entry removed. *)
Definition withEntry (sd : StreamDict) (key : string) (v : PDFObject)
  : StreamDict :=
  mkStreamDict (<[key := v]> (PDFDict_of sd)) (FilterPipeline sd).

Definition withoutEntry (sd : StreamDict) (key : string) : StreamDict :=
  mkStreamDict (delete key (PDFDict_of sd)) (FilterPipeline sd).

(** Two dictionaries that agree on every key but [key]. *)
Definition agreeOff (key : string) (d d' : Dict) : Prop :=
  forall j, j <> key -> d !! j = d' !! j.

(** The kinds that the entry primitives and the rule tables report. *)
Definition entryKind (k : ErrorKind) : bool :=
  match k with
  | MissingRequiredEntry | TypeMismatch | ConstraintViolation
  | VersionViolation | BrokenReference | SchemaViolation => true
  | _ => false
  end.

(** A call whose error, if it returns one, is of a kind in [P], and which
    does not panic. *)
Definition errorsIn {A : Type} (P : ErrorKind -> bool) (r : result A) : Prop :=
  match r with
  | Err e => P (kindOf e) = true
  | Panic => False
  | Ok _ | OutOfFuel => True
  end.

(** A call that returns no value: it fails with an error of a kind in
    [P] or is cut off. *)
Definition failsOrDiverges {A : Type} (P : ErrorKind -> bool) (r : result A)
  : Prop :=
  match r with
  | Err e => P (kindOf e) = true
  | OutOfFuel => True
  | Ok _ | Panic => False
  end.

(** The entry [key] of [d] resolves to some integer. *)
Definition hasInteger (x : XRefTable) (d : Dict) (key : string) : Prop :=
  exists i, resolvesTo x d key (PDFInteger i).

(** [ImageMask] is true; [ImageMask] is absent or false. *)
Definition isMask (x : XRefTable) (d : Dict) : Prop :=
  resolvesTo x d "ImageMask" (PDFBoolean true).

Definition notMask (x : XRefTable) (d : Dict) : Prop :=
  absent x d "ImageMask" \/ resolvesTo x d "ImageMask" (PDFBoolean false).

(** An entry introduced in [sinceVersion] raises no version violation:
    the document is recent enough or the mode is Relaxed. *)
Definition allowed (x : XRefTable) (sinceVersion : PDFVersion) : Prop :=
  future x sinceVersion && Mode_eqb (ValidationMode x) ValidationStrict
  = false.


(** The values [validateOPIDictInks] accepts. *)
Definition inksLegal (o : PDFObject) : Prop :=
  o = PDFNull \/ o = PDFName "full_color" \/ o = PDFName "registration"
  \/ exists a, o = PDFArray a.

(** The [Type] entry of an external object is absent or the name
    [XObject]. *)
Definition typeLegal (x : XRefTable) (d : Dict) : Prop :=
  absent x d "Type" \/ resolvesTo x d "Type" (PDFName "XObject").

(** Modelled from the spec: the states of the shape dispatcher
    (section 4.4), written from the specification's words to be compared
    with [validateXObjectStreamDict]. *)
Inductive Shape : Type :=
| Form
| Image
| PostScriptLegacy
| Unknown (name : string).

(** Modelled from the spec: the transition rule of section 4.4 on the
    declared subtype, with the fallback on [BBox] when it is absent. *)
Definition classify (subtype : option string) (hasBBox : bool) : Shape :=
  match subtype with
  | None => if hasBBox then Form else Image
  | Some s =>
      if String.eqb s "Form" then Form
      else if String.eqb s "Image" then Image
      else if String.eqb s "PS" then PostScriptLegacy
      else Unknown s
  end.

(** Modelled from the spec: what each state does (section 4.4), at the
    recursion budget [n] of the validators it hands over to. *)
Definition dispatch (n : nat) (x : XRefTable) (sd : StreamDict) (s : Shape)
  : result unit :=
  match s with
  | Form =>
      validateFormStreamDict (validateXObjectStreamDict n) x sd
  | Image => validateImageStreamDict n x sd isNoAlternateImageStreamDict
  | PostScriptLegacy => Err (At XObjectStreamDict_PostScript)
  | Unknown name => Err (At (XObjectStreamDict_unknownSubtype name))
  end.

(** ** Test data *)

Module Examples.

Definition strict17 : XRefTable := mkXRefTable ∅ V17 ValidationStrict.

Definition relaxed17 : XRefTable := mkXRefTable ∅ V17 ValidationRelaxed.

(** A document of version 1.2, validated in Strict mode. *)
Definition strict12 : XRefTable := mkXRefTable ∅ V12 ValidationStrict.

(** An image with the entries every image needs, and [extra] besides. *)
Definition image (extra : list (string * PDFObject)) : StreamDict :=
  mkStreamDict
    (list_to_map
       (extra ++ [("Width", PDFInteger 1); ("Height", PDFInteger 1);
                  ("BitsPerComponent", PDFInteger 8);
                  ("ColorSpace", PDFName "DeviceGray")]))
    [].

(** An image mask: one bit per component and no colour space. *)
Definition stencil (extra : list (string * PDFObject)) : StreamDict :=
  mkStreamDict
    (list_to_map
       (extra ++ [("Width", PDFInteger 1); ("Height", PDFInteger 1);
                  ("ImageMask", PDFBoolean true)]))
    [].

(** Object 1 0 is the null object. *)
Definition nullTable : XRefTable :=
  mkXRefTable {[ (1%Z, 0%Z) := PDFNull ]} V17 ValidationStrict.

(** An image whose [Mask] is a reference to the image itself. *)
Definition selfMasked : StreamDict :=
  image [("Subtype", PDFName "Image"); ("Mask", PDFIndirectRef 7 0)].

Definition selfMaskedTable : XRefTable :=
  mkXRefTable {[ (7%Z, 0%Z) := PDFStreamDict selfMasked ]} V17
    ValidationStrict.



(** An image with one alternate that has an alternate of its own. *)
Definition alternateOfAlternate : StreamDict :=
  image [("Alternates",
          PDFArray
            [PDFStreamDict
               (image [("Alternates", PDFArray [PDFStreamDict (image [])])])
            ])].

(** An image with one level of alternates. *)
Definition oneLevelOfAlternates : StreamDict :=
  image [("Alternates",
          PDFArray [PDFStreamDict (image []); PDFStreamDict (image [])])].

(** An OPI 1.3 dictionary with an [Inks] entry that is an integer. *)
Definition opi13 (extra : list (string * PDFObject)) : Dict :=
  list_to_map
    (extra ++ [("Version", PDFFloat 1.3%float); ("F", PDFStringLiteral "f");
               ("Size", PDFArray [PDFInteger 1; PDFInteger 2]);
               ("CropRect",
                PDFArray [PDFInteger 0; PDFInteger 0; PDFInteger 1;
                          PDFInteger 1]);
               ("Position", PDFArray (replicate 8 (PDFInteger 0)))]).

Definition opi20 (extra : list (string * PDFObject)) : Dict :=
  list_to_map
    (extra ++ [("Version", PDFFloat 2.0%float); ("F", PDFStringLiteral "f")]).

Definition opiVersionDict13WithInks : Dict :=
  {[ "1.3" := PDFDict (opi13 [("Inks", PDFInteger 5)]) ]}.

(** A form dictionary with [PieceInfo] and no [LastModified]. *)
Definition pieceInfoOnly : Dict :=
  list_to_map [("PieceInfo", PDFDict ∅)].

(** A form dictionary with both [StructParent] and [StructParents]. *)
Definition bothStructParents : Dict :=
  list_to_map [("StructParent", PDFInteger 1); ("StructParents", PDFInteger 2)].

(** A form with the one entry every form needs, and [extra] besides. *)
Definition form (extra : list (string * PDFObject)) : StreamDict :=
  mkStreamDict
    (list_to_map
       (extra ++ [("BBox",
                   PDFArray [PDFInteger 0; PDFInteger 0; PDFInteger 1;
                             PDFInteger 1])]))
    [].

(** A reference dictionary whose [Page] is a reference to the null
    object 1 0. *)
Definition refDictNullPage : Dict :=
  list_to_map [("F", PDFStringLiteral "f"); ("Page", PDFIndirectRef 1 0)].

(** An external object with the subtype [PS]. *)
Definition postScript : StreamDict :=
  mkStreamDict (list_to_map [("Subtype", PDFName "PS")]) [].

End Examples.


(** ** Proof automation *)

Create HintDb errs.

(** One step of a proof that a call's errors are of a kind in [P]:
    [bindLemma] takes a sequence apart; matches are decided by cases. *)
Ltac errs_step bindLemma :=
  match goal with
  | |- errorsIn _ (bind _ _) => apply bindLemma; [|intros]
  | |- errorsIn _ (match ?t with _ => _ end) => destruct t
  | |- errorsIn _ (Ok _) => exact I
  | |- errorsIn _ (Err _) => reflexivity
  | |- errorsIn _ _ => solve [auto with errs]
  end.

(** ** Entries as the rule tables see them *)

(** The entry [key] is present, resolves to a value of the kind that
    [decode] reads, and the decoded value satisfies [P]. *)
Definition present {A : Type} (decode : PDFObject -> option A)
    (P : A -> Prop) (x : XRefTable) (d : Dict) (key : string) : Prop :=
  exists v a, resolvesTo x d key v /\ decode v = Some a /\ P a.

(** The entry [key] is absent, or present as [present] says. *)
Definition optional {A : Type} (decode : PDFObject -> option A)
    (P : A -> Prop) (x : XRefTable) (d : Dict) (key : string) : Prop :=
  absent x d key \/ present decode P x d key.

(** What the predicate handed to an entry check says of a value; a nil
    predicate says nothing. *)
Definition holds {A : Type} (validate : option (A -> bool)) (a : A) : Prop :=
  match validate with
  | Some p => p a = true
  | None => True
  end.

Definition any {A : Type} (a : A) : Prop := True.

(** The values [validateReferenceDictPageEntry] accepts. *)
Definition pageLegal (v : PDFObject) : Prop :=
  match v with
  | PDFNull | PDFInteger _ | PDFStringLiteral _ | PDFHexLiteral _ => True
  | _ => False
  end.

(** The rendering intents of [validateImageStreamDictPart2]. *)
Definition renderingIntent (s : string) : Prop :=
  s = "AbsoluteColorimetric" \/ s = "RelativeColorimetric"
  \/ s = "Saturation" \/ s = "Perceptual".

(** The colour types of [validateOPIDictV13Part2]. *)
Definition opiColorType (s : string) : Prop :=
  s = "Process" \/ s = "Spot" \/ s = "Separation".

(** ** Strict and Relaxed *)

(** The same table and document, validated in Relaxed mode. *)
Definition relaxed (x : XRefTable) : XRefTable :=
  mkXRefTable (Table x) (Version x) ValidationRelaxed.

(** [r'] keeps the success of [r]. *)
Definition keepsOk {A : Type} (r r' : result A) : Prop :=
  forall a, r = Ok a -> r' = Ok a.

(** ** Where errors come from *)

(** The places that belong to the validation of images: masks,
    alternates and OPI dictionaries. *)
Definition imageSite (s : Site) : bool :=
  match s with
  | OPIDictInks_corruptColorant | OPIDictInks_corruptType
  | OPIVersionDict_notOneEntry | OPIVersionDict_invalidVersion
  | MaskStreamDict_corruptType | MaskStreamDict_corruptSubtype
  | MaskEntry_corruptEntry _ _ | AlternateImageStreamDicts_missing _ _ => true
  | _ => false
  end.

(** A call that does not panic and whose error, if it was built at a
    place of this file, was built at a place in [S]. *)
Definition raisesAt {A : Type} (S : Site -> bool) (r : result A) : Prop :=
  match r with
  | Err (At s) => S s = true
  | Panic => False
  | _ => True
  end.

Create HintDb sites.

Ltac sites_step bindLemma :=
  match goal with
  | |- raisesAt _ (bind _ _) => apply bindLemma; [|intros]
  | |- raisesAt _ (match ?t with _ => _ end) => destruct t
  | |- raisesAt _ (Ok _) => exact I
  | |- raisesAt _ (Err _) => first [exact I | reflexivity]
  | |- raisesAt _ _ => solve [auto with sites]
  end.

(** An image whose [SMask] is a reference to the image itself. *)
Definition selfSoftMasked : StreamDict :=
  Examples.image [("SMask", PDFIndirectRef 7 0)].

Definition selfSoftMaskedTable : XRefTable :=
  mkXRefTable {[ (7%Z, 0%Z) := PDFStreamDict selfSoftMasked ]} V17
    ValidationStrict.

(** An image with a soft mask that has no [Subtype]. *)
Definition softMasked : StreamDict :=
  Examples.image [("SMask", PDFStreamDict (Examples.image []))].

(** Every place of the file. *)
Definition anySite (s : Site) : bool := true.


(** A reference dictionary with a page number and an [ID]. *)
Definition refDictWithID : Dict :=
  list_to_map
    [("F", PDFStringLiteral "f"); ("Page", PDFInteger 3);
     ("ID", PDFArray [PDFHexLiteral "0a"; PDFHexLiteral "0b"])].

(** A group attributes dictionary. *)
Definition transparencyGroup : Dict :=
  list_to_map
    [("S", PDFName "Transparency"); ("CS", PDFName "DeviceRGB");
     ("I", PDFBoolean true)].

(** A resource dictionary with two images. *)
Definition twoImages : Dict :=
  list_to_map
    [("Im1", PDFStreamDict (Examples.image [("Subtype", PDFName "Image")]));
     ("Im2", PDFStreamDict (Examples.image [("Subtype", PDFName "Image")]))].

(** * Proofs *)

(** ** Results and the entry primitives *)

Lemma bind_Ok_l {A B : Type} (a : A) (k : A -> result B) :
  bind (Ok a) k = k a.
Proof. reflexivity. Qed.

Lemma bind_Ok_inv {A B : Type} (m : result A) (k : A -> result B) (b : B) :
  bind m k = Ok b -> exists a, m = Ok a /\ k a = Ok b.
Proof. destruct m; simpl; intros H; try discriminate. eauto. Qed.

Lemma future_V10 (x : XRefTable) : future x V10 = false.
Proof. unfold future, PDFVersion_ltb. destruct (Version x); reflexivity. Qed.

Lemma ValidateVersion_V10 (x : XRefTable) (element : string) :
  ValidateVersion x element V10 = Ok tt.
Proof. unfold ValidateVersion. rewrite future_V10. reflexivity. Qed.

Lemma resolveEntry_missing x d dn en req sv :
  d !! en = None ->
  resolveEntry x d dn en req sv =
    if req && negb (future x sv) then Err (Prim MissingRequiredEntry dn en)
    else Ok None.
Proof. intros H. unfold resolveEntry. rewrite H. reflexivity. Qed.

Lemma resolveEntry_present x d dn en req sv v :
  resolvesTo x d en v -> v <> PDFNull ->
  resolveEntry x d dn en req sv = Ok (Some v).
Proof.
  intros (o & Ho & Hd) Hv. unfold resolveEntry. rewrite Ho, Hd. simpl.
  destruct v; congruence.
Qed.

Lemma resolveEntry_null x d dn en req sv :
  resolvesTo x d en PDFNull ->
  resolveEntry x d dn en req sv =
    if req && negb (future x sv) then Err (Prim BrokenReference dn en)
    else Ok None.
Proof.
  intros (o & Ho & Hd). unfold resolveEntry. rewrite Ho, Hd. reflexivity.
Qed.

Lemma resolveEntry_absent_optional x d dn en sv :
  absent x d en -> resolveEntry x d dn en OPTIONAL sv = Ok None.
Proof.
  intros [H | H].
  - rewrite resolveEntry_missing by done. reflexivity.
  - rewrite resolveEntry_null by done. reflexivity.
Qed.

(** What a successful [resolveEntry] says about the dictionary. *)
Lemma resolveEntry_Ok_inv x d dn en req sv r :
  resolveEntry x d dn en req sv = Ok r ->
  match r with
  | None => absent x d en
  | Some v => resolvesTo x d en v /\ v <> PDFNull
  end.
Proof.
  unfold resolveEntry, absent, resolvesTo.
  destruct (d !! en) as [o|] eqn:Ho.
  - destruct (Dereference x o) as [v| | |] eqn:Hd; simpl; try discriminate.
    destruct v; destruct (req && negb (future x sv));
      intros [= <-]; eauto; split; eauto; discriminate.
  - destruct (req && negb (future x sv)); intros [= <-]. auto.
Qed.

Lemma validateKindEntry_absent {A} (decode : PDFObject -> option A)
    x d dn en sv validate :
  absent x d en ->
  validateKindEntry decode x d dn en OPTIONAL sv validate = Ok None.
Proof.
  intros H. unfold validateKindEntry.
  rewrite resolveEntry_absent_optional by done. reflexivity.
Qed.

Lemma validateKindEntry_required_missing {A} (decode : PDFObject -> option A)
    x d dn en validate :
  d !! en = None ->
  validateKindEntry decode x d dn en REQUIRED V10 validate =
    Err (Prim MissingRequiredEntry dn en).
Proof.
  intros H. unfold validateKindEntry. rewrite resolveEntry_missing by done.
  rewrite future_V10. reflexivity.
Qed.

Lemma validateKindEntry_present {A} (decode : PDFObject -> option A)
    x d dn en req sv validate v :
  resolvesTo x d en v -> v <> PDFNull ->
  validateKindEntry decode x d dn en req sv validate =
    match decode v with
    | None => Err (Prim TypeMismatch dn en)
    | Some a =>
        if match validate with Some p => p a | None => true end
        then check ValidateVersion x en sv in Ok (Some a)
        else Err (Prim ConstraintViolation dn en)
    end.
Proof.
  intros H Hv. unfold validateKindEntry.
  rewrite (resolveEntry_present _ _ _ _ _ _ v) by done. reflexivity.
Qed.

(** What a successful entry check says about the dictionary. *)
Lemma validateKindEntry_Ok_inv {A} (decode : PDFObject -> option A)
    x d dn en req sv validate r :
  validateKindEntry decode x d dn en req sv validate = Ok r ->
  match r with
  | None => absent x d en
  | Some a =>
      exists v, resolvesTo x d en v /\ decode v = Some a /\
                match validate with Some p => p a = true | None => True end
  end.
Proof.
  unfold validateKindEntry. intros H.
  apply bind_Ok_inv in H as (o & Ho & H).
  apply resolveEntry_Ok_inv in Ho.
  destruct o as [v|].
  - destruct Ho as [Hv _].
    destruct (decode v) as [a|] eqn:Hdec; [|discriminate].
    destruct validate as [p|].
    + destruct (p a) eqn:Hp; [|discriminate].
      apply bind_Ok_inv in H as (_ & _ & [= <-]). eauto.
    + apply bind_Ok_inv in H as (_ & _ & [= <-]). eauto.
  - injection H as <-. exact Ho.
Qed.

Lemma resolvesTo_fun x d key v w :
  resolvesTo x d key v -> resolvesTo x d key w -> v = w.
Proof. intros (o & Ho & Hv) (o' & Ho' & Hw). congruence. Qed.

Lemma resolvesTo_not_missing x d key v :
  resolvesTo x d key v -> d !! key <> None.
Proof. intros (o & Ho & _). congruence. Qed.

(** ** The dispatcher *)

Lemma DereferenceStreamDict_Some_not_null x obj sd :
  DereferenceStreamDict x obj = Ok (Some sd) -> obj <> PDFNull.
Proof. intros H ->. discriminate. Qed.

Lemma validateNameEntry_Type_legal x d dn :
  typeLegal x d ->
  exists t, validateNameEntry x d dn "Type" OPTIONAL V10
              (Some (fun s => String.eqb s "XObject")) = Ok t.
Proof.
  unfold validateNameEntry. intros [H | H].
  - rewrite validateKindEntry_absent by done. eauto.
  - rewrite (validateKindEntry_present _ _ _ _ _ _ _ _ (PDFName "XObject"))
      by done.
    rewrite ValidateVersion_V10. simpl. eauto.
Qed.

Lemma validateNameEntry_Subtype_name x d dn req s :
  resolvesTo x d "Subtype" (PDFName s) ->
  validateNameEntry x d dn "Subtype" req V10 None = Ok (Some s).
Proof.
  intros H. unfold validateNameEntry.
  rewrite (validateKindEntry_present _ _ _ _ _ _ _ _ (PDFName s)) by done.
  rewrite ValidateVersion_V10. reflexivity.
Qed.

(** After the reference has resolved to a stream dictionary with a legal
    [Type], one call of the dispatcher reads [Subtype] and hands over to
    the shape that [classify] selects. *)
Lemma validateXObjectStreamDict_classify n x obj sd :
  DereferenceStreamDict x obj = Ok (Some sd) ->
  typeLegal x (PDFDict_of sd) ->
  validateXObjectStreamDict (S n) x obj =
    let* subtype :=
      validateNameEntry x (PDFDict_of sd) "xObjectStreamDict" "Subtype"
        (negb (Mode_eqb (ValidationMode x) ValidationRelaxed)) V10 None in
    dispatch n x sd
      (classify subtype
         (bool_decide (is_Some (PDFDict_of sd !! "BBox")))).
Proof.
  intros Hsd Hty.
  pose proof (DereferenceStreamDict_Some_not_null _ _ _ Hsd) as Hnn.
  simpl. unfold validateXObjectStreamDictBody. rewrite Hsd. simpl.
  destruct (validateNameEntry_Type_legal x (PDFDict_of sd)
              "xObjectStreamDict" Hty) as [t ->].
  simpl.
  replace (if Mode_eqb (ValidationMode x) ValidationRelaxed
           then OPTIONAL else REQUIRED)
    with (negb (Mode_eqb (ValidationMode x) ValidationRelaxed))
    by (destruct (Mode_eqb _ _); reflexivity).
  destruct obj; try congruence;
    (destruct (validateNameEntry x (PDFDict_of sd) "xObjectStreamDict"
                 "Subtype" _ V10 None) as [[st|]| | |]; simpl; try reflexivity;
     [ unfold classify;
       destruct (String.eqb st "Form"); [reflexivity|];
       destruct (String.eqb st "Image"); [reflexivity|];
       destruct (String.eqb st "PS"); reflexivity
     | unfold Find; destruct (PDFDict_of sd !! "BBox"); reflexivity ]).
Qed.

(** C5. The dispatcher follows the declared [Subtype]: [Form] goes to
    the form validator, [Image] to the image validator, [PS] fails as an
    unsupported construct in either mode, any other name fails as an
    unknown subtype; a missing [Subtype] fails in Strict mode, and in
    Relaxed mode an absent [Subtype] is validated as a form exactly when a
    [BBox] key is present and as an image otherwise. *)
Theorem validateXObjectStreamDict_dispatch (n : nat) (x : XRefTable)
    (obj : PDFObject) (sd : StreamDict) :
  DereferenceStreamDict x obj = Ok (Some sd) ->
  typeLegal x (PDFDict_of sd) ->
  let d := PDFDict_of sd in
  let run := validateXObjectStreamDict (S n) x obj in
  let form := validateFormStreamDict (validateXObjectStreamDict n) x sd in
  let image := validateImageStreamDict n x sd isNoAlternateImageStreamDict in
  (resolvesTo x d "Subtype" (PDFName "Form") -> run = form) /\
  (resolvesTo x d "Subtype" (PDFName "Image") -> run = image) /\
  (resolvesTo x d "Subtype" (PDFName "PS") ->
   run = Err (At XObjectStreamDict_PostScript) /\
   kindOf (At XObjectStreamDict_PostScript) = UnsupportedConstruct) /\
  (forall s, resolvesTo x d "Subtype" (PDFName s) ->
             s <> "Form" -> s <> "Image" -> s <> "PS" ->
             run = Err (At (XObjectStreamDict_unknownSubtype s)) /\
             kindOf (At (XObjectStreamDict_unknownSubtype s))
               = UnknownSubtype) /\
  (d !! "Subtype" = None -> ValidationMode x = ValidationStrict ->
   run = Err (Prim MissingRequiredEntry "xObjectStreamDict" "Subtype")) /\
  (absent x d "Subtype" -> ValidationMode x = ValidationRelaxed ->
   (is_Some (d !! "BBox") -> run = form) /\
   (d !! "BBox" = None -> run = image)).
Proof.
  intros Hsd Hty d run form image. subst run.
  rewrite (validateXObjectStreamDict_classify n x obj sd Hsd Hty).
  fold d. repeat apply conj.
  - intros Hs. rewrite (validateNameEntry_Subtype_name _ _ _ _ _ Hs).
    reflexivity.
  - intros Hs. rewrite (validateNameEntry_Subtype_name _ _ _ _ _ Hs).
    reflexivity.
  - intros Hs. rewrite (validateNameEntry_Subtype_name _ _ _ _ _ Hs).
    split; reflexivity.
  - intros s Hs Hf Hi Hp.
    rewrite (validateNameEntry_Subtype_name _ _ _ _ _ Hs). simpl.
    unfold classify.
    rewrite (proj2 (String.eqb_neq s "Form")),
      (proj2 (String.eqb_neq s "Image")), (proj2 (String.eqb_neq s "PS"))
      by assumption.
    split; reflexivity.
  - intros Hmiss Hmode. rewrite Hmode. unfold validateNameEntry.
    rewrite validateKindEntry_required_missing by done. reflexivity.
  - intros Habs Hmode. rewrite Hmode. unfold validateNameEntry.
    rewrite validateKindEntry_absent by done. simpl. split.
    + intros Hb. rewrite bool_decide_eq_true_2 by done. reflexivity.
    + intros Hb. rewrite bool_decide_eq_false_2; [reflexivity|].
      rewrite Hb. intros [? ?]. discriminate.
Qed.

(** The dispatcher on an object of subtype [PS], in Relaxed mode. *)
Lemma validateXObjectStreamDict_dispatch_witness :
  validateXObjectStreamDict 1 Examples.relaxed17
    (PDFStreamDict Examples.postScript)
  = Err (At XObjectStreamDict_PostScript).
Proof.
  assert (H1 : DereferenceStreamDict Examples.relaxed17
                 (PDFStreamDict Examples.postScript)
               = Ok (Some Examples.postScript)) by reflexivity.
  assert (H2 : typeLegal Examples.relaxed17
                 (PDFDict_of Examples.postScript))
    by (left; left; reflexivity).
  destruct (validateXObjectStreamDict_dispatch 0 _ _ _ H1 H2)
    as (_ & _ & Hps & _).
  apply Hps. exists (PDFName "PS"). split; reflexivity.
Defined.

(** C6. The entry point is not total: for a reference whose target is
    the null object, [DereferenceStreamDict] returns a nil stream
    dictionary and a nil error, the guard tests the reference and not the
    result, and the call panics on [sd.PDFDict]. *)
Theorem validateXObjectStreamDict_null_target_panics (n : nat)
    (x : XRefTable) (i g : Z) :
  Table x !! (i, g) = Some PDFNull ->
  validateXObjectStreamDict (S n) x (PDFIndirectRef i g) = Panic.
Proof.
  intros H. simpl. unfold validateXObjectStreamDictBody,
    DereferenceStreamDict, Dereference.
  rewrite H. reflexivity.
Qed.

(** The reference 1 0 to the null object. *)
Lemma validateXObjectStreamDict_null_target_panics_witness :
  validateXObjectStreamDict 1 Examples.nullTable (PDFIndirectRef 1 0) = Panic.
Proof.
  apply (validateXObjectStreamDict_null_target_panics 0 Examples.nullTable
           1 0).
  reflexivity.
Defined.

(** ** Entry checks read one key *)

Lemma resolveEntry_ext x d d' dn en req sv :
  d !! en = d' !! en ->
  resolveEntry x d dn en req sv = resolveEntry x d' dn en req sv.
Proof. intros H. unfold resolveEntry. rewrite H. reflexivity. Qed.

Lemma validateKindEntry_ext {A} (decode : PDFObject -> option A)
    x d d' dn en req sv validate :
  d !! en = d' !! en ->
  validateKindEntry decode x d dn en req sv validate =
  validateKindEntry decode x d' dn en req sv validate.
Proof.
  intros H. unfold validateKindEntry.
  rewrite (resolveEntry_ext x d d') by done. reflexivity.
Qed.

Lemma validateEntry_ext x d d' dn en req sv :
  d !! en = d' !! en ->
  validateEntry x d dn en req sv = validateEntry x d' dn en req sv.
Proof.
  intros H. unfold validateEntry.
  rewrite (resolveEntry_ext x d d') by done. reflexivity.
Qed.

Lemma validateColorSpaceEntry_ext x d d' dn en req excl :
  d !! en = d' !! en ->
  validateColorSpaceEntry x d dn en req excl =
  validateColorSpaceEntry x d' dn en req excl.
Proof.
  intros H. unfold validateColorSpaceEntry.
  rewrite (resolveEntry_ext x d d') by done. reflexivity.
Qed.

Lemma agreeOff_insert_delete key (d : Dict) v :
  agreeOff key (<[key := v]> d) (delete key d).
Proof.
  intros j Hj. rewrite lookup_insert_ne, lookup_delete_ne by done.
  reflexivity.
Qed.

(** ** OPI dictionaries *)

Lemma size_one_singleton (d : Dict) :
  size d = 1 -> exists k v, d = {[ k := v ]}.
Proof.
  intros Hs.
  destruct (map_choose d) as (k & v & Hk).
  { intros ->. rewrite map_size_empty in Hs. discriminate. }
  exists k, v.
  assert (Hd : delete k d = ∅).
  { apply map_size_empty_iff. rewrite map_size_delete, Hk, Hs. reflexivity. }
  rewrite <- (insert_delete_id d k v Hk), Hd. reflexivity.
Qed.

Lemma validateOPIVersionDict_singleton x k obj :
  validateOPIVersionDict x {[ k := obj ]} =
    if validateOPIVersion k then
      let* dict := DereferenceDict x obj in
      match dict with
      | None => Ok tt
      | Some dict =>
          if String.eqb k "1.3" then validateOPIDictV13 x dict
          else validateOPIDictV20 x dict
      end
    else Err (At OPIVersionDict_invalidVersion).
Proof.
  unfold validateOPIVersionDict, Len.
  rewrite map_size_singleton, map_to_list_singleton. simpl.
  destruct (validateOPIVersion k); simpl; [|reflexivity].
  destruct (DereferenceDict x obj) as [[dd|]| | |]; simpl; try reflexivity.
  destruct (String.eqb k "1.3").
  - destruct (validateOPIDictV13 x dd) as [[]| | |]; reflexivity.
  - destruct (validateOPIDictV20 x dd) as [[]| | |]; reflexivity.
Qed.

Lemma validateOPIDictInks_Ok_inv x obj :
  validateOPIDictInks x obj = Ok tt ->
  exists o, Dereference x obj = Ok o /\ inksLegal o.
Proof.
  unfold validateOPIDictInks, inksLegal. intros H.
  apply bind_Ok_inv in H as (o & Ho & H). exists o. split; [exact Ho|].
  destruct o; try discriminate; eauto.
  destruct (String.eqb s "full_color") eqn:E1.
  - apply String.eqb_eq in E1 as ->. auto.
  - destruct (String.eqb s "registration") eqn:E2; [|discriminate].
    apply String.eqb_eq in E2 as ->. auto.
Qed.

Lemma validateOPIDictV13_ext x d d' :
  agreeOff "Inks" d d' -> validateOPIDictV13 x d = validateOPIDictV13 x d'.
Proof.
  intros H.
  unfold validateOPIDictV13, validateOPIDictV13Part1, validateOPIDictV13Part2,
    validateNameEntry, validateNumberEntry, validateFileSpecEntry,
    validateStringEntry, validateIntegerArrayEntry, validateRectangleEntry,
    validateNumberArrayEntry, validateArrayEntry, validateBooleanEntry.
  repeat (rewrite (validateKindEntry_ext _ x d d') by (apply H; discriminate)).
  reflexivity.
Qed.

(** C2. An OPI version dictionary fails as a schema violation unless it
    has exactly one entry, keyed 1.3 or 2.0; the entry's value, when it
    resolves to a dictionary, is validated against the rule table of its
    version; the rule on [Inks] (the null object, the name full_color or
    registration, or an array, which is not descended into) belongs to
    the 2.0 table, and the 1.3 table does not look at [Inks]. *)
Theorem validateOPIVersionDict_rules (x : XRefTable) :
  (forall d, Len d <> 1 ->
     validateOPIVersionDict x d = Err (At OPIVersionDict_notOneEntry)
     /\ kindOf (At OPIVersionDict_notOneEntry) = SchemaViolation) /\
  (forall d, Len d = 1 -> exists k obj, d = {[ k := obj ]}) /\
  (forall k obj, k <> "1.3" -> k <> "2.0" ->
     validateOPIVersionDict x {[ k := obj ]}
       = Err (At OPIVersionDict_invalidVersion)
     /\ kindOf (At OPIVersionDict_invalidVersion) = SchemaViolation) /\
  (forall obj dd, DereferenceDict x obj = Ok (Some dd) ->
     validateOPIVersionDict x {[ "1.3" := obj ]} = validateOPIDictV13 x dd) /\
  (forall obj dd, DereferenceDict x obj = Ok (Some dd) ->
     validateOPIVersionDict x {[ "2.0" := obj ]} = validateOPIDictV20 x dd) /\
  (forall dd obj, dd !! "Inks" = Some obj ->
     validateOPIDictV20 x dd = Ok tt ->
     exists o, Dereference x obj = Ok o /\ inksLegal o) /\
  (forall obj a, Dereference x obj = Ok (PDFArray a) ->
     validateOPIDictInks x obj = Ok tt) /\
  (forall dd v,
     validateOPIDictV13 x (<["Inks" := v]> dd)
       = validateOPIDictV13 x (delete "Inks" dd)).
Proof.
  repeat apply conj.
  - intros d Hd. split; [|reflexivity]. unfold validateOPIVersionDict.
    destruct (Nat.eqb (Len d) 1) eqn:E; [|reflexivity].
    apply Nat.eqb_eq in E. contradiction.
  - intros d. apply size_one_singleton.
  - intros k obj H13 H20. split; [|reflexivity].
    rewrite validateOPIVersionDict_singleton.
    unfold validateOPIVersion, memberOf. simpl.
    rewrite (proj2 (String.eqb_neq k "1.3")),
      (proj2 (String.eqb_neq k "2.0")) by assumption.
    reflexivity.
  - intros obj dd H. rewrite validateOPIVersionDict_singleton, H.
    reflexivity.
  - intros obj dd H. rewrite validateOPIVersionDict_singleton, H.
    reflexivity.
  - intros dd obj Hinks H. unfold validateOPIDictV20 in H.
    do 8 (apply bind_Ok_inv in H as (? & _ & H)).
    apply bind_Ok_inv in H as ([] & H & _).
    unfold Find in H. rewrite Hinks in H.
    apply validateOPIDictInks_Ok_inv. exact H.
  - intros obj a H. unfold validateOPIDictInks. rewrite H. reflexivity.
  - intros dd v. apply validateOPIDictV13_ext, agreeOff_insert_delete.
Qed.

(** An OPI 2.0 dictionary whose [Inks] is an integer is refused. *)
Lemma validateOPIVersionDict_rules_witness :
  validateOPIVersionDict Examples.strict17
    {[ "2.0" := PDFDict (Examples.opi20 [("Inks", PDFInteger 5)]) ]}
  = Err (At OPIDictInks_corruptType).
Proof.
  destruct (validateOPIVersionDict_rules Examples.strict17)
    as (_ & _ & _ & _ & H20 & _).
  rewrite (H20 _ (Examples.opi20 [("Inks", PDFInteger 5)]))
    by reflexivity.
  reflexivity.
Defined.

(** C2, as first stated, fails: an OPI 1.3 dictionary whose [Inks] is an
    integer validates. *)
Lemma validateOPIVersionDict_ignores_Inks_under_13 :
  Examples.opi13 [("Inks", PDFInteger 5)] !! "Inks" = Some (PDFInteger 5)
  /\ validateOPIVersionDict Examples.strict17
       Examples.opiVersionDict13WithInks = Ok tt.
Proof. split; reflexivity. Qed.

(** ** Null values *)

Lemma validateStreamDict_null x o :
  resolvesToNull x o = true -> validateStreamDict x o = Ok None.
Proof.
  unfold resolvesToNull, validateStreamDict, DereferenceStreamDict.
  destruct (Dereference x o) as [v| | |]; try discriminate.
  destruct v; try discriminate. reflexivity.
Qed.

Lemma forEach_skip {A} (f : A -> result unit) (skip : A -> bool) l :
  (forall a, skip a = true -> f a = Ok tt) ->
  forEach f l = forEach f (List.filter (fun a => negb (skip a)) l).
Proof.
  intros Hskip. induction l as [|a l IH]; [reflexivity|]. simpl.
  destruct (skip a) eqn:E; simpl.
  - rewrite (Hskip a E). exact IH.
  - rewrite IH. reflexivity.
Qed.

Lemma validateArrayEntry_insert x d dn en req sv arr :
  validateArrayEntry x (<[en := PDFArray arr]> d) dn en req sv None =
    check ValidateVersion x en sv in Ok (Some arr).
Proof.
  unfold validateArrayEntry.
  rewrite (validateKindEntry_present _ _ _ _ _ _ _ _ (PDFArray arr));
    [reflexivity| |discriminate].
  exists (PDFArray arr). rewrite lookup_insert_eq. split; reflexivity.
Qed.

(** C10. A value that resolves to the null object is taken as absent and
    accepted: a reference dictionary whose [Page] resolves to null
    validates when its other entries do, an OPI version dictionary whose
    one entry, keyed 1.3 or 2.0, resolves to null validates, and the
    elements of an [Alternates] array that resolve to null are skipped. *)
Theorem null_values_are_accepted (x : XRefTable) :
  (forall d f a,
     validateFileSpecEntry x d "refDict" "F" REQUIRED V10 = Ok f ->
     validateStringArrayEntry x d "refDict" "ID" OPTIONAL V10
       (Some (fun arr => Nat.eqb (length arr) 2)) = Ok a ->
     resolvesTo x d "Page" PDFNull ->
     validateReferenceDict x d = Ok tt) /\
  (forall k obj, k = "1.3" \/ k = "2.0" ->
     Dereference x obj = Ok PDFNull ->
     validateOPIVersionDict x {[ k := obj ]} = Ok tt) /\
  (forall rec d dn en req sv arr,
     validateAlternateImageStreamDicts rec x (<[en := PDFArray arr]> d)
       dn en req sv
     = validateAlternateImageStreamDicts rec x
         (<[en := PDFArray
                    (List.filter (fun o => negb (resolvesToNull x o)) arr)]> d)
         dn en req sv).
Proof.
  repeat apply conj.
  - intros d f a HF HID (o & Ho & Hnull). unfold validateReferenceDict.
    rewrite HF. simpl. unfold Find. rewrite Ho.
    unfold validateReferenceDictPageEntry. rewrite Hnull. simpl.
    rewrite HID. reflexivity.
  - intros k obj Hk Hnull. rewrite validateOPIVersionDict_singleton.
    unfold DereferenceDict. rewrite Hnull.
    destruct Hk as [-> | ->]; reflexivity.
  - intros rec d dn en req sv arr. unfold validateAlternateImageStreamDicts.
    rewrite !validateArrayEntry_insert.
    destruct (ValidateVersion x en sv) as [[]| | |]; try reflexivity.
    simpl. apply forEach_skip.
    intros o Ho. rewrite (validateStreamDict_null x o Ho). reflexivity.
Qed.

(** A [Page] and an OPI entry that are references to the null object. *)
Lemma null_values_are_accepted_witness :
  validateReferenceDict Examples.nullTable Examples.refDictNullPage = Ok tt
  /\ validateOPIVersionDict Examples.nullTable
       {[ "1.3" := PDFIndirectRef 1 0 ]} = Ok tt.
Proof.
  destruct (null_values_are_accepted Examples.nullTable) as (Href & Hopi & _).
  split.
  - apply (Href _ (Some (PDFStringLiteral "f")) None).
    + reflexivity.
    + reflexivity.
    + exists (PDFIndirectRef 1 0). split; reflexivity.
  - apply Hopi; [left|]; reflexivity.
Defined.

(** ** Image objects: the first phase and BitsPerComponent *)

Lemma ValidateVersion_allowed x element sv :
  allowed x sv -> ValidateVersion x element sv = Ok tt.
Proof. unfold allowed, ValidateVersion. intros ->. reflexivity. Qed.

Lemma ValidateVersion_not_allowed x element sv :
  ~ allowed x sv ->
  ValidateVersion x element sv = Err (Prim VersionViolation element "").
Proof.
  unfold allowed, ValidateVersion.
  destruct (future x sv && Mode_eqb (ValidationMode x) ValidationStrict);
    [reflexivity|].
  intros H. destruct H. reflexivity.
Qed.

Lemma allowed_V10 x : allowed x V10.
Proof. unfold allowed. rewrite future_V10. reflexivity. Qed.

Lemma validateIntegerEntry_hasInteger x d dn en req validate :
  hasInteger x d en ->
  exists i, resolvesTo x d en (PDFInteger i) /\
    validateIntegerEntry x d dn en req V10 validate =
      if match validate with Some p => p i | None => true end
      then Ok (Some i) else Err (Prim ConstraintViolation dn en).
Proof.
  intros (i & Hi). exists i. split; [exact Hi|]. unfold validateIntegerEntry.
  rewrite (validateKindEntry_present _ _ _ _ _ _ _ _ (PDFInteger i)) by done.
  rewrite ValidateVersion_V10. simpl.
  destruct (match validate with Some p => p i | None => true end);
    reflexivity.
Qed.

Lemma validateBooleanEntry_resolves x d dn en b :
  resolvesTo x d en (PDFBoolean b) ->
  validateBooleanEntry x d dn en OPTIONAL V10 None = Ok (Some b).
Proof.
  intros H. unfold validateBooleanEntry.
  rewrite (validateKindEntry_present _ _ _ _ _ _ _ _ (PDFBoolean b)) by done.
  rewrite ValidateVersion_V10. reflexivity.
Qed.

(** The first phase up to the colour space, on an image with [Width] and
    [Height]. *)
Lemma validateImageStreamDictPart1_mask x sd dn :
  hasInteger x (PDFDict_of sd) "Width" ->
  hasInteger x (PDFDict_of sd) "Height" ->
  isMask x (PDFDict_of sd) ->
  validateImageStreamDictPart1 x sd dn = Ok true.
Proof.
  intros Hw Hh Hm. unfold validateImageStreamDictPart1.
  destruct (validateIntegerEntry_hasInteger x _ dn "Width" REQUIRED None Hw)
    as (w & _ & ->).
  destruct (validateIntegerEntry_hasInteger x _ dn "Height" REQUIRED None Hh)
    as (h & _ & ->).
  simpl. rewrite (validateBooleanEntry_resolves _ _ _ _ true Hm).
  reflexivity.
Qed.

Lemma validateImageStreamDictPart1_notMask x sd dn :
  hasInteger x (PDFDict_of sd) "Width" ->
  hasInteger x (PDFDict_of sd) "Height" ->
  notMask x (PDFDict_of sd) ->
  validateImageStreamDictPart1 x sd dn =
    check validateColorSpaceEntry x (PDFDict_of sd) dn "ColorSpace"
            (negb (HasSoleFilterNamed sd filter.JPX
                   || HasSoleFilterNamed sd filter.CCITTFax
                      && Mode_eqb (ValidationMode x) ValidationRelaxed))
            ExcludePatternCS in
    Ok false.
Proof.
  intros Hw Hh Hm. unfold validateImageStreamDictPart1.
  destruct (validateIntegerEntry_hasInteger x _ dn "Width" REQUIRED None Hw)
    as (w & _ & ->).
  destruct (validateIntegerEntry_hasInteger x _ dn "Height" REQUIRED None Hh)
    as (h & _ & ->).
  simpl.
  assert (Him : exists im,
             validateBooleanEntry x (PDFDict_of sd) dn "ImageMask" OPTIONAL
               V10 None = Ok im
             /\ match im with Some b => b | None => false end = false).
  { destruct Hm as [Hm | Hm].
    - exists None. unfold validateBooleanEntry.
      rewrite validateKindEntry_absent by done. auto.
    - exists (Some false).
      rewrite (validateBooleanEntry_resolves _ _ _ _ false Hm). auto. }
  destruct Him as (im & -> & Hb). simpl. rewrite Hb. simpl.
  destruct (HasSoleFilterNamed sd filter.JPX);
    destruct (HasSoleFilterNamed sd filter.CCITTFax
              && Mode_eqb (ValidationMode x) ValidationRelaxed);
    reflexivity.
Qed.

(** A first phase that passes says whether the image is an image mask. *)
Lemma validateImageStreamDictPart1_Ok_inv x sd dn im :
  validateImageStreamDictPart1 x sd dn = Ok im ->
  if im then isMask x (PDFDict_of sd) else notMask x (PDFDict_of sd).
Proof.
  unfold validateImageStreamDictPart1. intros H.
  apply bind_Ok_inv in H as (_ & _ & H).
  apply bind_Ok_inv in H as (_ & _ & H).
  apply bind_Ok_inv in H as (r & Hr & H).
  apply validateKindEntry_Ok_inv in Hr.
  destruct r as [b|]; simpl in H.
  - destruct Hr as (v & Hv & Hdec & _). destruct v; try discriminate.
    simpl in Hdec. injection Hdec as Hb. subst b. destruct b0; simpl in H.
    + injection H as <-. exact Hv.
    + apply bind_Ok_inv in H as (_ & _ & [= <-]). right. exact Hv.
  - apply bind_Ok_inv in H as (_ & _ & [= <-]). left. exact Hr.
Qed.

Lemma isMask_notMask x d : isMask x d -> notMask x d -> False.
Proof.
  intros Hm [[Hn | Hn] | Hn].
  - apply (resolvesTo_not_missing _ _ _ _ Hm Hn).
  - pose proof (resolvesTo_fun _ _ _ _ _ Hm Hn). discriminate.
  - pose proof (resolvesTo_fun _ _ _ _ _ Hm Hn). discriminate.
Qed.

(** C7. An image mask validates only if [BitsPerComponent] is absent or
    resolves to 1, and another integer, such as 2, fails as a constraint
    violation; on an image that is not an image mask and whose sole
    filter is not JPXDecode, a missing [BitsPerComponent] fails as a
    missing required entry. *)
Theorem validateImageStreamDict_BitsPerComponent (x : XRefTable)
    (sd : StreamDict) (isAlternate : bool) :
  let d := PDFDict_of sd in
  let dictName := "imageStreamDict" in
  (forall fuel, isMask x d ->
     validateImageStreamDict fuel x sd isAlternate = Ok tt ->
     absent x d "BitsPerComponent"
     \/ resolvesTo x d "BitsPerComponent" (PDFInteger 1)) /\
  (forall n i, validateImageStreamDictPart1 x sd dictName = Ok true ->
     resolvesTo x d "BitsPerComponent" (PDFInteger i) -> i <> 1%Z ->
     validateImageStreamDict (S n) x sd isAlternate
       = Err (Prim ConstraintViolation dictName "BitsPerComponent")) /\
  (forall n, validateImageStreamDictPart1 x sd dictName = Ok false ->
     HasSoleFilterNamed sd filter.JPX = false ->
     d !! "BitsPerComponent" = None ->
     validateImageStreamDict (S n) x sd isAlternate
       = Err (Prim MissingRequiredEntry dictName "BitsPerComponent")).
Proof.
  intros d dictName. subst d dictName. repeat apply conj.
  - intros [|n] Hm H; [discriminate|]. simpl in H.
    unfold validateImageStreamDictBody in H.
    apply bind_Ok_inv in H as (im & Him & H).
    apply validateImageStreamDictPart1_Ok_inv in Him.
    destruct im; [|destruct (isMask_notMask _ _ Hm Him)].
    apply bind_Ok_inv in H as (u & H & _).
    unfold validateImageStreamDictPart2 in H.
    apply bind_Ok_inv in H as (r & Hr & _).
    rewrite orb_true_r in Hr. cbv beta iota zeta in Hr.
    apply validateKindEntry_Ok_inv in Hr. destruct r as [i|]; [|auto].
    destruct Hr as (v & Hv & Hdec & Hone). destruct v; try discriminate.
    simpl in Hdec. injection Hdec as Hi. subst i.
    apply Z.eqb_eq in Hone. subst i0. auto.
  - intros n i H1 Hi Hne. simpl. unfold validateImageStreamDictBody.
    rewrite H1. simpl. unfold validateImageStreamDictPart2.
    rewrite orb_true_r. cbv beta iota zeta.
    destruct (validateIntegerEntry_hasInteger x _ "imageStreamDict"
                "BitsPerComponent"
                OPTIONAL (Some (fun i => (i =? 1)%Z)) (ex_intro _ i Hi))
      as (j & Hj & ->).
    pose proof (resolvesTo_fun _ _ _ _ _ Hi Hj) as [= <-].
    rewrite (proj2 (Z.eqb_neq i 1) Hne). reflexivity.
  - intros n H1 Hjpx Hmiss. simpl. unfold validateImageStreamDictBody.
    rewrite H1. simpl. unfold validateImageStreamDictPart2.
    rewrite Hjpx. simpl. unfold validateIntegerEntry.
    rewrite validateKindEntry_required_missing by done. reflexivity.
Qed.

(** An image mask with two bits per component, and an image without
    [BitsPerComponent]. *)
Lemma validateImageStreamDict_BitsPerComponent_witness :
  validateImageStreamDict 1 Examples.strict17
    (Examples.stencil [("BitsPerComponent", PDFInteger 2)]) false
  = Err (Prim ConstraintViolation "imageStreamDict" "BitsPerComponent")
  /\ validateImageStreamDict 1 Examples.strict17
       (mkStreamDict
          (delete "BitsPerComponent" (PDFDict_of (Examples.image []))) [])
       false
     = Err (Prim MissingRequiredEntry "imageStreamDict" "BitsPerComponent").
Proof.
  split.
  - apply (proj1 (proj2 (validateImageStreamDict_BitsPerComponent
                           Examples.strict17 _ false)) 0 2%Z).
    + reflexivity.
    + exists (PDFInteger 2). split; reflexivity.
    + discriminate.
  - apply (proj2 (proj2 (validateImageStreamDict_BitsPerComponent
                           Examples.strict17 _ false)) 0); reflexivity.
Defined.

Lemma resolvesTo_withEntry_ne x sd key v key' w :
  key' <> key ->
  resolvesTo x (PDFDict_of sd) key' w ->
  resolvesTo x (PDFDict_of (withEntry sd key v)) key' w.
Proof.
  intros Hne (o & Ho & Hw). exists o. split; [|exact Hw]. simpl.
  rewrite lookup_insert_ne by done. exact Ho.
Qed.

Lemma resolvesTo_withoutEntry_ne x sd key key' w :
  key' <> key ->
  resolvesTo x (PDFDict_of sd) key' w ->
  resolvesTo x (PDFDict_of (withoutEntry sd key)) key' w.
Proof.
  intros Hne (o & Ho & Hw). exists o. split; [|exact Hw]. simpl.
  rewrite lookup_delete_ne by done. exact Ho.
Qed.

Lemma validateColorSpaceEntry_pattern x d dn en req v :
  resolvesTo x d en v ->
  (v = PDFName "Pattern" \/ exists a, v = PDFArray (PDFName "Pattern" :: a)) ->
  validateColorSpaceEntry x d dn en req ExcludePatternCS
    = Err (Prim ConstraintViolation dn en).
Proof.
  intros Hv Hpat. unfold validateColorSpaceEntry.
  rewrite (resolveEntry_present _ _ _ _ _ _ v Hv).
  - destruct Hpat as [-> | [a ->]]; reflexivity.
  - destruct Hpat as [-> | [a ->]]; discriminate.
Qed.

(** C8. On an image that is not an image mask, a missing [ColorSpace]
    fails as a missing required entry unless the sole filter is
    JPXDecode, or the sole filter is CCITTFaxDecode and the mode is
    Relaxed; a pattern colour space is refused in every case; on an image
    mask the [ColorSpace] entry is not looked at. *)
Theorem validateImageStreamDictPart1_ColorSpace (x : XRefTable)
    (sd : StreamDict) (dictName : string) :
  let d := PDFDict_of sd in
  hasInteger x d "Width" -> hasInteger x d "Height" ->
  (notMask x d -> d !! "ColorSpace" = None ->
     validateImageStreamDictPart1 x sd dictName =
       if HasSoleFilterNamed sd filter.JPX
          || HasSoleFilterNamed sd filter.CCITTFax
             && Mode_eqb (ValidationMode x) ValidationRelaxed
       then Ok false
       else Err (Prim MissingRequiredEntry dictName "ColorSpace")) /\
  (notMask x d ->
     (resolvesTo x d "ColorSpace" (PDFName "Pattern")
      \/ exists a,
           resolvesTo x d "ColorSpace" (PDFArray (PDFName "Pattern" :: a))) ->
     validateImageStreamDictPart1 x sd dictName
       = Err (Prim ConstraintViolation dictName "ColorSpace")) /\
  (isMask x d -> forall v,
     validateImageStreamDictPart1 x (withEntry sd "ColorSpace" v) dictName
       = Ok true
     /\ validateImageStreamDictPart1 x (withoutEntry sd "ColorSpace") dictName
        = Ok true).
Proof.
  intros d Hw Hh. subst d. repeat apply conj.
  - intros Hm Hcs. rewrite validateImageStreamDictPart1_notMask by done.
    unfold validateColorSpaceEntry.
    rewrite resolveEntry_missing by done. rewrite future_V10.
    destruct (HasSoleFilterNamed sd filter.JPX
              || HasSoleFilterNamed sd filter.CCITTFax
                 && Mode_eqb (ValidationMode x) ValidationRelaxed);
      reflexivity.
  - intros Hm Hpat. rewrite validateImageStreamDictPart1_notMask by done.
    destruct Hpat as [Hp | [a Hp]];
      rewrite (validateColorSpaceEntry_pattern _ _ _ _ _ _ Hp) by eauto;
      reflexivity.
  - intros Hm v. destruct Hw as [w Hw], Hh as [h Hh]. split.
    + apply validateImageStreamDictPart1_mask.
      * exists w. apply resolvesTo_withEntry_ne; done.
      * exists h. apply resolvesTo_withEntry_ne; done.
      * apply resolvesTo_withEntry_ne; done.
    + apply validateImageStreamDictPart1_mask.
      * exists w. apply resolvesTo_withoutEntry_ne; done.
      * exists h. apply resolvesTo_withoutEntry_ne; done.
      * apply resolvesTo_withoutEntry_ne; done.
Qed.

(** An image without [ColorSpace] and without filters, in Strict mode. *)
Lemma validateImageStreamDictPart1_ColorSpace_witness :
  validateImageStreamDictPart1 Examples.strict17
    (withoutEntry (Examples.image []) "ColorSpace") "imageStreamDict"
  = Err (Prim MissingRequiredEntry "imageStreamDict" "ColorSpace").
Proof.
  refine (proj1 (validateImageStreamDictPart1_ColorSpace Examples.strict17
                   (withoutEntry (Examples.image []) "ColorSpace")
                   "imageStreamDict" _ _) _ _).
  - exists 1%Z, (PDFInteger 1). split; reflexivity.
  - exists 1%Z, (PDFInteger 1). split; reflexivity.
  - left. left. reflexivity.
  - reflexivity.
Defined.

(** ** Form objects: the rules across entries *)

Lemma validatePieceInfo_present x d dn p :
  resolvesTo x d "PieceInfo" (PDFDict p) -> allowed x V13 ->
  validatePieceInfo x d dn "PieceInfo" OPTIONAL V13 = Ok true.
Proof.
  intros H Hv. unfold validatePieceInfo, validateDictEntry.
  rewrite (validateKindEntry_present _ _ _ _ _ _ _ _ (PDFDict p)) by done.
  rewrite ValidateVersion_allowed by done. reflexivity.
Qed.

Lemma validatePieceInfo_absent x d dn :
  absent x d "PieceInfo" ->
  validatePieceInfo x d dn "PieceInfo" OPTIONAL V13 = Ok false.
Proof.
  intros H. unfold validatePieceInfo, validateDictEntry.
  rewrite validateKindEntry_absent by done. reflexivity.
Qed.

Lemma validateIntegerEntry_present_allowed x d dn en sv i :
  resolvesTo x d en (PDFInteger i) -> allowed x sv ->
  validateIntegerEntry x d dn en OPTIONAL sv None = Ok (Some i).
Proof.
  intros H Hv. unfold validateIntegerEntry.
  rewrite (validateKindEntry_present _ _ _ _ _ _ _ _ (PDFInteger i)) by done.
  rewrite ValidateVersion_allowed by done. reflexivity.
Qed.

Lemma validatePieceInfo_of_the_future x d dn p :
  resolvesTo x d "PieceInfo" (PDFDict p) -> ~ allowed x V13 ->
  validatePieceInfo x d dn "PieceInfo" OPTIONAL V13
  = Err (Prim VersionViolation "PieceInfo" "").
Proof.
  intros H Hv. unfold validatePieceInfo, validateDictEntry.
  rewrite (validateKindEntry_present _ _ _ _ _ _ _ _ (PDFDict p)) by done.
  rewrite ValidateVersion_not_allowed by done. reflexivity.
Qed.

Lemma validateIntegerEntry_of_the_future x d dn en sv i :
  resolvesTo x d en (PDFInteger i) -> ~ allowed x sv ->
  validateIntegerEntry x d dn en OPTIONAL sv None
  = Err (Prim VersionViolation en "").
Proof.
  intros H Hv. unfold validateIntegerEntry.
  rewrite (validateKindEntry_present _ _ _ _ _ _ _ _ (PDFInteger i)) by done.
  rewrite ValidateVersion_not_allowed by done. reflexivity.
Qed.

(** ** The kinds of the errors *)

Lemma errorsIn_bind {A B : Type} P (m : result A) (k : A -> result B) :
  errorsIn P m -> (forall a, errorsIn P (k a)) -> errorsIn P (bind m k).
Proof. destruct m; simpl; auto. Qed.

Lemma errorsIn_forEach {A : Type} P (f : A -> result unit) l :
  (forall a, errorsIn P (f a)) -> errorsIn P (forEach f l).
Proof.
  intros Hf. induction l as [|a l IH]; simpl; [exact I|].
  apply errorsIn_bind; auto.
Qed.

Lemma Dereference_errorsIn x o : errorsIn entryKind (Dereference x o).
Proof. unfold Dereference. repeat errs_step @errorsIn_bind. Qed.
#[local] Hint Resolve Dereference_errorsIn : errs.

Lemma DereferenceDict_errorsIn x o : errorsIn entryKind (DereferenceDict x o).
Proof. unfold DereferenceDict. repeat errs_step @errorsIn_bind. Qed.

Lemma DereferenceStreamDict_errorsIn x o :
  errorsIn entryKind (DereferenceStreamDict x o).
Proof. unfold DereferenceStreamDict. repeat errs_step @errorsIn_bind. Qed.

Lemma ValidateVersion_errorsIn x element sv :
  errorsIn entryKind (ValidateVersion x element sv).
Proof. unfold ValidateVersion. repeat errs_step @errorsIn_bind. Qed.
#[local] Hint Resolve DereferenceDict_errorsIn DereferenceStreamDict_errorsIn
  ValidateVersion_errorsIn : errs.

Lemma resolveEntry_errorsIn x d dn en req sv :
  errorsIn entryKind (resolveEntry x d dn en req sv).
Proof. unfold resolveEntry. repeat errs_step @errorsIn_bind. Qed.
#[local] Hint Resolve resolveEntry_errorsIn : errs.

Lemma validateKindEntry_errorsIn {A} (decode : PDFObject -> option A)
    x d dn en req sv validate :
  errorsIn entryKind (validateKindEntry decode x d dn en req sv validate).
Proof. unfold validateKindEntry. repeat errs_step @errorsIn_bind. Qed.

Lemma validateEntry_errorsIn x d dn en req sv :
  errorsIn entryKind (validateEntry x d dn en req sv).
Proof. unfold validateEntry. repeat errs_step @errorsIn_bind. Qed.

Lemma validateColorSpaceEntry_errorsIn x d dn en req excl :
  errorsIn entryKind (validateColorSpaceEntry x d dn en req excl).
Proof. unfold validateColorSpaceEntry. repeat errs_step @errorsIn_bind. Qed.
#[local] Hint Resolve validateKindEntry_errorsIn validateEntry_errorsIn
  validateColorSpaceEntry_errorsIn : errs.

Lemma validateOPIDictInks_errorsIn x o :
  errorsIn entryKind (validateOPIDictInks x o).
Proof. unfold validateOPIDictInks. repeat errs_step @errorsIn_bind. Qed.
#[local] Hint Resolve validateOPIDictInks_errorsIn : errs.

Lemma validateOPIDictV13_errorsIn x d :
  errorsIn entryKind (validateOPIDictV13 x d).
Proof.
  unfold validateOPIDictV13, validateOPIDictV13Part1, validateOPIDictV13Part2,
    validateNameEntry, validateNumberEntry, validateFileSpecEntry,
    validateStringEntry, validateIntegerArrayEntry, validateRectangleEntry,
    validateNumberArrayEntry, validateArrayEntry, validateBooleanEntry.
  repeat errs_step @errorsIn_bind.
Qed.

Lemma validateOPIDictV20_errorsIn x d :
  errorsIn entryKind (validateOPIDictV20 x d).
Proof.
  unfold validateOPIDictV20, validateNameEntry, validateNumberEntry,
    validateFileSpecEntry, validateStringEntry, validateIntegerArrayEntry,
    validateRectangleEntry, validateNumberArrayEntry, validateArrayEntry,
    validateBooleanEntry, validateIntegerEntry.
  repeat errs_step @errorsIn_bind.
Qed.
#[local] Hint Resolve validateOPIDictV13_errorsIn validateOPIDictV20_errorsIn
  : errs.

Lemma validateOPIVersionDict_errorsIn x d :
  errorsIn entryKind (validateOPIVersionDict x d).
Proof.
  unfold validateOPIVersionDict.
  destruct (negb (Nat.eqb (Len d) 1)); [reflexivity|].
  induction (map_to_list d) as [|[k o] l IH]; simpl; [exact I|].
  repeat errs_step @errorsIn_bind; exact IH.
Qed.
#[local] Hint Resolve validateOPIVersionDict_errorsIn : errs.

Lemma validateEntryOPI_errorsIn x d dn en req sv :
  errorsIn entryKind (validateEntryOPI x d dn en req sv).
Proof.
  unfold validateEntryOPI, validateDictEntry.
  repeat errs_step @errorsIn_bind.
Qed.

Lemma validateEntryOC_errorsIn x d dn en req sv :
  errorsIn entryKind (validateEntryOC x d dn en req sv).
Proof.
  unfold validateEntryOC, validateDictEntry,
    validateOptionalContentGroupDict.
  repeat errs_step @errorsIn_bind.
Qed.

Lemma validateMetadata_errorsIn x d req sv :
  errorsIn entryKind (validateMetadata x d req sv).
Proof.
  unfold validateMetadata, validateStreamDictEntry.
  repeat errs_step @errorsIn_bind.
Qed.

Lemma validateOptionalContent_errorsIn x d dn en req sv :
  errorsIn entryKind (validateOptionalContent x d dn en req sv).
Proof.
  unfold validateOptionalContent, validateDictEntry.
  repeat errs_step @errorsIn_bind.
Qed.
#[local] Hint Resolve validateEntryOPI_errorsIn validateEntryOC_errorsIn
  validateMetadata_errorsIn validateOptionalContent_errorsIn : errs.

(** C9. On a form whose entries of version 1.3 pass the version check
    (the document is of version 1.3 or later, or the mode is Relaxed), a
    [PieceInfo] dictionary without [LastModified] fails as a missing
    dependent entry, and [StructParent] together with [StructParents],
    once [PieceInfo] and [LastModified] are accepted, fails as
    conflicting entries.  Where the version check does not pass (Strict
    mode, a document older than 1.3) a [PieceInfo] dictionary fails as a
    version violation, and so does a [StructParent] once [PieceInfo] and
    [LastModified] are accepted: the rules across entries are not
    reached.  With none of [PieceInfo], [StructParent] and
    [StructParents] the rules across entries raise nothing: whatever
    error is left comes from the check of a single entry. *)
Theorem validateFormStreamDictPart2_cross_rules (x : XRefTable) (d : Dict)
    (dictName : string) :
  (forall p, resolvesTo x d "PieceInfo" (PDFDict p) -> allowed x V13 ->
     absent x d "LastModified" ->
     validateFormStreamDictPart2 x d dictName
       = Err (At FormStreamDictPart2_missingLastModified)
     /\ kindOf (At FormStreamDictPart2_missingLastModified)
        = MissingDependentEntry) /\
  (forall hasPieceInfo lm i j,
     validatePieceInfo x d dictName "PieceInfo" OPTIONAL V13
       = Ok hasPieceInfo ->
     validateDateEntry x d dictName "LastModified" OPTIONAL V13 = Ok lm ->
     (hasPieceInfo = true -> lm <> None) ->
     resolvesTo x d "StructParent" (PDFInteger i) ->
     resolvesTo x d "StructParents" (PDFInteger j) ->
     allowed x V13 ->
     validateFormStreamDictPart2 x d dictName
       = Err (At FormStreamDictPart2_bothStructParents)
     /\ kindOf (At FormStreamDictPart2_bothStructParents)
        = ConflictingEntries) /\
  (forall p, resolvesTo x d "PieceInfo" (PDFDict p) -> ~ allowed x V13 ->
     validateFormStreamDictPart2 x d dictName
       = Err (Prim VersionViolation "PieceInfo" "")
     /\ kindOf (Prim VersionViolation "PieceInfo" "") = VersionViolation) /\
  (forall hasPieceInfo lm i,
     validatePieceInfo x d dictName "PieceInfo" OPTIONAL V13
       = Ok hasPieceInfo ->
     validateDateEntry x d dictName "LastModified" OPTIONAL V13 = Ok lm ->
     (hasPieceInfo = true -> lm <> None) ->
     resolvesTo x d "StructParent" (PDFInteger i) ->
     ~ allowed x V13 ->
     validateFormStreamDictPart2 x d dictName
       = Err (Prim VersionViolation "StructParent" "")
     /\ kindOf (Prim VersionViolation "StructParent" "")
        = VersionViolation) /\
  (absent x d "PieceInfo" -> absent x d "StructParent" ->
   absent x d "StructParents" ->
   validateFormStreamDictPart2 x d dictName <> Panic /\
   forall e, validateFormStreamDictPart2 x d dictName = Err e ->
     kindOf e <> MissingDependentEntry /\ kindOf e <> ConflictingEntries).
Proof.
  repeat apply conj.
  - intros p Hp Hv Hlm. split; [|reflexivity].
    unfold validateFormStreamDictPart2.
    rewrite (validatePieceInfo_present _ _ _ p) by done. simpl.
    unfold validateDateEntry. rewrite validateKindEntry_absent by done.
    reflexivity.
  - intros hp lm i j Hp Hlm Hrule Hi Hj Hv. split; [|reflexivity].
    unfold validateFormStreamDictPart2. rewrite Hp, Hlm. simpl.
    replace (hp && match lm with Some _ => false | None => true end)
      with false
      by (destruct hp, lm; try reflexivity; exfalso; apply Hrule; reflexivity).
    rewrite (validateIntegerEntry_present_allowed _ _ _ _ _ i) by done.
    simpl.
    rewrite (validateIntegerEntry_present_allowed _ _ _ _ _ j) by done.
    reflexivity.
  - intros p Hp Hv. split; [|reflexivity].
    unfold validateFormStreamDictPart2.
    rewrite (validatePieceInfo_of_the_future _ _ _ p) by done. reflexivity.
  - intros hp lm i Hp Hlm Hrule Hi Hv. split; [|reflexivity].
    unfold validateFormStreamDictPart2. rewrite Hp, Hlm. simpl.
    replace (hp && match lm with Some _ => false | None => true end)
      with false
      by (destruct hp, lm; try reflexivity; exfalso; apply Hrule; reflexivity).
    rewrite (validateIntegerEntry_of_the_future _ _ _ _ _ i) by done.
    reflexivity.
  - intros Hp Hsp Hsps.
    assert (H : errorsIn entryKind (validateFormStreamDictPart2 x d dictName)).
    { unfold validateFormStreamDictPart2.
      rewrite validatePieceInfo_absent by done. simpl.
      apply errorsIn_bind.
      - unfold validateDateEntry. auto with errs.
      - intros lm. unfold validateIntegerEntry.
        rewrite !validateKindEntry_absent by done. simpl.
        unfold validateNameEntry. repeat errs_step @errorsIn_bind. }
    split.
    + intros E. rewrite E in H. exact H.
    + intros e E. rewrite E in H. simpl in H.
      split; intros K; rewrite K in H; discriminate.
Qed.

(** A form dictionary with [PieceInfo] alone, in a document of version
    1.7 and in a document of version 1.2, and one with [StructParent]
    and [StructParents], in a document of version 1.7 and in a document
    of version 1.2. *)
Lemma validateFormStreamDictPart2_cross_rules_witness :
  validateFormStreamDictPart2 Examples.strict17 Examples.pieceInfoOnly
    "formStreamDict"
  = Err (At FormStreamDictPart2_missingLastModified)
  /\ validateFormStreamDictPart2 Examples.strict12 Examples.pieceInfoOnly
       "formStreamDict"
     = Err (Prim VersionViolation "PieceInfo" "")
  /\ validateFormStreamDictPart2 Examples.strict17
       Examples.bothStructParents "formStreamDict"
     = Err (At FormStreamDictPart2_bothStructParents)
  /\ validateFormStreamDictPart2 Examples.strict12
       Examples.bothStructParents "formStreamDict"
     = Err (Prim VersionViolation "StructParent" "").
Proof.
  split; [|split; [|split]]; cycle 2.
  - refine (proj1 (proj1 (proj2 (validateFormStreamDictPart2_cross_rules
                                   Examples.strict17
                                   Examples.bothStructParents
                                   "formStreamDict"))
                     false None 1%Z 2%Z _ _ _ _ _ _)).
    + reflexivity.
    + reflexivity.
    + discriminate.
    + exists (PDFInteger 1). split; reflexivity.
    + exists (PDFInteger 2). split; reflexivity.
    + reflexivity.
  - refine (proj1 (proj1 (proj2 (proj2 (proj2
              (validateFormStreamDictPart2_cross_rules
                 Examples.strict12 Examples.bothStructParents
                 "formStreamDict"))))
                     false None 1%Z _ _ _ _ _)).
    + reflexivity.
    + reflexivity.
    + discriminate.
    + exists (PDFInteger 1). split; reflexivity.
    + discriminate.
  - refine (proj1 (proj1 (validateFormStreamDictPart2_cross_rules
                            Examples.strict17 Examples.pieceInfoOnly
                            "formStreamDict") ∅ _ _ _)).
    + exists (PDFDict ∅). split; reflexivity.
    + reflexivity.
    + left. reflexivity.
  - refine (proj1 (proj1 (proj2 (proj2
              (validateFormStreamDictPart2_cross_rules
                 Examples.strict12 Examples.pieceInfoOnly
                 "formStreamDict"))) ∅ _ _)).
    + exists (PDFDict ∅). split; reflexivity.
    + discriminate.
Defined.

(** C9, as first stated, fails: in Strict mode on a document of version
    1.2 a form with [PieceInfo] and no [LastModified] fails as a version
    violation, not as a missing dependent entry, and a form with both
    [StructParent] and [StructParents] fails as a version violation, not
    as conflicting entries. *)
Lemma form_entries_of_the_future_fail_on_their_version :
  (is_Some (Examples.pieceInfoOnly !! "PieceInfo")
   /\ Examples.pieceInfoOnly !! "LastModified" = None
   /\ validateFormStreamDictPart2 Examples.strict12 Examples.pieceInfoOnly
        "formStreamDict"
      = Err (Prim VersionViolation "PieceInfo" "")
   /\ validateFormStreamDict (validateXObjectStreamDict 1) Examples.strict12
        (Examples.form [("PieceInfo", PDFDict ∅)])
      = Err (Prim VersionViolation "PieceInfo" "")
   /\ kindOf (Prim VersionViolation "PieceInfo" "") <> MissingDependentEntry)
  /\ is_Some (Examples.bothStructParents !! "StructParent")
  /\ is_Some (Examples.bothStructParents !! "StructParents")
  /\ validateFormStreamDictPart2 Examples.strict12
       Examples.bothStructParents "formStreamDict"
     = Err (Prim VersionViolation "StructParent" "")
  /\ kindOf (Prim VersionViolation "StructParent" "") <> ConflictingEntries.
Proof.
  split.
  - split; [eexists; reflexivity|].
    repeat split; try reflexivity. discriminate.
  - split; [eexists; reflexivity|]. split; [eexists; reflexivity|].
    split; [reflexivity|discriminate].
Qed.

(** ** Image objects: recursion through masks *)

Lemma failsOrDiverges_bind {A B : Type} P (m : result A) (k : A -> result B) :
  failsOrDiverges P m -> failsOrDiverges P (bind m k).
Proof. destruct m; simpl; intros H; first [exact H | contradiction]. Qed.

Lemma errorsIn_then {A B : Type} P (m : result A) (k : A -> result B) :
  errorsIn P m -> (forall a, m = Ok a -> failsOrDiverges P (k a)) ->
  failsOrDiverges P (bind m k).
Proof.
  destruct m; simpl; intros H Hk; first [exact H | contradiction | auto].
Qed.

Lemma validateEntry_present x d dn en req sv v :
  resolvesTo x d en v -> v <> PDFNull ->
  validateEntry x d dn en req sv =
    check ValidateVersion x en sv in Ok (Some v).
Proof.
  intros H Hv. unfold validateEntry.
  rewrite (resolveEntry_present _ _ _ _ _ _ v) by done. reflexivity.
Qed.


Lemma validateImageStreamDictPart1_errorsIn x sd dn :
  errorsIn entryKind (validateImageStreamDictPart1 x sd dn).
Proof.
  unfold validateImageStreamDictPart1, validateIntegerEntry,
    validateBooleanEntry.
  repeat errs_step @errorsIn_bind.
Qed.
#[local] Hint Resolve validateImageStreamDictPart1_errorsIn : errs.

Lemma validateImageStreamDictBody_errorsIn rec :
  (forall x sd alt, errorsIn entryKind (rec x sd alt)) ->
  forall x sd alt, errorsIn entryKind (validateImageStreamDictBody rec x sd alt).
Proof.
  intros Hrec x sd alt.
  unfold validateImageStreamDictBody, validateImageStreamDictPart2,
    validateMaskEntry, validateMaskStreamDict,
    validateAlternateImageStreamDicts, validateStreamDict,
    validateIntegerEntry, validateNameEntry, validateNumberArrayEntry,
    validateBooleanEntry, validateArrayEntry, validateStreamDictEntry,
    validateStringEntry.
  repeat first [ apply errorsIn_forEach; intros
               | apply Hrec
               | errs_step @errorsIn_bind ].
Qed.

(** The image validator never panics, and whatever error it returns is
    of a kind that an entry check or a rule table reports. *)
Lemma validateImageStreamDict_errorsIn fuel x sd alt :
  errorsIn entryKind (validateImageStreamDict fuel x sd alt).
Proof.
  revert x sd alt. induction fuel as [|n IH]; intros x sd alt; [exact I|].
  simpl. apply validateImageStreamDictBody_errorsIn. exact IH.
Qed.

(** C1. The walk carries no depth counter and no set of visited objects.
    On an image that is not an image mask and whose [Mask] resolves to
    the image itself, validation never succeeds and never fails as a
    recursion limit: either the check of an entry fails on the way, with
    the error of that check, or the recursion does not return at any
    depth. *)
Theorem validateImageStreamDict_self_mask (fuel : nat) (x : XRefTable)
    (sd : StreamDict) (isAlternate : bool) :
  notMask x (PDFDict_of sd) ->
  resolvesTo x (PDFDict_of sd) "Mask" (PDFStreamDict sd) ->
  match validateImageStreamDict fuel x sd isAlternate with
  | Ok _ | Panic => False
  | OutOfFuel => True
  | Err e => entryKind (kindOf e) = true
             /\ kindOf e <> RecursionLimitExceeded
  end.
Proof.
  intros Hnm Hmask.
  assert (H : failsOrDiverges entryKind
                (validateImageStreamDict fuel x sd isAlternate)).
  { revert isAlternate. induction fuel as [|n IH]; intros alt; [exact I|].
    simpl. unfold validateImageStreamDictBody.
    apply errorsIn_then; [auto with errs|]. intros im Him.
    apply validateImageStreamDictPart1_Ok_inv in Him.
    destruct im; [destruct (isMask_notMask _ _ Him Hnm)|].
    apply failsOrDiverges_bind. unfold validateImageStreamDictPart2.
    apply errorsIn_then; [unfold validateIntegerEntry; auto with errs|].
    intros _ _.
    apply errorsIn_then; [unfold validateNameEntry; auto with errs|].
    intros _ _.
    apply failsOrDiverges_bind. simpl. unfold validateMaskEntry.
    rewrite (validateEntry_present _ _ _ _ _ _ (PDFStreamDict sd)) by done.
    destruct (ValidateVersion x "Mask" V13) as [[]|e| |] eqn:Ev; simpl.
    - unfold validateMaskStreamDict.
      repeat match goal with
             | |- failsOrDiverges _ (if ?b then _ else _) =>
                 destruct b; [reflexivity|]
             end.
      apply IH.
    - pose proof (ValidateVersion_errorsIn x "Mask" V13) as Hv.
      rewrite Ev in Hv. exact Hv.
    - pose proof (ValidateVersion_errorsIn x "Mask" V13) as Hv.
      rewrite Ev in Hv. exact Hv.
    - exact I. }
  destruct (validateImageStreamDict fuel x sd isAlternate); simpl in H;
    try exact H.
  split; [exact H|]. intros K. rewrite K in H. discriminate.
Qed.

(** The self-masked image, at depth three. *)
Lemma validateImageStreamDict_self_mask_witness :
  match validateImageStreamDict 3 Examples.selfMaskedTable
          Examples.selfMasked false with
  | Ok _ | Panic => False
  | OutOfFuel => True
  | Err e => entryKind (kindOf e) = true
             /\ kindOf e <> RecursionLimitExceeded
  end.
Proof.
  apply (validateImageStreamDict_self_mask 3 Examples.selfMaskedTable
           Examples.selfMasked false).
  - left. left. reflexivity.
  - exists (PDFIndirectRef 7 0). split; reflexivity.
Defined.

(** When every check before [Mask] passes, the recursion through a
    [Mask] that resolves to the image itself uses up every budget. *)
Lemma self_mask_diverges x sd :
  hasInteger x (PDFDict_of sd) "Width" ->
  hasInteger x (PDFDict_of sd) "Height" ->
  notMask x (PDFDict_of sd) ->
  validateColorSpaceEntry x (PDFDict_of sd) "imageStreamDict" "ColorSpace"
    (negb (HasSoleFilterNamed sd filter.JPX
           || HasSoleFilterNamed sd filter.CCITTFax
              && Mode_eqb (ValidationMode x) ValidationRelaxed))
    ExcludePatternCS = Ok tt ->
  hasInteger x (PDFDict_of sd) "BitsPerComponent" ->
  absent x (PDFDict_of sd) "Intent" ->
  resolvesTo x (PDFDict_of sd) "Mask" (PDFStreamDict sd) ->
  allowed x V13 ->
  Type_ (PDFDict_of sd) = None ->
  Subtype (PDFDict_of sd) = Some "Image" ->
  forall fuel alt, validateImageStreamDict fuel x sd alt = OutOfFuel.
Proof.
  intros Hw Hh Hnm Hcs Hbpc Hint Hmask Hv Hty Hsub fuel.
  induction fuel as [|n IH]; intros alt; [reflexivity|].
  simpl. unfold validateImageStreamDictBody.
  rewrite validateImageStreamDictPart1_notMask by done. rewrite Hcs.
  simpl. unfold validateImageStreamDictPart2.
  rewrite orb_false_r. cbv beta iota zeta.
  destruct (validateIntegerEntry_hasInteger x _ "imageStreamDict"
              "BitsPerComponent"
              (if HasSoleFilterNamed sd filter.JPX then OPTIONAL
               else REQUIRED) None Hbpc) as (i & _ & ->).
  simpl. unfold validateNameEntry.
  rewrite validateKindEntry_absent by done. simpl.
  unfold validateMaskEntry.
  rewrite (validateEntry_present _ _ _ _ _ _ (PDFStreamDict sd)) by done.
  rewrite ValidateVersion_allowed by done. simpl.
  unfold validateMaskStreamDict. rewrite Hty, Hsub. simpl.
  rewrite IH. reflexivity.
Qed.

(** C1, as first stated, fails: on an image whose [Mask] is a reference
    to the image itself, validation returns nothing at any depth, a
    recursion limit error included. *)
Lemma selfMasked_never_returns :
  resolvesTo Examples.selfMaskedTable (PDFDict_of Examples.selfMasked) "Mask"
    (PDFStreamDict Examples.selfMasked)
  /\ ~ exists fuel,
         validateImageStreamDict fuel Examples.selfMaskedTable
           Examples.selfMasked false <> OutOfFuel.
Proof.
  assert (Hm : resolvesTo Examples.selfMaskedTable
                 (PDFDict_of Examples.selfMasked) "Mask"
                 (PDFStreamDict Examples.selfMasked))
    by (exists (PDFIndirectRef 7 0); split; reflexivity).
  split; [exact Hm|].
  intros [fuel H]. apply H. apply self_mask_diverges; try reflexivity;
    try exact Hm.
  - exists 1%Z, (PDFInteger 1). split; reflexivity.
  - exists 1%Z, (PDFInteger 1). split; reflexivity.
  - left. left. reflexivity.
  - exists 8%Z, (PDFInteger 8). split; reflexivity.
  - left. reflexivity.
Qed.

(** ** Image objects: entries that are not looked at *)

Lemma validateImageStreamDictPart1_ext key x d d' fp dn :
  agreeOff key d d' ->
  key <> "Width" -> key <> "Height" -> key <> "ImageMask" ->
  key <> "ColorSpace" ->
  validateImageStreamDictPart1 x (mkStreamDict d fp) dn =
  validateImageStreamDictPart1 x (mkStreamDict d' fp) dn.
Proof.
  intros H Hw Hh Hm Hc.
  unfold validateImageStreamDictPart1, validateIntegerEntry,
    validateBooleanEntry, HasSoleFilterNamed.
  cbn [PDFDict_of FilterPipeline]. cbv beta zeta.
  repeat (rewrite (validateKindEntry_ext _ x d d') by (apply H; congruence)).
  repeat (rewrite (validateColorSpaceEntry_ext x d d')
            by (apply H; congruence)).
  reflexivity.
Qed.

(** One call of the image validator reads [Alternates] only in the check
    of the alternates, and not at all on an alternate. *)
Lemma validateImageStreamDictBody_ext_Alternates rec x d d' fp alt :
  agreeOff "Alternates" d d' ->
  (alt = true \/
   validateAlternateImageStreamDicts rec x d "imageStreamDict" "Alternates"
     OPTIONAL V13
   = validateAlternateImageStreamDicts rec x d' "imageStreamDict"
       "Alternates" OPTIONAL V13) ->
  validateImageStreamDictBody rec x (mkStreamDict d fp) alt =
  validateImageStreamDictBody rec x (mkStreamDict d' fp) alt.
Proof.
  intros H Halt. unfold validateImageStreamDictBody.
  rewrite (validateImageStreamDictPart1_ext "Alternates" x d d') by done.
  destruct (validateImageStreamDictPart1 x (mkStreamDict d' fp)
              "imageStreamDict") as [im| | |]; try reflexivity.
  rewrite !bind_Ok_l.
  unfold validateImageStreamDictPart2, validateMaskEntry, validateEntryOPI,
    validateMetadata, validateEntryOC, validateIntegerEntry,
    validateBooleanEntry, validateNameEntry, validateNumberArrayEntry,
    validateStreamDictEntry, validateStringEntry, validateDictEntry,
    HasSoleFilterNamed.
  cbn [PDFDict_of FilterPipeline]. cbv beta zeta.
  repeat (rewrite (validateKindEntry_ext _ x d d') by (apply H; discriminate)).
  repeat (rewrite (validateEntry_ext x d d') by (apply H; discriminate)).
  destruct Halt as [-> | ->]; reflexivity.
Qed.










(** ** Alternate images *)

Lemma validateAlternateImageStreamDicts_absent rec x d dn en sv :
  absent x d en ->
  validateAlternateImageStreamDicts rec x d dn en OPTIONAL sv = Ok tt.
Proof.
  intros H. unfold validateAlternateImageStreamDicts, validateArrayEntry.
  rewrite validateKindEntry_absent by done. reflexivity.
Qed.

Lemma forEach_all_Ok {A} (f : A -> result unit) l :
  Forall (fun a => f a = Ok tt) l -> forEach f l = Ok tt.
Proof.
  induction 1 as [|a l Ha _ IH]; [reflexivity|]. simpl.
  rewrite Ha. exact IH.
Qed.

(** Where the image validates without [Alternates], an error of the
    check of the alternates is the error of the call. *)
Lemma validateImageStreamDictBody_Alternates_fails rec x d d' fp e :
  agreeOff "Alternates" d d' ->
  validateImageStreamDictBody rec x (mkStreamDict d' fp)
    isNoAlternateImageStreamDict = Ok tt ->
  validateAlternateImageStreamDicts rec x d "imageStreamDict" "Alternates"
    OPTIONAL V13 = Err e ->
  validateImageStreamDictBody rec x (mkStreamDict d fp)
    isNoAlternateImageStreamDict = Err e.
Proof.
  intros H Hok Halt. unfold validateImageStreamDictBody in Hok |- *.
  rewrite (validateImageStreamDictPart1_ext "Alternates" x d d') by done.
  apply bind_Ok_inv in Hok as (im & -> & Hok). rewrite bind_Ok_l.
  apply bind_Ok_inv in Hok as (u & H2 & _).
  enough (E : validateImageStreamDictPart2 rec x (mkStreamDict d fp)
                "imageStreamDict" im isNoAlternateImageStreamDict = Err e)
    by (rewrite E; reflexivity).
  revert H2.
  unfold validateImageStreamDictPart2, validateMaskEntry,
    validateIntegerEntry, validateBooleanEntry, validateNameEntry,
    validateNumberArrayEntry, HasSoleFilterNamed,
    isNoAlternateImageStreamDict.
  cbn [PDFDict_of FilterPipeline negb]. cbv beta zeta.
  repeat (rewrite (validateKindEntry_ext _ x d d') by (apply H; discriminate)).
  repeat (rewrite (validateEntry_ext x d d') by (apply H; discriminate)).
  rewrite Halt. intros H2.
  apply bind_Ok_inv in H2 as (? & -> & H2).
  apply bind_Ok_inv in H2 as (? & -> & H2).
  apply bind_Ok_inv in H2 as (? & -> & H2).
  apply bind_Ok_inv in H2 as (? & -> & H2).
  apply bind_Ok_inv in H2 as (? & -> & _).
  reflexivity.
Qed.

(** C4. An image validated as an alternate does not have its own
    [Alternates] read, so alternates of alternates are neither refused
    nor followed.  Where the version check of [Alternates] passes (the
    document is of version 1.3 or later, or the mode is Relaxed),
    alternates that each are null or validate as an alternate leave the
    verdict on the image as it is without them; where it does not pass
    (Strict mode, a document older than 1.3), an image that validates
    without [Alternates] fails as a version violation with an array as
    [Alternates]. *)
Theorem validateImageStreamDict_Alternates (x : XRefTable) (sd : StreamDict) :
  (forall fuel v,
     validateImageStreamDict fuel x (withEntry sd "Alternates" v)
       isAlternateImageStreamDict
     = validateImageStreamDict fuel x (withoutEntry sd "Alternates")
         isAlternateImageStreamDict) /\
  (forall n arr, allowed x V13 ->
     Forall (fun o =>
               resolvesToNull x o = true
               \/ exists a, validateStreamDict x o = Ok (Some a)
                            /\ validateImageStreamDict n x a
                                 isAlternateImageStreamDict = Ok tt) arr ->
     validateImageStreamDict (S n) x
       (withEntry sd "Alternates" (PDFArray arr))
       isNoAlternateImageStreamDict
     = validateImageStreamDict (S n) x (withoutEntry sd "Alternates")
         isNoAlternateImageStreamDict) /\
  (forall n arr, ~ allowed x V13 ->
     validateImageStreamDict (S n) x (withoutEntry sd "Alternates")
       isNoAlternateImageStreamDict = Ok tt ->
     validateImageStreamDict (S n) x
       (withEntry sd "Alternates" (PDFArray arr))
       isNoAlternateImageStreamDict
     = Err (Prim VersionViolation "Alternates" "")
     /\ kindOf (Prim VersionViolation "Alternates" "") = VersionViolation).
Proof.
  repeat apply conj.
  - intros [|n] v; [reflexivity|]. simpl. unfold withEntry, withoutEntry.
    apply validateImageStreamDictBody_ext_Alternates.
    + apply agreeOff_insert_delete.
    + left. reflexivity.
  - intros n arr Hv Harr. simpl. unfold withEntry, withoutEntry.
    apply validateImageStreamDictBody_ext_Alternates.
    + apply agreeOff_insert_delete.
    + right.
      rewrite (validateAlternateImageStreamDicts_absent _ _ (delete _ _))
        by (left; apply lookup_delete_eq).
      unfold validateAlternateImageStreamDicts.
      rewrite validateArrayEntry_insert, ValidateVersion_allowed by done.
      simpl. apply forEach_all_Ok.
      eapply Forall_impl; [exact Harr|]. simpl.
      intros o [Hnull | (a & Ha & Hok)].
      * rewrite (validateStreamDict_null _ _ Hnull). reflexivity.
      * rewrite Ha. exact Hok.
  - intros n arr Hv Hok. split; [|reflexivity].
    simpl in Hok |- *. unfold withEntry, withoutEntry in Hok |- *.
    eapply validateImageStreamDictBody_Alternates_fails;
      [apply agreeOff_insert_delete | exact Hok |].
    unfold validateAlternateImageStreamDicts.
    rewrite validateArrayEntry_insert, ValidateVersion_not_allowed by done.
    reflexivity.
Qed.

(** An image with one alternate and one null element, in a document of
    version 1.7 and in a document of version 1.2. *)
Lemma validateImageStreamDict_Alternates_witness :
  validateImageStreamDict 2 Examples.strict17
    (withEntry (Examples.image []) "Alternates"
       (PDFArray [PDFStreamDict (Examples.image []); PDFNull]))
    false
  = Ok tt
  /\ validateImageStreamDict 2 Examples.strict12
       (withEntry (Examples.image []) "Alternates"
          (PDFArray [PDFStreamDict (Examples.image []); PDFNull]))
       false
     = Err (Prim VersionViolation "Alternates" "").
Proof.
  split.
  - rewrite (proj1 (proj2 (validateImageStreamDict_Alternates
                             Examples.strict17 (Examples.image []))) 1).
    + reflexivity.
    + reflexivity.
    + constructor.
      * right. exists (Examples.image []). split; reflexivity.
      * constructor; [left; reflexivity | constructor].
  - refine (proj1 (proj2 (proj2 (validateImageStreamDict_Alternates
                                   Examples.strict12 (Examples.image [])))
                     1 _ _ _)).
    + discriminate.
    + reflexivity.
Defined.

(** C4, as first stated, fails: an image validates whose alternate has an
    alternate of its own; and in Strict mode on a document of version 1.2
    an image with one level of alternates, each with [Width], [Height]
    and [ColorSpace], fails as a version violation, although each
    alternate validates, and so does the image without [Alternates]. *)
Lemma alternates_of_alternates_validate :
  (exists a1 a2,
     PDFDict_of Examples.alternateOfAlternate !! "Alternates"
       = Some (PDFArray [PDFStreamDict a1])
     /\ PDFDict_of a1 !! "Alternates" = Some (PDFArray [PDFStreamDict a2]))
  /\ validateImageStreamDict 2 Examples.strict17
       Examples.alternateOfAlternate false = Ok tt
  /\ validateImageStreamDict 2 Examples.strict12
       Examples.oneLevelOfAlternates false
     = Err (Prim VersionViolation "Alternates" "")
  /\ validateImageStreamDict 1 Examples.strict12 (Examples.image [])
       isAlternateImageStreamDict = Ok tt
  /\ validateImageStreamDict 1 Examples.strict12
       (withoutEntry Examples.oneLevelOfAlternates "Alternates") false
     = Ok tt.
Proof.
  split; [|repeat split; reflexivity].
  eexists. eexists. split; reflexivity.
Qed.

(** ** What a validated dictionary holds *)

Lemma bind_Ok_iff {A B : Type} (m : result A) (k : A -> result B) (b : B) :
  bind m k = Ok b <-> exists a, m = Ok a /\ k a = Ok b.
Proof.
  split; [apply bind_Ok_inv|]. intros (a & -> & H). exact H.
Qed.

Lemma decode_not_null {A} (decode : PDFObject -> option A) v a :
  decode PDFNull = None -> decode v = Some a -> v <> PDFNull.
Proof. intros Hn Hv ->. congruence. Qed.

(** A successful entry check: the entry is absent, or present with the
    kind and the predicate of the check. *)
Lemma validateKindEntry_Ok_optional {A} (decode : PDFObject -> option A)
    x d dn en req sv validate r :
  validateKindEntry decode x d dn en req sv validate = Ok r ->
  optional decode (holds validate) x d en.
Proof.
  intros H. apply validateKindEntry_Ok_inv in H. destruct r as [a|].
  - right. destruct H as (v & Hv & Hd & Hp). exists v, a. auto.
  - left. exact H.
Qed.

(** A successful check of an entry that is required since the first
    version: the entry is present. *)
Lemma validateKindEntry_Ok_required {A} (decode : PDFObject -> option A)
    x d dn en validate r :
  validateKindEntry decode x d dn en REQUIRED V10 validate = Ok r ->
  present decode (holds validate) x d en.
Proof.
  intros H. pose proof (validateKindEntry_Ok_inv _ _ _ _ _ _ _ _ _ H) as Hi.
  destruct r as [a|].
  - destruct Hi as (v & Hv & Hd & Hp). exists v, a. auto.
  - exfalso. destruct Hi as [Hi | Hi].
    + rewrite validateKindEntry_required_missing in H by done.
      discriminate.
    + unfold validateKindEntry in H.
      rewrite resolveEntry_null, future_V10 in H by done. discriminate.
Qed.

(** The converse, for entries introduced in the first version. *)
Lemma validateKindEntry_absent_V10 {A} (decode : PDFObject -> option A)
    x d dn en validate :
  absent x d en ->
  validateKindEntry decode x d dn en OPTIONAL V10 validate = Ok None.
Proof. apply validateKindEntry_absent. Qed.

Lemma validateKindEntry_present_V10 {A} (decode : PDFObject -> option A)
    x d dn en req validate :
  decode PDFNull = None ->
  present decode (holds validate) x d en ->
  exists a, validateKindEntry decode x d dn en req V10 validate = Ok (Some a).
Proof.
  intros Hn (v & a & Hv & Hd & Hp). exists a.
  rewrite (validateKindEntry_present _ _ _ _ _ _ _ _ v Hv)
    by (eapply decode_not_null; eauto).
  rewrite Hd, ValidateVersion_V10.
  destruct validate as [p|]; simpl in *; [rewrite Hp|]; reflexivity.
Qed.

Lemma validateKindEntry_optional_V10 {A} (decode : PDFObject -> option A)
    x d dn en validate :
  decode PDFNull = None ->
  optional decode (holds validate) x d en ->
  exists r, validateKindEntry decode x d dn en OPTIONAL V10 validate = Ok r.
Proof.
  intros Hn [H | H].
  - rewrite validateKindEntry_absent by done. eauto.
  - destruct (validateKindEntry_present_V10 decode x d dn en OPTIONAL
                validate Hn H) as [a ->]. eauto.
Qed.

Lemma validateReferenceDictPageEntry_Ok_iff x obj :
  validateReferenceDictPageEntry x obj = Ok tt <->
  exists v, Dereference x obj = Ok v /\ pageLegal v.
Proof.
  unfold validateReferenceDictPageEntry. split.
  - intros H. apply bind_Ok_inv in H as (v & Hv & H). exists v.
    split; [exact Hv|]. destruct v; try discriminate; exact I.
  - intros (v & -> & Hv). destruct v; simpl in *; try contradiction;
      reflexivity.
Qed.

(** X1. A reference dictionary validates exactly when [F] is present as
    a string or a dictionary, the key [Page] is present and its value
    resolves to null, an integer or a string, and [ID] is absent or an
    array of two strings; the document's version and the mode play no
    part. *)
Theorem validateReferenceDict_Ok_iff (x : XRefTable) (d : Dict) :
  validateReferenceDict x d = Ok tt <->
  present asFileSpec any x d "F"
  /\ (exists v, resolvesTo x d "Page" v /\ pageLegal v)
  /\ optional (asArrayOf x asString) (fun a => length a = 2) x d "ID".
Proof.
  unfold validateReferenceDict, validateFileSpecEntry,
    validateStringArrayEntry, Find. cbv zeta. split.
  - intros H. apply bind_Ok_inv in H as (f & Hf & H).
    apply validateKindEntry_Ok_required in Hf.
    destruct (d !! "Page") as [o|] eqn:Ho; [|discriminate].
    apply bind_Ok_inv in H as ([] & Hp & H).
    apply validateReferenceDictPageEntry_Ok_iff in Hp as (v & Hv & Hl).
    apply bind_Ok_inv in H as (a & Ha & _).
    apply validateKindEntry_Ok_optional in Ha.
    split; [|split].
    + destruct Hf as (w & b & ? & ? & _). exists w, b. unfold any. auto.
    + exists v. split; [exists o; auto | exact Hl].
    + destruct Ha as [Ha | (w & b & ? & ? & Hlen)]; [left; exact Ha|].
      right. exists w, b. simpl in Hlen. apply Nat.eqb_eq in Hlen. auto.
  - intros (Hf & (v & (o & Ho & Hv) & Hl) & Hid).
    destruct (validateKindEntry_present_V10 asFileSpec x d "refDict" "F"
                REQUIRED None eq_refl) as [f ->].
    { destruct Hf as (w & b & ? & ? & _). exists w, b. simpl. auto. }
    simpl. rewrite Ho.
    rewrite (proj2 (validateReferenceDictPageEntry_Ok_iff x o))
      by (exists v; auto).
    simpl.
    destruct (validateKindEntry_optional_V10 (asArrayOf x asString) x d
                "refDict" "ID"
                (Some (fun arr => Nat.eqb (length arr) 2)) eq_refl)
      as [r ->]; [|reflexivity].
    destruct Hid as [Hid | (w & b & ? & ? & Hlen)]; [left; exact Hid|].
    right. exists w, b. simpl. rewrite Hlen. auto.
Qed.

Lemma optional_impl {A} (decode : PDFObject -> option A) (P Q : A -> Prop)
    x d key :
  (forall a, P a -> Q a) ->
  optional decode P x d key -> optional decode Q x d key.
Proof.
  intros HPQ [H | (v & a & Hv & Hd & Hp)]; [left; exact H|].
  right. exists v, a. auto.
Qed.

Lemma present_impl {A} (decode : PDFObject -> option A) (P Q : A -> Prop)
    x d key :
  (forall a, P a -> Q a) ->
  present decode P x d key -> present decode Q x d key.
Proof. intros HPQ (v & a & Hv & Hd & Hp). exists v, a. auto. Qed.

Lemma validateColorSpaceEntry_Ok_iff x d dn en excl :
  validateColorSpaceEntry x d dn en OPTIONAL excl = Ok tt <->
  optional (asColorSpace excl) any x d en.
Proof.
  unfold validateColorSpaceEntry. split.
  - intros H. apply bind_Ok_inv in H as (o & Ho & H).
    apply resolveEntry_Ok_inv in Ho. destruct o as [v|]; [|left; exact Ho].
    destruct Ho as [Hv _]. right.
    destruct (asColorSpace excl v) as [c|] eqn:E.
    + exists v, c. unfold any. auto.
    + destruct v; discriminate.
  - intros [H | (v & c & Hv & Hc & _)].
    + rewrite resolveEntry_absent_optional by done. reflexivity.
    + rewrite (resolveEntry_present _ _ _ _ _ _ v Hv)
        by (intros ->; destruct excl; discriminate).
      simpl. rewrite Hc. reflexivity.
Qed.

Lemma String_eqb_holds s t : String.eqb s t = true <-> s = t.
Proof. apply String.eqb_eq. Qed.

(** X2. A group attributes dictionary validates exactly when the value
    resolves to null, or to a dictionary whose [S] is present and is the
    name Transparency, whose [Type] is absent or the name Group, whose
    [CS] is absent or a colour space that is not a pattern, and whose
    [I] is absent or a boolean. *)
Theorem validateGroupAttributesDict_Ok_iff (x : XRefTable) (obj : PDFObject) :
  validateGroupAttributesDict x obj = Ok tt <->
  DereferenceDict x obj = Ok None
  \/ exists d,
       DereferenceDict x obj = Ok (Some d)
       /\ optional asName (fun s => s = "Group") x d "Type"
       /\ present asName (fun s => s = "Transparency") x d "S"
       /\ optional (asColorSpace ExcludePatternCS) any x d "CS"
       /\ optional asBoolean any x d "I".
Proof.
  unfold validateGroupAttributesDict, validateNameEntry,
    validateBooleanEntry. split.
  - intros H. apply bind_Ok_inv in H as (dd & Hd & H).
    destruct dd as [d|]; [|left; exact Hd]. right. exists d. cbv zeta in H.
    apply bind_Ok_inv in H as (t & Ht & H).
    apply bind_Ok_inv in H as (s & Hs & H).
    apply bind_Ok_inv in H as ([] & Hc & H).
    apply bind_Ok_inv in H as (i & Hi & _).
    apply validateKindEntry_Ok_optional in Ht, Hi.
    apply validateKindEntry_Ok_required in Hs.
    apply validateColorSpaceEntry_Ok_iff in Hc.
    refine (conj Hd (conj _ (conj _ (conj Hc _)))).
    + eapply optional_impl; [|exact Ht]. intros a. apply String.eqb_eq.
    + eapply present_impl; [|exact Hs]. intros a. apply String.eqb_eq.
    + eapply optional_impl; [|exact Hi]. intros a _. exact I.
  - intros [-> | (d & -> & Ht & Hs & Hc & Hi)]; [reflexivity|]. simpl.
    destruct (validateKindEntry_optional_V10 asName x d
                "groupAttributesDict" "Type"
                (Some (fun s => String.eqb s "Group")) eq_refl) as [t ->].
    { eapply optional_impl; [|exact Ht]. intros a. apply String.eqb_eq. }
    destruct (validateKindEntry_present_V10 asName x d
                "groupAttributesDict" "S" REQUIRED
                (Some (fun s => String.eqb s "Transparency")) eq_refl)
      as [s ->].
    { eapply present_impl; [|exact Hs]. intros a. apply String.eqb_eq. }
    simpl. rewrite (proj2 (validateColorSpaceEntry_Ok_iff _ _ _ _ _) Hc).
    destruct (validateKindEntry_optional_V10 asBoolean x d
                "groupAttributesDict" "I" None eq_refl) as [i ->];
      [|reflexivity].
    eapply optional_impl; [|exact Hi]. intros a _. exact I.
Qed.

(** ** What a validated image and a validated form hold *)

Lemma memberOf_renderingIntent s :
  memberOf s ["AbsoluteColorimetric"; "RelativeColorimetric"; "Saturation";
              "Perceptual"] = true ->
  renderingIntent s.
Proof.
  unfold memberOf, renderingIntent. simpl. intros H.
  repeat (apply orb_true_iff in H as [H | H];
          [apply String.eqb_eq in H; auto|]).
  discriminate.
Qed.

(** X3. An image that validates has [Width] and [Height] present as
    integers, [Intent] absent or one of the four rendering intents,
    [SMaskInData] absent or an integer from 0 to 2, [Decode] absent or an
    array of numbers, [Interpolate] absent or a boolean, and, in a
    document of version 1.0, [Name] present as a name. *)
Theorem validateImageStreamDict_Ok_entries (fuel : nat) (x : XRefTable)
    (sd : StreamDict) (isAlternate : bool) :
  validateImageStreamDict fuel x sd isAlternate = Ok tt ->
  let d := PDFDict_of sd in
  present asInteger any x d "Width"
  /\ present asInteger any x d "Height"
  /\ optional asName renderingIntent x d "Intent"
  /\ optional asInteger (fun i => (0 <= i <= 2)%Z) x d "SMaskInData"
  /\ optional (asArrayOf x asNumber) any x d "Decode"
  /\ optional asBoolean any x d "Interpolate"
  /\ (Version x = V10 -> present asName any x d "Name").
Proof.
  destruct fuel as [|n]; [discriminate|]. simpl. intros H.
  unfold validateImageStreamDictBody in H.
  apply bind_Ok_inv in H as (im & H1 & H).
  apply bind_Ok_inv in H as (u & H2 & H).
  apply bind_Ok_inv in H as (sm & _ & H).
  apply bind_Ok_inv in H as (? & _ & H).
  apply bind_Ok_inv in H as (smd & Hsmd & H).
  apply bind_Ok_inv in H as (nm & Hnm & _).
  unfold validateImageStreamDictPart1 in H1.
  apply bind_Ok_inv in H1 as (w & Hw & H1).
  apply bind_Ok_inv in H1 as (h & Hh & _).
  unfold validateImageStreamDictPart2 in H2.
  apply bind_Ok_inv in H2 as (? & _ & H2).
  apply bind_Ok_inv in H2 as (it & Hit & H2).
  apply bind_Ok_inv in H2 as (? & _ & H2).
  apply bind_Ok_inv in H2 as (dc & Hdc & H2).
  apply bind_Ok_inv in H2 as (ip & Hip & _).
  apply validateKindEntry_Ok_required in Hw, Hh.
  apply validateKindEntry_Ok_optional in Hit, Hsmd, Hdc, Hip.
  repeat apply conj.
  - eapply present_impl; [|exact Hw]. intros a _. exact I.
  - eapply present_impl; [|exact Hh]. intros a _. exact I.
  - eapply optional_impl; [|exact Hit]. intros a.
    apply memberOf_renderingIntent.
  - eapply optional_impl; [|exact Hsmd]. simpl. intros a Ha.
    apply andb_true_iff in Ha as [Ha Hb].
    apply Z.leb_le in Ha, Hb. auto.
  - eapply optional_impl; [|exact Hdc]. intros a _. exact I.
  - eapply optional_impl; [|exact Hip]. intros a _. exact I.
  - intros Hv. rewrite Hv in Hnm. apply validateKindEntry_Ok_required in Hnm.
    eapply present_impl; [|exact Hnm]. intros a _. exact I.
Qed.

Lemma validateImageStreamDict_Ok_entries_witness :
  present asInteger any Examples.strict17
    (PDFDict_of (Examples.image [])) "Width".
Proof.
  apply (validateImageStreamDict_Ok_entries 1 Examples.strict17
           (Examples.image []) false).
  reflexivity.
Defined.

Lemma validateKindEntry_Ok_present_Some {A} (decode : PDFObject -> option A)
    (P : A -> Prop) x d dn en req sv validate r :
  decode PDFNull = None ->
  validateKindEntry decode x d dn en req sv validate = Ok r ->
  present decode P x d en -> exists a, r = Some a.
Proof.
  intros Hn H (v & a & Hv & Hd & _).
  rewrite (validateKindEntry_present _ _ _ _ _ _ _ _ v Hv) in H
    by (eapply decode_not_null; eauto).
  rewrite Hd in H.
  destruct (match validate with Some p => p a | None => true end);
    [|discriminate].
  apply bind_Ok_inv in H as (_ & _ & [= <-]). eauto.
Qed.

(** X4. A form that validates has [BBox] present as an array of four
    numbers, [FormType] absent or 1, [Matrix] absent or an array of six
    numbers, not both [StructParent] and [StructParents] as integers,
    [LastModified] present as a string whenever [PieceInfo] is present as
    a dictionary, and, in a document of version 1.0, [Name] present as a
    name. *)
Theorem validateFormStreamDict_Ok_entries
    (rec : XRefTable -> PDFObject -> result unit) (x : XRefTable)
    (sd : StreamDict) :
  validateFormStreamDict rec x sd = Ok tt ->
  let d := PDFDict_of sd in
  present (asRectangle x) any x d "BBox"
  /\ optional asInteger (fun i => i = 1%Z) x d "FormType"
  /\ optional (asArrayOf x asNumber) (fun a => length a = 6) x d "Matrix"
  /\ ~ (present asInteger any x d "StructParent"
        /\ present asInteger any x d "StructParents")
  /\ (present asDict any x d "PieceInfo" ->
      present asString any x d "LastModified")
  /\ (Version x = V10 -> present asName any x d "Name").
Proof.
  unfold validateFormStreamDict. cbv zeta. intros H.
  apply bind_Ok_inv in H as (u & H1 & H2).
  unfold validateFormStreamDictPart1 in H1. cbv zeta in H1.
  apply bind_Ok_inv in H1 as (ft & Hft & H1).
  apply bind_Ok_inv in H1 as (bb & Hbb & H1).
  apply bind_Ok_inv in H1 as (mx & Hmx & _).
  unfold validateFormStreamDictPart2 in H2.
  apply bind_Ok_inv in H2 as (hp & Hhp & H2).
  apply bind_Ok_inv in H2 as (lm & Hlm & H2).
  destruct (hp && match lm with Some _ => false | None => true end) eqn:Erule;
    [discriminate|].
  apply bind_Ok_inv in H2 as (sp & Hsp & H2).
  apply bind_Ok_inv in H2 as (sps & Hsps & H2).
  destruct (match sp, sps with Some _, Some _ => true | _, _ => false end)
    eqn:Eboth; [discriminate|].
  apply bind_Ok_inv in H2 as (? & _ & H2).
  apply bind_Ok_inv in H2 as (? & _ & H2).
  apply bind_Ok_inv in H2 as (nm & Hnm & _).
  apply validateKindEntry_Ok_required in Hbb.
  apply validateKindEntry_Ok_optional in Hft, Hmx.
  repeat apply conj.
  - eapply present_impl; [|exact Hbb]. intros a _. exact I.
  - eapply optional_impl; [|exact Hft]. intros a. apply Z.eqb_eq.
  - eapply optional_impl; [|exact Hmx]. intros a. apply Nat.eqb_eq.
  - intros [Hp Hps]. unfold validateIntegerEntry in Hsp, Hsps.
    destruct (validateKindEntry_Ok_present_Some asInteger any _ _ _ _ _ _ _ _
                eq_refl Hsp Hp) as [i ->].
    destruct (validateKindEntry_Ok_present_Some asInteger any _ _ _ _ _ _ _ _
                eq_refl Hsps Hps) as [j ->].
    discriminate.
  - intros Hpi. unfold validatePieceInfo in Hhp.
    apply bind_Ok_inv in Hhp as (pd & Hpd & Hhp).
    unfold validateDictEntry in Hpd. unfold validateDateEntry in Hlm.
    destruct (validateKindEntry_Ok_present_Some asDict any _ _ _ _ _ _ _ _
                eq_refl Hpd Hpi) as [p ->].
    injection Hhp as <-. simpl in Erule.
    destruct lm as [s|]; [|discriminate].
    apply validateKindEntry_Ok_inv in Hlm.
    destruct Hlm as (v & Hv & Hd & _). exists v, s. unfold any. auto.
  - intros Hv. rewrite Hv in Hnm. apply validateKindEntry_Ok_required in Hnm.
    eapply present_impl; [|exact Hnm]. intros a _. exact I.
Qed.

Lemma validateFormStreamDict_Ok_entries_witness :
  present (asRectangle Examples.strict17) any Examples.strict17
    (PDFDict_of (Examples.form [])) "BBox".
Proof.
  apply (validateFormStreamDict_Ok_entries (validateXObjectStreamDict 0)
           Examples.strict17 (Examples.form [])).
  reflexivity.
Defined.

(** ** What a validated OPI dictionary holds *)

(** X5. An OPI 1.3 dictionary that validates has [Version] present as a
    number equal to 1.3, [F] present as a file specification, [Size]
    present as an array of two integers, [CropRect] present as an array
    of four numbers and [Position] present as an array of eight numbers;
    its [Type] is absent or the name OPI, its [ColorType] absent or one
    of Process, Spot and Separation, its [Color] absent or an array of
    five elements. *)
Theorem validateOPIDictV13_Ok_entries (x : XRefTable) (d : Dict) :
  validateOPIDictV13 x d = Ok tt ->
  present asNumber (fun f => PrimFloat.eqb f 1.3%float = true) x d "Version"
  /\ present asFileSpec any x d "F"
  /\ present (asArrayOf x asInteger) (fun a => length a = 2) x d "Size"
  /\ present (asRectangle x) any x d "CropRect"
  /\ present (asArrayOf x asNumber) (fun a => length a = 8) x d "Position"
  /\ optional asName (fun s => s = "OPI") x d "Type"
  /\ optional asName opiColorType x d "ColorType"
  /\ optional asArray (fun a => length a = 5) x d "Color".
Proof.
  unfold validateOPIDictV13. cbv zeta. intros H.
  apply bind_Ok_inv in H as (u & H1 & H2).
  unfold validateOPIDictV13Part1 in H1.
  apply bind_Ok_inv in H1 as (ty & Hty & H1).
  apply bind_Ok_inv in H1 as (ve & Hve & H1).
  apply bind_Ok_inv in H1 as (f & Hf & H1).
  apply bind_Ok_inv in H1 as (? & _ & H1).
  apply bind_Ok_inv in H1 as (? & _ & H1).
  apply bind_Ok_inv in H1 as (sz & Hsz & H1).
  apply bind_Ok_inv in H1 as (cr & Hcr & H1).
  apply bind_Ok_inv in H1 as (? & _ & H1).
  apply bind_Ok_inv in H1 as (po & Hpo & _).
  unfold validateOPIDictV13Part2 in H2.
  apply bind_Ok_inv in H2 as (? & _ & H2).
  apply bind_Ok_inv in H2 as (ct & Hct & H2).
  apply bind_Ok_inv in H2 as (co & Hco & _).
  apply validateKindEntry_Ok_required in Hve, Hf, Hsz, Hcr, Hpo.
  apply validateKindEntry_Ok_optional in Hty, Hct, Hco.
  repeat apply conj.
  - exact Hve.
  - eapply present_impl; [|exact Hf]. intros a _. exact I.
  - eapply present_impl; [|exact Hsz]. intros a. apply Nat.eqb_eq.
  - eapply present_impl; [|exact Hcr]. intros a _. exact I.
  - eapply present_impl; [|exact Hpo]. intros a. apply Nat.eqb_eq.
  - eapply optional_impl; [|exact Hty]. intros a. apply String.eqb_eq.
  - eapply optional_impl; [|exact Hct]. simpl. intros a Ha.
    unfold opiColorType.
    apply orb_true_iff in Ha as [Ha | Ha];
      [apply orb_true_iff in Ha as [Ha | Ha]|];
      apply String.eqb_eq in Ha; auto.
  - eapply optional_impl; [|exact Hco]. intros a. apply Nat.eqb_eq.
Qed.

Lemma validateOPIDictV13_Ok_entries_witness :
  present asFileSpec any Examples.strict17 (Examples.opi13 []) "F".
Proof.
  apply (validateOPIDictV13_Ok_entries Examples.strict17 (Examples.opi13 [])).
  reflexivity.
Defined.

(** X6. An OPI 2.0 dictionary that validates has [Version] present as a
    number equal to 2.0 and [F] present as a file specification; its
    [Size] is absent or an array of two numbers, its
    [IncludedImageDimensions] absent or an array of two integers, and
    its [IncludedImageQuality] absent or an integer from 1 to 3. *)
Theorem validateOPIDictV20_Ok_entries (x : XRefTable) (d : Dict) :
  validateOPIDictV20 x d = Ok tt ->
  present asNumber (fun f => PrimFloat.eqb f 2.0%float = true) x d "Version"
  /\ present asFileSpec any x d "F"
  /\ optional (asArrayOf x asNumber) (fun a => length a = 2) x d "Size"
  /\ optional (asArrayOf x asInteger) (fun a => length a = 2) x d
       "IncludedImageDimensions"
  /\ optional asInteger (fun i => (1 <= i <= 3)%Z) x d
       "IncludedImageQuality".
Proof.
  unfold validateOPIDictV20. cbv zeta. intros H.
  apply bind_Ok_inv in H as (? & _ & H).
  apply bind_Ok_inv in H as (ve & Hve & H).
  apply bind_Ok_inv in H as (f & Hf & H).
  apply bind_Ok_inv in H as (? & _ & H).
  apply bind_Ok_inv in H as (? & _ & H).
  apply bind_Ok_inv in H as (sz & Hsz & H).
  apply bind_Ok_inv in H as (? & _ & H).
  apply bind_Ok_inv in H as (? & _ & H).
  apply bind_Ok_inv in H as (? & _ & H).
  apply bind_Ok_inv in H as (dm & Hdm & H).
  apply bind_Ok_inv in H as (q & Hq & _).
  apply validateKindEntry_Ok_required in Hve, Hf.
  apply validateKindEntry_Ok_optional in Hsz, Hdm, Hq.
  repeat apply conj.
  - exact Hve.
  - eapply present_impl; [|exact Hf]. intros a _. exact I.
  - eapply optional_impl; [|exact Hsz]. intros a. apply Nat.eqb_eq.
  - eapply optional_impl; [|exact Hdm]. intros a. apply Nat.eqb_eq.
  - eapply optional_impl; [|exact Hq]. simpl. intros a Ha.
    apply andb_true_iff in Ha as [Ha Hb]. apply Z.leb_le in Ha, Hb. auto.
Qed.

Lemma validateOPIDictV20_Ok_entries_witness :
  present asFileSpec any Examples.strict17 (Examples.opi20 []) "F".
Proof.
  apply (validateOPIDictV20_Ok_entries Examples.strict17 (Examples.opi20 [])).
  reflexivity.
Defined.

(** ** Checks that do not depend on the version or the mode *)

Lemma Dereference_table x x' o :
  Table x = Table x' -> Dereference x o = Dereference x' o.
Proof. intros H. unfold Dereference. rewrite H. reflexivity. Qed.

Lemma validateKindEntry_V10_table {A} (decode decode' : PDFObject -> option A)
    x x' d dn en req validate :
  Table x = Table x' -> (forall v, decode v = decode' v) ->
  validateKindEntry decode x d dn en req V10 validate =
  validateKindEntry decode' x' d dn en req V10 validate.
Proof.
  intros Ht Hd. unfold validateKindEntry, resolveEntry.
  rewrite !future_V10.
  destruct (d !! en) as [o|]; [|destruct req; reflexivity].
  rewrite (Dereference_table x x' o Ht).
  destruct (Dereference x' o) as [v| | |]; try reflexivity. simpl.
  destruct v; simpl; try (destruct req; reflexivity);
    rewrite <- Hd; try rewrite !ValidateVersion_V10; reflexivity.
Qed.

Lemma asArrayOf_table {A} (decode : PDFObject -> option A) x x' v :
  Table x = Table x' -> asArrayOf x decode v = asArrayOf x' decode v.
Proof.
  intros Ht. destruct v; try reflexivity. simpl.
  assert (He : elementsAre x decode a = elementsAre x' decode a).
  { unfold elementsAre. induction a as [|o a IH]; simpl; [reflexivity|].
    rewrite (Dereference_table x x' o Ht), IH. reflexivity. }
  rewrite He. reflexivity.
Qed.

Lemma asRectangle_table x x' v :
  Table x = Table x' -> asRectangle x v = asRectangle x' v.
Proof.
  intros Ht. unfold asRectangle. rewrite (asArrayOf_table _ x x' v Ht).
  reflexivity.
Qed.

Lemma validateOPIDictV13_table x x' d :
  Table x = Table x' -> validateOPIDictV13 x d = validateOPIDictV13 x' d.
Proof.
  intros Ht.
  unfold validateOPIDictV13, validateOPIDictV13Part1, validateOPIDictV13Part2,
    validateNameEntry, validateNumberEntry, validateFileSpecEntry,
    validateStringEntry, validateIntegerArrayEntry, validateRectangleEntry,
    validateNumberArrayEntry, validateArrayEntry, validateBooleanEntry.
  repeat rewrite (validateKindEntry_V10_table (asArrayOf x asInteger)
                    (asArrayOf x' asInteger) x x')
    by (auto using asArrayOf_table).
  repeat rewrite (validateKindEntry_V10_table (asArrayOf x asNumber)
                    (asArrayOf x' asNumber) x x')
    by (auto using asArrayOf_table).
  repeat rewrite (validateKindEntry_V10_table (asRectangle x)
                    (asRectangle x') x x')
    by (auto using asRectangle_table).
  repeat rewrite (validateKindEntry_V10_table _ _ x x' d) by auto.
  reflexivity.
Qed.

Lemma validateOPIDictV20_table x x' d :
  Table x = Table x' -> validateOPIDictV20 x d = validateOPIDictV20 x' d.
Proof.
  intros Ht.
  unfold validateOPIDictV20, validateOPIDictInks, validateNameEntry,
    validateNumberEntry, validateFileSpecEntry, validateStringEntry,
    validateIntegerArrayEntry, validateRectangleEntry,
    validateNumberArrayEntry, validateArrayEntry, validateBooleanEntry,
    validateIntegerEntry.
  repeat rewrite (validateKindEntry_V10_table (asArrayOf x asInteger)
                    (asArrayOf x' asInteger) x x')
    by (auto using asArrayOf_table).
  repeat rewrite (validateKindEntry_V10_table (asArrayOf x asNumber)
                    (asArrayOf x' asNumber) x x')
    by (auto using asArrayOf_table).
  repeat rewrite (validateKindEntry_V10_table (asRectangle x)
                    (asRectangle x') x x')
    by (auto using asRectangle_table).
  repeat rewrite (validateKindEntry_V10_table _ _ x x' d) by auto.
  destruct (Find d "Inks") as [o|]; [|reflexivity].
  rewrite (Dereference_table x x' o Ht). reflexivity.
Qed.

Lemma validateOPIVersionDictEntries_table x x' l :
  Table x = Table x' ->
  validateOPIVersionDictEntries x l = validateOPIVersionDictEntries x' l.
Proof.
  intros Ht. induction l as [|[k o] l IH]; [reflexivity|].
  cbn [validateOPIVersionDictEntries].
  destruct (negb (validateOPIVersion k)); [reflexivity|].
  unfold DereferenceDict. rewrite (Dereference_table x x' o Ht).
  destruct (Dereference x' o) as [w| | |]; try reflexivity.
  rewrite !bind_Ok_l. destruct w; try reflexivity.
  rewrite !bind_Ok_l.
  rewrite (validateOPIDictV13_table x x') by exact Ht.
  rewrite (validateOPIDictV20_table x x') by exact Ht.
  rewrite IH. reflexivity.
Qed.

(** X7. An OPI version dictionary validates the same whatever the
    version of the document and whatever the mode: every entry of both
    rule tables is checked since the first version. *)
Theorem validateOPIVersionDict_any_version_and_mode
    (t : gmap (Z * Z) PDFObject) (v v' : PDFVersion) (m m' : Mode)
    (d : Dict) :
  validateOPIVersionDict (mkXRefTable t v m) d
  = validateOPIVersionDict (mkXRefTable t v' m') d.
Proof.
  unfold validateOPIVersionDict.
  destruct (negb (Nat.eqb (Len d) 1)); [reflexivity|].
  apply validateOPIVersionDictEntries_table. reflexivity.
Qed.

(** ** Walks over the entries of a dictionary and of an array *)

Lemma ValidateVersion_Ok_iff x element sv :
  ValidateVersion x element sv = Ok tt <-> allowed x sv.
Proof.
  unfold ValidateVersion, allowed.
  destruct (future x sv && Mode_eqb (ValidationMode x) ValidationStrict);
    split; intros H; try reflexivity; discriminate.
Qed.

Lemma forEach_Ok_iff {A} (f : A -> result unit) l :
  forEach f l = Ok tt <-> Forall (fun a => f a = Ok tt) l.
Proof.
  split; [|apply forEach_all_Ok].
  induction l as [|a l IH]; simpl; intros H; [constructor|].
  apply bind_Ok_inv in H as ([] & Ha & H). constructor; auto.
Qed.

(** X8. The walk over an XObject resource dictionary succeeds exactly
    when the version allows the dictionary and the value resolves to
    null or to a dictionary every value of which validates as an
    external object; the order in which the entries are visited plays no
    part in the verdict. *)
Theorem validateXObjectResourceDict_Ok_iff
    (rec : XRefTable -> PDFObject -> result unit) (x : XRefTable)
    (obj : PDFObject) (sinceVersion : PDFVersion) :
  validateXObjectResourceDict rec x obj sinceVersion = Ok tt <->
  allowed x sinceVersion
  /\ (DereferenceDict x obj = Ok None
      \/ exists d, DereferenceDict x obj = Ok (Some d)
                   /\ forall k v, d !! k = Some v -> rec x v = Ok tt).
Proof.
  unfold validateXObjectResourceDict. rewrite bind_Ok_iff. split.
  - intros ([] & Hv & H). apply ValidateVersion_Ok_iff in Hv.
    split; [exact Hv|].
    apply bind_Ok_inv in H as (dd & Hd & H).
    destruct dd as [d|]; [|left; exact Hd]. right. exists d.
    split; [exact Hd|]. intros k v Hk.
    apply forEach_Ok_iff in H. rewrite Forall_forall in H.
    apply (H (k, v)). apply elem_of_map_to_list. exact Hk.
  - intros (Hv & H). exists tt.
    split; [apply ValidateVersion_Ok_iff; exact Hv|].
    destruct H as [-> | (d & -> & H)]; [reflexivity|]. simpl.
    apply forEach_Ok_iff. apply Forall_forall. intros [k v] Hkv.
    apply elem_of_map_to_list in Hkv. apply (H k v Hkv).
Qed.

Lemma validateArrayEntry_Ok_resolves x d dn en req sv arr :
  resolvesTo x d en (PDFArray arr) ->
  validateArrayEntry x d dn en req sv None =
    check ValidateVersion x en sv in Ok (Some arr).
Proof.
  intros H. unfold validateArrayEntry.
  rewrite (validateKindEntry_present _ _ _ _ _ _ _ _ (PDFArray arr))
    by done.
  reflexivity.
Qed.

(** X9. The check of an optional [Alternates] entry succeeds exactly
    when the entry is absent, or resolves to an array that the version
    allows and every element of which resolves to null or to a stream
    dictionary that validates as an alternate image. *)
Theorem validateAlternateImageStreamDicts_Ok_iff
    (rec : XRefTable -> StreamDict -> bool -> result unit) (x : XRefTable)
    (d : Dict) (dictName entryName : string) (sinceVersion : PDFVersion) :
  validateAlternateImageStreamDicts rec x d dictName entryName OPTIONAL
    sinceVersion = Ok tt <->
  absent x d entryName
  \/ exists arr,
       resolvesTo x d entryName (PDFArray arr)
       /\ allowed x sinceVersion
       /\ Forall (fun o =>
                    resolvesToNull x o = true
                    \/ exists a, validateStreamDict x o = Ok (Some a)
                                 /\ rec x a isAlternateImageStreamDict
                                    = Ok tt) arr.
Proof.
  split.
  - unfold validateAlternateImageStreamDicts. intros H.
    apply bind_Ok_inv in H as (r & Hr & H).
    pose proof Hr as Hi. unfold validateArrayEntry in Hi.
    apply validateKindEntry_Ok_inv in Hi.
    destruct r as [arr|]; [|left; exact Hi]. right. exists arr.
    destruct Hi as (v & Hv & Hdec & _). destruct v; try discriminate.
    simpl in Hdec. injection Hdec as ->.
    rewrite (validateArrayEntry_Ok_resolves _ _ _ _ _ _ arr Hv) in Hr.
    apply bind_Ok_inv in Hr as ([] & Hver & _).
    apply ValidateVersion_Ok_iff in Hver.
    refine (conj Hv (conj Hver _)).
    apply forEach_Ok_iff in H. eapply Forall_impl; [exact H|]. simpl.
    intros o Ho. apply bind_Ok_inv in Ho as (s & Hs & Ho).
    destruct s as [a|]; [right; eauto|]. left.
    unfold validateStreamDict, DereferenceStreamDict in Hs.
    unfold resolvesToNull.
    destruct (Dereference x o) as [w| | |]; try discriminate.
    destruct w; try discriminate. reflexivity.
  - intros [H | (arr & Harr & Hv & Hall)].
    + apply validateAlternateImageStreamDicts_absent. exact H.
    + unfold validateAlternateImageStreamDicts.
      rewrite (validateArrayEntry_Ok_resolves _ _ _ _ _ _ arr Harr).
      rewrite ValidateVersion_allowed by done. simpl.
      apply forEach_all_Ok. eapply Forall_impl; [exact Hall|]. simpl.
      intros o [Hnull | (a & Ha & Hok)].
      * rewrite (validateStreamDict_null _ _ Hnull). reflexivity.
      * rewrite Ha. exact Hok.
Qed.

(** ** The dispatcher, read backwards *)

Lemma validateNameEntry_Subtype_Ok_inv x d dn req r :
  validateNameEntry x d dn "Subtype" req V10 None = Ok r ->
  match r with
  | Some s => resolvesTo x d "Subtype" (PDFName s)
  | None => absent x d "Subtype"
  end.
Proof.
  intros H. apply validateKindEntry_Ok_inv in H. destruct r as [s|]; [|exact H].
  destruct H as (v & Hv & Hdec & _). destruct v; try discriminate.
  simpl in Hdec. injection Hdec as ->. exact Hv.
Qed.

Lemma validateNameEntry_Type_Ok_inv x d dn r :
  validateNameEntry x d dn "Type" OPTIONAL V10
    (Some (fun s => String.eqb s "XObject")) = Ok r ->
  typeLegal x d.
Proof.
  intros H. apply validateKindEntry_Ok_inv in H. destruct r as [s|].
  - destruct H as (v & Hv & Hdec & Hp). destruct v; try discriminate.
    simpl in Hdec. injection Hdec as ->. apply String.eqb_eq in Hp as ->.
    right. exact Hv.
  - left. exact H.
Qed.

(** X10. An external object that validates and is not the null object
    itself resolves to a stream dictionary whose [Type] is absent or
    XObject, and either its [Subtype] is the name Form and it validates
    as a form, or its [Subtype] is the name Image and it validates as an
    image, or the mode is Relaxed, [Subtype] is absent, and it validates
    as a form when it has a [BBox] key and as an image when it has none.
    No other subtype validates in any mode. *)
Theorem validateXObjectStreamDict_Ok_inv (fuel : nat) (x : XRefTable)
    (obj : PDFObject) :
  validateXObjectStreamDict fuel x obj = Ok tt -> obj <> PDFNull ->
  exists n sd,
    fuel = S n
    /\ DereferenceStreamDict x obj = Ok (Some sd)
    /\ typeLegal x (PDFDict_of sd)
    /\ let d := PDFDict_of sd in
       let form :=
         validateFormStreamDict (validateXObjectStreamDict n) x sd in
       let image :=
         validateImageStreamDict n x sd isNoAlternateImageStreamDict in
       (resolvesTo x d "Subtype" (PDFName "Form") /\ form = Ok tt)
       \/ (resolvesTo x d "Subtype" (PDFName "Image") /\ image = Ok tt)
       \/ (ValidationMode x = ValidationRelaxed /\ absent x d "Subtype"
           /\ (is_Some (d !! "BBox") /\ form = Ok tt
               \/ d !! "BBox" = None /\ image = Ok tt)).
Proof.
  destruct fuel as [|n]; [discriminate|]. simpl. intros H Hnn.
  unfold validateXObjectStreamDictBody in H.
  apply bind_Ok_inv in H as (s & Hs & H).
  exists n.
  assert (H' : match s with
               | Some sd =>
                   let d := PDFDict_of sd in
                   let dictName := "xObjectStreamDict" in
                   check validateNameEntry x d dictName "Type" OPTIONAL V10
                           (Some (fun s => String.eqb s "XObject")) in
                   let required :=
                     if Mode_eqb (ValidationMode x) ValidationRelaxed
                     then OPTIONAL else REQUIRED in
                   let* subtype := validateNameEntry x d dictName "Subtype"
                                     required V10 None in
                   match subtype with
                   | None =>
                       match Find (PDFDict_of sd) "BBox" with
                       | Some _ =>
                           validateFormStreamDict
                             (validateXObjectStreamDict n) x sd
                       | None =>
                           validateImageStreamDict n x sd
                             isNoAlternateImageStreamDict
                       end
                   | Some subtype =>
                       if String.eqb subtype "Form"
                       then validateFormStreamDict
                              (validateXObjectStreamDict n) x sd
                       else if String.eqb subtype "Image"
                       then validateImageStreamDict n x sd
                              isNoAlternateImageStreamDict
                       else if String.eqb subtype "PS"
                       then Err (At XObjectStreamDict_PostScript)
                       else Err (At (XObjectStreamDict_unknownSubtype
                                       subtype))
                   end
               | None => Panic
               end = Ok tt).
  { destruct obj; try exact H. contradiction. }
  clear H. destruct s as [sd|]; [|discriminate]. exists sd.
  cbv zeta in H'.
  apply bind_Ok_inv in H' as (t & Ht & H).
  apply validateNameEntry_Type_Ok_inv in Ht.
  apply bind_Ok_inv in H as (st & Hst & H).
  refine (conj eq_refl (conj Hs (conj Ht _))). cbv zeta.
  pose proof (validateNameEntry_Subtype_Ok_inv _ _ _ _ _ Hst) as Hsub.
  destruct st as [st|].
  - destruct (String.eqb st "Form") eqn:Ef.
    { apply String.eqb_eq in Ef as ->. left. auto. }
    destruct (String.eqb st "Image") eqn:Ei.
    { apply String.eqb_eq in Ei as ->. right. left. auto. }
    destruct (String.eqb st "PS"); discriminate.
  - right. right.
    assert (Hmode : ValidationMode x = ValidationRelaxed).
    { destruct (ValidationMode x) eqn:Em; [|reflexivity]. simpl in Hst.
      exfalso. destruct Hsub as [Hsub | Hsub].
      - unfold validateNameEntry in Hst.
        rewrite validateKindEntry_required_missing in Hst by done.
        discriminate.
      - unfold validateNameEntry, validateKindEntry in Hst.
        rewrite resolveEntry_null, future_V10 in Hst by done.
        discriminate. }
    refine (conj Hmode (conj Hsub _)). unfold Find in H.
    destruct (PDFDict_of sd !! "BBox") as [b|] eqn:Eb.
    + left. split; [eauto|exact H].
    + right. split; [reflexivity|exact H].
Qed.

Lemma validateXObjectStreamDict_Ok_inv_witness :
  exists n sd,
    2 = S n
    /\ DereferenceStreamDict Examples.strict17
         (PDFStreamDict (Examples.image [("Subtype", PDFName "Image")]))
       = Ok (Some sd).
Proof.
  destruct (validateXObjectStreamDict_Ok_inv 2 Examples.strict17
              (PDFStreamDict (Examples.image [("Subtype", PDFName "Image")])))
    as (n & sd & Hn & Hsd & _).
  - reflexivity.
  - discriminate.
  - exists n, sd. split; assumption.
Defined.

(** ** Relaxed mode accepts what Strict mode accepts *)

Lemma keepsOk_refl {A} (r : result A) : keepsOk r r.
Proof. intros a H. exact H. Qed.

Lemma keepsOk_bind {A B} (m m' : result A) (k k' : A -> result B) :
  keepsOk m m' -> (forall a, keepsOk (k a) (k' a)) ->
  keepsOk (bind m k) (bind m' k').
Proof.
  intros Hm Hk b H. apply bind_Ok_inv in H as (a & Ha & H).
  rewrite (Hm a Ha). simpl. apply Hk. exact H.
Qed.

Lemma keepsOk_forEach {A} (f f' : A -> result unit) l :
  (forall a, keepsOk (f a) (f' a)) -> keepsOk (forEach f l) (forEach f' l).
Proof.
  intros Hf. induction l as [|a l IH]; simpl; [apply keepsOk_refl|].
  apply keepsOk_bind; auto.
Qed.

Lemma ValidateVersion_relaxed x element sv :
  ValidateVersion (relaxed x) element sv = Ok tt.
Proof. unfold ValidateVersion. simpl. rewrite andb_false_r. reflexivity. Qed.

Lemma ValidateVersion_keepsOk x element sv :
  keepsOk (ValidateVersion x element sv)
    (ValidateVersion (relaxed x) element sv).
Proof. intros [] _. apply ValidateVersion_relaxed. Qed.

Lemma resolveEntry_keepsOk x d dn en req req' sv sv' :
  (req' && negb (future x sv') = true -> req && negb (future x sv) = true) ->
  keepsOk (resolveEntry x d dn en req sv)
    (resolveEntry (relaxed x) d dn en req' sv').
Proof.
  intros Hreq r. unfold resolveEntry.
  change (future (relaxed x) sv') with (future x sv').
  change (Dereference (relaxed x)) with (Dereference x).
  destruct (d !! en) as [o|].
  - destruct (Dereference x o) as [v| | |]; simpl; try discriminate.
    destruct v; try (intros H; exact H);
      destruct (req && negb (future x sv)); try discriminate;
      destruct (req' && negb (future x sv')); [|intros H; exact H];
      discriminate (Hreq eq_refl).
  - destruct (req && negb (future x sv)); try discriminate.
    destruct (req' && negb (future x sv')); [|intros H; exact H].
    discriminate (Hreq eq_refl).
Qed.

Lemma validateKindEntry_keepsOk {A} (decode : PDFObject -> option A)
    x d dn en req req' sv sv' validate :
  (req' && negb (future x sv') = true -> req && negb (future x sv) = true) ->
  keepsOk (validateKindEntry decode x d dn en req sv validate)
    (validateKindEntry decode (relaxed x) d dn en req' sv' validate).
Proof.
  intros Hreq. unfold validateKindEntry. apply keepsOk_bind.
  - apply resolveEntry_keepsOk. exact Hreq.
  - intros [obj|]; [|apply keepsOk_refl].
    destruct (decode obj) as [a|]; [|apply keepsOk_refl].
    destruct (match validate with Some p => p a | None => true end);
      [|apply keepsOk_refl].
    intros r H. apply bind_Ok_inv in H as (_ & _ & H).
    rewrite ValidateVersion_relaxed. exact H.
Qed.

Lemma validateEntry_keepsOk x d dn en req sv :
  keepsOk (validateEntry x d dn en req sv)
    (validateEntry (relaxed x) d dn en req sv).
Proof.
  unfold validateEntry. apply keepsOk_bind.
  - apply resolveEntry_keepsOk. intros H. exact H.
  - intros [obj|]; [|apply keepsOk_refl].
    intros r H. apply bind_Ok_inv in H as (_ & _ & H).
    rewrite ValidateVersion_relaxed. exact H.
Qed.

Lemma validateColorSpaceEntry_keepsOk x d dn en req req' excl :
  (req' = true -> req = true) ->
  keepsOk (validateColorSpaceEntry x d dn en req excl)
    (validateColorSpaceEntry (relaxed x) d dn en req' excl).
Proof.
  intros Hreq. unfold validateColorSpaceEntry. apply keepsOk_bind.
  - apply resolveEntry_keepsOk. rewrite future_V10, !andb_true_r.
    exact Hreq.
  - intros o. apply keepsOk_refl.
Qed.

Lemma validateOPIVersionDict_table x x' d :
  Table x = Table x' ->
  validateOPIVersionDict x d = validateOPIVersionDict x' d.
Proof.
  intros Ht. unfold validateOPIVersionDict.
  destruct (negb (Nat.eqb (Len d) 1)); [reflexivity|].
  apply validateOPIVersionDictEntries_table. exact Ht.
Qed.

Lemma validateImageStreamDictPart1_keepsOk x sd dn :
  keepsOk (validateImageStreamDictPart1 x sd dn)
    (validateImageStreamDictPart1 (relaxed x) sd dn).
Proof.
  unfold validateImageStreamDictPart1, validateIntegerEntry,
    validateBooleanEntry. cbv zeta.
  apply keepsOk_bind; [apply validateKindEntry_keepsOk; auto|intros _].
  apply keepsOk_bind; [apply validateKindEntry_keepsOk; auto|intros _].
  apply keepsOk_bind; [apply validateKindEntry_keepsOk; auto|intros im].
  destruct (negb match im with Some b => b | None => false end);
    [|apply keepsOk_refl].
  apply keepsOk_bind; [|intros; apply keepsOk_refl].
  apply validateColorSpaceEntry_keepsOk. simpl.
  destruct (HasSoleFilterNamed sd filter.JPX),
    (HasSoleFilterNamed sd filter.CCITTFax),
    (Mode_eqb (ValidationMode x) ValidationRelaxed);
    unfold OPTIONAL, REQUIRED; simpl; congruence.
Qed.

Lemma validateImageStreamDictBody_keepsOk rec rec' :
  (forall x sd alt, keepsOk (rec x sd alt) (rec' (relaxed x) sd alt)) ->
  forall x sd alt,
    keepsOk (validateImageStreamDictBody rec x sd alt)
      (validateImageStreamDictBody rec' (relaxed x) sd alt).
Proof.
  intros Hrec x sd alt. unfold validateImageStreamDictBody.
  apply keepsOk_bind; [apply validateImageStreamDictPart1_keepsOk|].
  intros im.
  unfold validateImageStreamDictPart2, validateMaskEntry,
    validateMaskStreamDict, validateAlternateImageStreamDicts,
    validateEntryOPI, validateMetadata, validateEntryOC,
    validateOptionalContentGroupDict, validateIntegerEntry,
    validateNameEntry, validateNumberArrayEntry, validateBooleanEntry,
    validateArrayEntry, validateStreamDictEntry, validateStringEntry,
    validateDictEntry.
  cbv zeta.
  repeat match goal with
         | |- keepsOk ?r ?r => apply keepsOk_refl
         | |- keepsOk (bind _ _) (bind _ _) => apply keepsOk_bind; [|intros]
         | |- keepsOk (forEach _ _) (forEach _ _) =>
             apply keepsOk_forEach; intros
         | |- keepsOk (validateKindEntry _ _ _ _ _ _ _ _)
                (validateKindEntry _ _ _ _ _ _ _ _) =>
             apply validateKindEntry_keepsOk;
             first [ intros H; exact H
                   | unfold OPTIONAL; simpl; discriminate ]
         | |- keepsOk (validateEntry _ _ _ _ _ _) (validateEntry _ _ _ _ _ _) =>
             apply validateEntry_keepsOk
         | |- keepsOk (rec _ _ _) (rec' _ _ _) => apply Hrec
         | |- keepsOk (validateOPIVersionDict x ?d)
                (validateOPIVersionDict (relaxed x) ?d) =>
             rewrite (validateOPIVersionDict_table x (relaxed x) d eq_refl);
             apply keepsOk_refl
         | |- keepsOk (match ?t with _ => _ end) (match ?t with _ => _ end) =>
             destruct t
         | |- keepsOk _ _ => exact (keepsOk_refl _)
         end.
Qed.

Lemma validateImageStreamDict_keepsOk fuel x sd alt :
  keepsOk (validateImageStreamDict fuel x sd alt)
    (validateImageStreamDict fuel (relaxed x) sd alt).
Proof.
  revert x sd alt. induction fuel as [|n IH]; intros x sd alt.
  - intros a H. discriminate.
  - simpl. apply validateImageStreamDictBody_keepsOk. exact IH.
Qed.

Lemma validateFormStreamDictPart2_keepsOk x d dn :
  keepsOk (validateFormStreamDictPart2 x d dn)
    (validateFormStreamDictPart2 (relaxed x) d dn).
Proof.
  unfold validateFormStreamDictPart2, validatePieceInfo, validateDateEntry,
    validateEntryOPI, validateOptionalContent, validateIntegerEntry,
    validateNameEntry, validateDictEntry.
  cbv zeta.
  repeat match goal with
         | |- keepsOk ?r ?r => apply keepsOk_refl
         | |- keepsOk (bind _ _) (bind _ _) => apply keepsOk_bind; [|intros]
         | |- keepsOk (validateKindEntry _ _ _ _ _ _ _ _)
                (validateKindEntry _ _ _ _ _ _ _ _) =>
             apply validateKindEntry_keepsOk;
             first [ intros H; exact H
                   | unfold OPTIONAL; simpl; discriminate ]
         | |- keepsOk (validateOPIVersionDict x ?d)
                (validateOPIVersionDict (relaxed x) ?d) =>
             rewrite (validateOPIVersionDict_table x (relaxed x) d eq_refl);
             apply keepsOk_refl
         | |- keepsOk (match ?t with _ => _ end) (match ?t with _ => _ end) =>
             destruct t
         | |- keepsOk _ _ => exact (keepsOk_refl _)
         end.
Qed.

Lemma validateXObjectStreamDictBody_keepsOk rec rec' img img' :
  (forall x o, keepsOk (rec x o) (rec' (relaxed x) o)) ->
  (forall x sd alt, keepsOk (img x sd alt) (img' (relaxed x) sd alt)) ->
  forall x obj,
    keepsOk (validateXObjectStreamDictBody rec img x obj)
      (validateXObjectStreamDictBody rec' img' (relaxed x) obj).
Proof.
  intros Hrec Himg x obj.
  unfold validateXObjectStreamDictBody, validateFormStreamDict,
    validateFormStreamDictPart1, validateResourceDict,
    validateXObjectResourceDict, validatePageEntryGroup,
    validateGroupAttributesDict, validateReferenceDict, validateMetadata,
    validateFileSpecEntry, validateStringArrayEntry, validateIntegerEntry,
    validateNameEntry, validateNumberArrayEntry, validateBooleanEntry,
    validateRectangleEntry, validateStreamDictEntry, validateDictEntry.
  cbv zeta.
  change (future (relaxed x)) with (future x).
  repeat match goal with
         | |- keepsOk ?r ?r => apply keepsOk_refl
         | |- keepsOk (bind _ _) (bind _ _) => apply keepsOk_bind; [|intros]
         | |- keepsOk (forEach _ _) (forEach _ _) =>
             apply keepsOk_forEach; intros
         | |- keepsOk (validateKindEntry _ _ _ _ _ _ _ _)
                (validateKindEntry _ _ _ _ _ _ _ _) =>
             apply validateKindEntry_keepsOk;
             first [ intros H; exact H
                   | unfold OPTIONAL; simpl; discriminate ]
         | |- keepsOk (validateColorSpaceEntry _ _ _ _ _ _)
                (validateColorSpaceEntry _ _ _ _ _ _) =>
             apply validateColorSpaceEntry_keepsOk; intros H; exact H
         | |- keepsOk (ValidateVersion _ _ _) (ValidateVersion _ _ _) =>
             apply ValidateVersion_keepsOk
         | |- keepsOk (validateFormStreamDictPart2 _ _ _)
                (validateFormStreamDictPart2 _ _ _) =>
             apply validateFormStreamDictPart2_keepsOk
         | |- keepsOk (rec _ _) (rec' _ _) => apply Hrec
         | |- keepsOk (img _ _ _) (img' _ _ _) => apply Himg
         | |- keepsOk (match ?t with _ => _ end) (match ?t with _ => _ end) =>
             destruct t
         | |- keepsOk _ _ => exact (keepsOk_refl _)
         end.
Qed.

Lemma validateXObjectStreamDict_keepsOk fuel x obj :
  keepsOk (validateXObjectStreamDict fuel x obj)
    (validateXObjectStreamDict fuel (relaxed x) obj).
Proof.
  revert x obj. induction fuel as [|n IH]; intros x obj.
  - intros a H. discriminate.
  - simpl. apply validateXObjectStreamDictBody_keepsOk.
    + exact IH.
    + intros. apply validateImageStreamDict_keepsOk.
Qed.

(** X13. Whatever external object validates in Strict mode validates in
    Relaxed mode, on the same table and document: the checks that depend
    on the mode only loosen. *)
Theorem validateXObjectStreamDict_Strict_then_Relaxed (fuel : nat)
    (x : XRefTable) (obj : PDFObject) :
  validateXObjectStreamDict fuel x obj = Ok tt ->
  validateXObjectStreamDict fuel (relaxed x) obj = Ok tt.
Proof. apply validateXObjectStreamDict_keepsOk. Qed.

Lemma validateXObjectStreamDict_Strict_then_Relaxed_witness :
  validateXObjectStreamDict 2 (relaxed Examples.strict17)
    (PDFStreamDict (Examples.image [("Subtype", PDFName "Image")]))
  = Ok tt.
Proof.
  apply validateXObjectStreamDict_Strict_then_Relaxed. reflexivity.
Defined.

(** ** Where the errors of an image come from *)

Lemma raisesAt_bind {A B : Type} S (m : result A) (k : A -> result B) :
  raisesAt S m -> (forall a, raisesAt S (k a)) -> raisesAt S (bind m k).
Proof. destruct m; simpl; auto. Qed.

Lemma raisesAt_forEach {A : Type} S (f : A -> result unit) l :
  (forall a, raisesAt S (f a)) -> raisesAt S (forEach f l).
Proof.
  intros Hf. induction l as [|a l IH]; simpl; [exact I|].
  apply raisesAt_bind; auto.
Qed.

Lemma Dereference_raisesAt S x o : raisesAt S (Dereference x o).
Proof. unfold Dereference. repeat sites_step @raisesAt_bind. Qed.
#[local] Hint Resolve Dereference_raisesAt : sites.

Lemma DereferenceDict_raisesAt S x o : raisesAt S (DereferenceDict x o).
Proof. unfold DereferenceDict. repeat sites_step @raisesAt_bind. Qed.

Lemma DereferenceStreamDict_raisesAt S x o :
  raisesAt S (DereferenceStreamDict x o).
Proof. unfold DereferenceStreamDict. repeat sites_step @raisesAt_bind. Qed.

Lemma ValidateVersion_raisesAt S x element sv :
  raisesAt S (ValidateVersion x element sv).
Proof. unfold ValidateVersion. repeat sites_step @raisesAt_bind. Qed.
#[local] Hint Resolve DereferenceDict_raisesAt DereferenceStreamDict_raisesAt
  ValidateVersion_raisesAt : sites.

Lemma resolveEntry_raisesAt S x d dn en req sv :
  raisesAt S (resolveEntry x d dn en req sv).
Proof. unfold resolveEntry. repeat sites_step @raisesAt_bind. Qed.
#[local] Hint Resolve resolveEntry_raisesAt : sites.

Lemma validateKindEntry_raisesAt {A} S (decode : PDFObject -> option A)
    x d dn en req sv validate :
  raisesAt S (validateKindEntry decode x d dn en req sv validate).
Proof. unfold validateKindEntry. repeat sites_step @raisesAt_bind. Qed.

Lemma validateEntry_raisesAt S x d dn en req sv :
  raisesAt S (validateEntry x d dn en req sv).
Proof. unfold validateEntry. repeat sites_step @raisesAt_bind. Qed.

Lemma validateColorSpaceEntry_raisesAt S x d dn en req excl :
  raisesAt S (validateColorSpaceEntry x d dn en req excl).
Proof. unfold validateColorSpaceEntry. repeat sites_step @raisesAt_bind. Qed.
#[local] Hint Resolve validateKindEntry_raisesAt validateEntry_raisesAt
  validateColorSpaceEntry_raisesAt : sites.

Lemma validateOPIDictV13_raisesAt x d :
  raisesAt imageSite (validateOPIDictV13 x d).
Proof.
  unfold validateOPIDictV13, validateOPIDictV13Part1, validateOPIDictV13Part2,
    validateNameEntry, validateNumberEntry, validateFileSpecEntry,
    validateStringEntry, validateIntegerArrayEntry, validateRectangleEntry,
    validateNumberArrayEntry, validateArrayEntry, validateBooleanEntry.
  repeat sites_step @raisesAt_bind.
Qed.

Lemma validateOPIDictV20_raisesAt x d :
  raisesAt imageSite (validateOPIDictV20 x d).
Proof.
  unfold validateOPIDictV20, validateOPIDictInks, validateNameEntry,
    validateNumberEntry, validateFileSpecEntry, validateStringEntry,
    validateIntegerArrayEntry, validateRectangleEntry,
    validateNumberArrayEntry, validateArrayEntry, validateBooleanEntry,
    validateIntegerEntry.
  repeat sites_step @raisesAt_bind.
Qed.
#[local] Hint Resolve validateOPIDictV13_raisesAt validateOPIDictV20_raisesAt
  : sites.

Lemma validateOPIVersionDict_raisesAt x d :
  raisesAt imageSite (validateOPIVersionDict x d).
Proof.
  unfold validateOPIVersionDict.
  destruct (negb (Nat.eqb (Len d) 1)); [reflexivity|].
  induction (map_to_list d) as [|[k o] l IH]; simpl; [exact I|].
  repeat sites_step @raisesAt_bind; exact IH.
Qed.
#[local] Hint Resolve validateOPIVersionDict_raisesAt : sites.

Lemma validateImageStreamDictBody_raisesAt rec :
  (forall x sd alt, raisesAt imageSite (rec x sd alt)) ->
  forall x sd alt,
    raisesAt imageSite (validateImageStreamDictBody rec x sd alt).
Proof.
  intros Hrec x sd alt.
  unfold validateImageStreamDictBody, validateImageStreamDictPart1,
    validateImageStreamDictPart2, validateMaskEntry, validateMaskStreamDict,
    validateAlternateImageStreamDicts, validateStreamDict, validateEntryOPI,
    validateMetadata, validateEntryOC, validateOptionalContentGroupDict,
    validateIntegerEntry, validateNameEntry, validateNumberArrayEntry,
    validateBooleanEntry, validateArrayEntry, validateStreamDictEntry,
    validateStringEntry, validateDictEntry.
  repeat first [ apply raisesAt_forEach; intros
               | apply Hrec
               | sites_step @raisesAt_bind ].
Qed.

Lemma validateImageStreamDict_raisesAt fuel x sd alt :
  raisesAt imageSite (validateImageStreamDict fuel x sd alt).
Proof.
  revert x sd alt. induction fuel as [|n IH]; intros x sd alt; [exact I|].
  simpl. apply validateImageStreamDictBody_raisesAt. exact IH.
Qed.

(** X14. The validation of an image never panics, and an error that it
    builds itself comes from the code of masks, alternates and OPI
    dictionaries: never from the dispatcher (PostScript, unknown
    subtype), from the rules of forms, or from reference dictionaries. *)
Theorem validateImageStreamDict_never (fuel : nat) (x : XRefTable)
    (sd : StreamDict) (isAlternate : bool) :
  validateImageStreamDict fuel x sd isAlternate <> Panic
  /\ forall s, validateImageStreamDict fuel x sd isAlternate = Err (At s) ->
       imageSite s = true
       /\ s <> XObjectStreamDict_PostScript
       /\ (forall name, s <> XObjectStreamDict_unknownSubtype name)
       /\ s <> FormStreamDictPart2_missingLastModified
       /\ s <> FormStreamDictPart2_bothStructParents
       /\ s <> ReferenceDict_missingPage
       /\ s <> ReferenceDictPageEntry_corruptType.
Proof.
  pose proof (validateImageStreamDict_raisesAt fuel x sd isAlternate) as H.
  split.
  - intros E. rewrite E in H. exact H.
  - intros s E. rewrite E in H. simpl in H.
    split; [exact H|].
    destruct s; try discriminate H;
      refine (conj _ (conj _ (conj _ (conj _ (conj _ _)))));
      try intros name; discriminate.
Qed.

(** ** Soft masks *)

Lemma validateImageStreamDict_SMask_inv fuel x sd alt v :
  validateImageStreamDict fuel x sd alt = Ok tt ->
  resolvesTo x (PDFDict_of sd) "SMask" v -> v <> PDFNull ->
  exists m n,
    v = PDFStreamDict m /\ fuel = S n
    /\ validateImageStreamDict n x m isNoAlternateImageStreamDict = Ok tt.
Proof.
  destruct fuel as [|n]; [discriminate|]. simpl. intros H Hv Hnn.
  unfold validateImageStreamDictBody in H.
  apply bind_Ok_inv in H as (im & _ & H).
  apply bind_Ok_inv in H as (u & _ & H).
  apply bind_Ok_inv in H as (sm & Hsm & H).
  apply bind_Ok_inv in H as ([] & Hrec & _).
  apply validateKindEntry_Ok_inv in Hsm. destruct sm as [m|].
  - destruct Hsm as (w & Hw & Hdec & _).
    pose proof (resolvesTo_fun _ _ _ _ _ Hv Hw) as <-.
    destruct v; try discriminate. simpl in Hdec. injection Hdec as ->.
    exists m, n. auto.
  - exfalso. destruct Hsm as [Hsm | Hsm].
    + apply (resolvesTo_not_missing _ _ _ _ Hv Hsm).
    + apply Hnn. apply (resolvesTo_fun _ _ _ _ _ Hv Hsm).
Qed.

(** X15. On an image that validates, an [SMask] that is present and not
    null is a stream dictionary that validates as an image in its own
    right, not as an alternate, one level deeper; unlike a [Mask], it is
    not asked for a [Subtype]. *)
Theorem validateImageStreamDict_SMask (fuel : nat) (x : XRefTable)
    (sd : StreamDict) (isAlternate : bool) (v : PDFObject) :
  validateImageStreamDict fuel x sd isAlternate = Ok tt ->
  resolvesTo x (PDFDict_of sd) "SMask" v -> v <> PDFNull ->
  exists m n,
    v = PDFStreamDict m /\ fuel = S n
    /\ validateImageStreamDict n x m isNoAlternateImageStreamDict = Ok tt.
Proof. apply validateImageStreamDict_SMask_inv. Qed.

Lemma validateImageStreamDict_SMask_witness :
  exists m n,
    PDFStreamDict (Examples.image []) = PDFStreamDict m /\ 2 = S n
    /\ validateImageStreamDict n Examples.strict17 m
         isNoAlternateImageStreamDict = Ok tt.
Proof.
  apply (validateImageStreamDict_SMask 2 Examples.strict17 softMasked false).
  - reflexivity.
  - exists (PDFStreamDict (Examples.image [])). split; reflexivity.
  - discriminate.
Defined.

(** X16. An image whose [SMask] resolves to the image itself never
    validates, at any depth, image mask or not. *)
Theorem validateImageStreamDict_self_SMask (fuel : nat) (x : XRefTable)
    (sd : StreamDict) (isAlternate : bool) :
  resolvesTo x (PDFDict_of sd) "SMask" (PDFStreamDict sd) ->
  validateImageStreamDict fuel x sd isAlternate <> Ok tt.
Proof.
  intros Hself. revert isAlternate.
  induction fuel as [|n IH]; intros alt H; [discriminate|].
  destruct (validateImageStreamDict_SMask_inv _ _ _ _ _ H Hself)
    as (m & k & Hm & Hk & Hok); [discriminate|].
  injection Hm as <-. injection Hk as <-.
  exact (IH _ Hok).
Qed.

Lemma validateImageStreamDict_self_SMask_witness :
  validateImageStreamDict 4 selfSoftMaskedTable selfSoftMasked false <> Ok tt.
Proof.
  apply validateImageStreamDict_self_SMask.
  exists (PDFIndirectRef 7 0). split; reflexivity.
Defined.

(** ** Where the dispatcher panics *)

Lemma raisesAt_any {A} S (r : result A) :
  raisesAt S r -> raisesAt anySite r.
Proof. destruct r as [a|[s|]| |]; simpl; auto. Qed.


Lemma validateOPIVersionDict_raisesAt_any x d :
  raisesAt anySite (validateOPIVersionDict x d).
Proof. eapply raisesAt_any. apply validateOPIVersionDict_raisesAt. Qed.
#[local] Hint Resolve validateOPIVersionDict_raisesAt_any : sites.

Lemma validateFormStreamDictPart2_raisesAt x d dn :
  raisesAt anySite (validateFormStreamDictPart2 x d dn).
Proof.
  unfold validateFormStreamDictPart2, validatePieceInfo, validateDateEntry,
    validateEntryOPI, validateOptionalContent, validateIntegerEntry,
    validateNameEntry, validateDictEntry.
  repeat sites_step @raisesAt_bind.
Qed.
#[local] Hint Resolve validateFormStreamDictPart2_raisesAt : sites.





(** ** The characterisations on concrete dictionaries *)

Lemma validateReferenceDict_Ok_iff_witness :
  validateReferenceDict Examples.strict17 refDictWithID = Ok tt.
Proof.
  apply validateReferenceDict_Ok_iff. split; [|split].
  - exists (PDFStringLiteral "f"), (PDFStringLiteral "f").
    split; [exists (PDFStringLiteral "f"); split; reflexivity|].
    split; [reflexivity|exact I].
  - exists (PDFInteger 3).
    split; [exists (PDFInteger 3); split; reflexivity|exact I].
  - right. eexists. eexists.
    split; [eexists; split; reflexivity|]. split; reflexivity.
Defined.

Lemma validateGroupAttributesDict_Ok_iff_witness :
  optional asName (fun s => s = "Group") Examples.strict17
    transparencyGroup "Type"
  /\ present asName (fun s => s = "Transparency") Examples.strict17
       transparencyGroup "S".
Proof.
  destruct (proj1 (validateGroupAttributesDict_Ok_iff Examples.strict17
                     (PDFDict transparencyGroup)) eq_refl)
    as [H | (d & Hd & Ht & Hs & _)]; [discriminate|].
  injection Hd as <-. split; assumption.
Defined.

Lemma validateXObjectResourceDict_Ok_iff_witness :
  validateXObjectStreamDict 2 Examples.strict17
    (PDFStreamDict (Examples.image [("Subtype", PDFName "Image")]))
  = Ok tt.
Proof.
  destruct (proj1 (validateXObjectResourceDict_Ok_iff
                     (validateXObjectStreamDict 2) Examples.strict17
                     (PDFDict twoImages) V10) eq_refl)
    as (_ & [H | (d & Hd & Hall)]); [discriminate|].
  injection Hd as <-. apply (Hall "Im1"). reflexivity.
Defined.

Lemma validateAlternateImageStreamDicts_Ok_iff_witness :
  validateAlternateImageStreamDicts (validateImageStreamDict 1)
    Examples.strict17 (PDFDict_of Examples.oneLevelOfAlternates)
    "imageStreamDict" "Alternates" OPTIONAL V13
  = Ok tt.
Proof.
  apply validateAlternateImageStreamDicts_Ok_iff. right.
  exists [PDFStreamDict (Examples.image []); PDFStreamDict (Examples.image [])].
  split; [eexists; split; reflexivity|]. split; [reflexivity|].
  constructor; [|constructor; [|constructor]];
    right; exists (Examples.image []); split; reflexivity.
Defined.
